(** * Guest Personality & Behavior Expander: a shallow embedding of the plugin

    The plugin (guest-personality-expander.js) keeps one profile per park
    guest and one record per social group, and drives a mood engine, a
    behaviour cascade, a social engine and a budgeted scheduler on top of the
    host game.  This file embeds the data model and the operations of the
    plugin as Rocq functions and states properties of them.

    Conventions of the embedding.
    - JavaScript numbers that hold integers (ids, ticks, counters, the host's
      byte-valued guest fields, trait values) are [Z] or [N]; numbers that may
      be fractional (mood intensity, modifiers, satisfaction, random floats)
      are IEEE binary64 values, Rocq's primitive [float], so that every
      arithmetic step rounds as it does in the engine.
    - Objects used as tables ([guests], [groups], [ridesRidden], [traits])
      are finite maps.
    - The plugin's singletons ([PersonalityStore], [RandomGenerator],
      [CONFIG], ...) are records passed explicitly; the host game is a record
      of the answers it gives ([Host]), a failing host call being [None]. *)

From Stdlib Require Import ZArith NArith Floats Lia.
From stdpp Require Import gmap strings list sorting.

Set Warnings "-inexact-float".
#[local] Open Scope Z_scope.

(** ** Numbers *)

(** The Number value of an integer: the nearest binary64 value. *)
Definition Z2f (z : Z) : float := SF2Prim (binary_normalize prec emax z 0 false).

(** The integer part of a finite binary64 value (truncation toward zero);
    0 for NaN and the infinities, which have none. *)
Definition F2Z (x : float) : Z :=
  match Prim2SF x with
  | S754_finite s m e =>
      let v := if 0 <=? e then Z.pos m * 2 ^ e else Z.pos m / 2 ^ (- e) in
      if s then - v else v
  | _ => 0
  end.

(** [Math.round]: the integer nearest to [x], ties toward +infinity, computed
    exactly from the mantissa and exponent.  NaN and the infinities have no
    integer value; the model returns 0 for them, and the properties below
    that depend on a rounded value are stated where the argument is
    [finite]. *)
Definition Math_round (x : float) : Z :=
  match Prim2SF x with
  | S754_finite s m e =>
      let v := if s then Z.neg m else Z.pos m in
      if 0 <=? e then v * 2 ^ e else (2 * v + 2 ^ (- e)) / 2 ^ (- e + 1)
  | _ => 0
  end.

(** [x] is neither NaN nor an infinity. *)
Definition finite (x : float) : bool :=
  match Prim2SF x with
  | S754_finite _ _ _ | S754_zero _ => true
  | _ => false
  end.

(** [a > b] and [a >= b] on Numbers (false as soon as one side is NaN). *)
Definition gt (a b : float) : bool := (b <? a)%float.
Definition ge (a b : float) : bool := (b <=? a)%float.

(** ** Identities

    The host identifies a guest by a number.  The tables of the store are
    JavaScript objects, so a guest's entry sits under the decimal string of
    its id, and a [for (k in table)] loop yields that string, not the
    number.  [Num n] is the number n, [Key n] the property name of n; both
    select the same table slot, and strict equality ([===], [indexOf]) tells
    them apart. *)
Inductive ident := Num (n : N) | Key (n : N).

Definition slot (i : ident) : N := match i with Num n | Key n => n end.

#[global] Instance ident_eq_dec : EqDecision ident.
Proof. solve_decision. Defined.

(** [Array.prototype.indexOf] (strict equality), [None] for -1. *)
Fixpoint indexOf (x : ident) (l : list ident) : option nat :=
  match l with
  | [] => None
  | y :: l' => if decide (y = x) then Some 0%nat else S <$> indexOf x l'
  end.

(** [l.splice(i, 1)]. *)
Definition splice1 (i : nat) (l : list ident) : list ident := take i l ++ drop (S i) l.

(** The own keys of a table in [for-in] order: integer keys ascend. *)
Definition own_keys {A} (m : gmap N A) : list N := merge_sort N.le (elements (dom m)).

(** ** Constants *)

Definition PERSONALITY_TRAITS : list (string * string) :=
  [ ("THRILL_SEEKER", "thrillSeeker"); ("SOCIAL", "social"); ("PATIENT", "patient");
    ("FRUGAL", "frugal"); ("HUNGRY", "hungry"); ("ADVENTUROUS", "adventurous");
    ("NERVOUS", "nervous"); ("ENERGETIC", "energetic"); ("ROMANTIC", "romantic");
    ("FOODIE", "foodie"); ("COLLECTOR", "collector"); ("PHOTOGRAPHER", "photographer") ]%string.

Inductive MOOD_STATES :=
  | ECSTATIC | HAPPY | CONTENT | NEUTRAL | BORED | ANNOYED | SAD | ANGRY
  | SCARED | EXCITED | TIRED | HUNGRY_MOOD | THIRSTY_MOOD | SICK.

Inductive BEHAVIOR_TYPES :=
  | WANDERING | SEEKING_RIDE | SEEKING_FOOD | SEEKING_DRINK | SEEKING_TOILET
  | SEEKING_SHELTER | SOCIALIZING | RESTING | PHOTO_TAKING | SHOPPING | LEAVING
  | FOLLOWING_GROUP | LEADING_GROUP.

#[global] Instance MOOD_STATES_eq_dec : EqDecision MOOD_STATES.
Proof. solve_decision. Defined.

#[global] Instance BEHAVIOR_TYPES_eq_dec : EqDecision BEHAVIOR_TYPES.
Proof. solve_decision. Defined.

(** ** CONFIG *)

Record CONFIG := {
  enabled : bool;
  frameBudgetMs : float;
  maxGuestsPerTick : Z;
  updateInterval : Z;
  moodDecayInterval : Z;
  socialUpdateInterval : Z;
  adaptivePerformance : bool;
  minGuestsPerTick : Z;
  maxAdaptiveGuestsPerTick : Z;
  targetFrameTime : float;
  moodInfluenceStrength : float;
  socialInfluenceRadius : Z;
  groupFormationChance : float;
  weatherReactionsEnabled : bool;
  ridePreferencesEnabled : bool;
  socialBehaviorEnabled : bool;
  happyMoodThreshold : Z;
  neutralMoodThreshold : Z;
  sadMoodThreshold : Z
}.

(** The values the source initialises [CONFIG] with. *)
Definition default_CONFIG : CONFIG := {|
  enabled := true;
  frameBudgetMs := 2.5;
  maxGuestsPerTick := 5;
  updateInterval := 8;
  moodDecayInterval := 100;
  socialUpdateInterval := 30;
  adaptivePerformance := true;
  minGuestsPerTick := 1;
  maxAdaptiveGuestsPerTick := 8;
  targetFrameTime := 2.0;
  moodInfluenceStrength := 0.5;
  socialInfluenceRadius := 5;
  groupFormationChance := 0.15;
  weatherReactionsEnabled := true;
  ridePreferencesEnabled := true;
  socialBehaviorEnabled := true;
  happyMoodThreshold := 180;
  neutralMoodThreshold := 120;
  sadMoodThreshold := 60
|}.

(** ** The host game *)

Inductive network_mode := mode_none | mode_server | mode_client.

(** A guest entity as the plugin reads and writes it.  [entity_id] is [None]
    for a null id, [is_guest] is [type === 'guest'], [hasUmbrella] is the
    answer of [hasItem({type: 'umbrella'})] ([None]: the call throws). *)
Record Entity := {
  entity_id : option N;
  is_guest : bool;
  guest_x : Z;
  guest_y : Z;
  hunger : Z;
  thirst : Z;
  toilet : Z;
  energy : Z;
  nausea : Z;
  happiness : Z;
  happinessTarget : Z;
  energyTarget : Z;
  isInPark : bool;
  hasUmbrella : option bool
}.

(** What the host answers.  A field of option type is [None] when the call
    throws (or, for [getEntity], returns null).  [getAllEntities] and
    [getAllEntitiesOnTile] are the queries for entities of type 'guest';
    [weather] is [climate.current.weather]; [getRandom k] is the k-th answer
    of [context.getRandom(0, 10000)]; [now k] is the k-th reading of
    [Date.now()]; [Math_log] and [Math_cos] are the runtime's [Math.log] and
    [Math.cos]. *)
Record Host := {
  network : option network_mode;
  ticksElapsed : Z;
  getAllEntities : option (list (option Entity));
  getAllEntitiesOnTile : Z -> Z -> option (list Entity);
  getEntity : ident -> option Entity;
  weather : option string;
  getRandom : nat -> option Z;
  now : nat -> Z;
  Math_log : float -> float;
  Math_cos : float -> float
}.

(** ** NetworkHelper *)

Definition getMode (H : Host) : network_mode := default mode_none (network H).

Definition isServer (H : Host) : bool :=
  match getMode H with mode_none | mode_server => true | mode_client => false end.

Definition canModifyGameState (H : Host) : bool := isServer H.

(** ** RandomGenerator *)

(** [seed] is the generator's field; [drawn] counts the calls made to the
    host's [context.getRandom] so far and selects its next answer. *)
Record RandomGenerator := { seed : Z; drawn : nat }.

Definition initial_RandomGenerator : RandomGenerator := {| seed := 12345; drawn := 0 |}.

(** [getSeededRandom]: the product and the sum are binary64 operations, the
    mask keeps the low 31 bits of the result's integer value. *)
Definition getSeededRandom (min max : Z) (r : RandomGenerator) : Z * RandomGenerator :=
  let seed' := Z.land (F2Z (Z2f (seed r) * Z2f 1103515245 + Z2f 12345)%float) 2147483647 in
  (min + Z.rem seed' (max - min), {| seed := seed'; drawn := drawn r |}).

Definition getGameRandom (H : Host) (min max : Z) (r : RandomGenerator) : Z * RandomGenerator :=
  match getRandom H (drawn r) with
  | Some v => (v, {| seed := seed r; drawn := S (drawn r) |})
  | None => getSeededRandom min max {| seed := seed r; drawn := S (drawn r) |}
  end.

Definition getRandomFloat (H : Host) (r : RandomGenerator) : float * RandomGenerator :=
  let '(v, r') := getGameRandom H 0 10000 r in ((Z2f v / 10000)%float, r').

Definition Math_PI : float := 3.141592653589793%float.

(** The Box-Muller value [mean + z * stdDev] that [getGaussianRandom] rounds. *)
Definition gaussian (H : Host) (mean stdDev : float) (r : RandomGenerator)
  : float * RandomGenerator :=
  let '(u1, r1) := getRandomFloat H r in
  let '(u2, r2) := getRandomFloat H r1 in
  let u1 := if (u1 =? 0)%float then 0.0001%float else u1 in
  let z := (sqrt (-2.0 * Math_log H u1) * Math_cos H (2.0 * Math_PI * u2))%float in
  ((mean + z * stdDev)%float, r2).

Definition getGaussianRandom (H : Host) (mean stdDev : float) (r : RandomGenerator)
  : Z * RandomGenerator :=
  let '(v, r2) := gaussian H mean stdDev r in (Math_round v, r2).

(** The runtime's [Math.log] and [Math.cos] and the host's random numbers
    keep the Box-Muller value of trait generation a finite Number (as the
    real logarithm and cosine do for draws in [0, 10000)). *)
Definition gaussian_finite (H : Host) : Prop :=
  ∀ r, finite (fst (gaussian H 128 40 r)) = true.

(** ** PersonalityStore: the data model *)

Record Mood := {
  mood_current : MOOD_STATES;
  mood_intensity : float;
  mood_lastChange : Z
}.

(** [behavior.target] is null or the object [{type: 'ride', preferredIntensity}]. *)
Inductive Target := RideTarget (preferredIntensity : Z).

Record Behavior := {
  behavior_current : BEHAVIOR_TYPES;
  behavior_target : option Target;
  behavior_startTick : Z
}.

Record Social := {
  social_groupId : option N;
  social_isLeader : bool;
  social_friendIds : list ident;
  social_recentInteractions : Z
}.

Record RideMemory := { timesRidden : Z; totalSatisfaction : float }.

Record Purchase := { purchase_item : string; purchase_price : Z; purchase_tick : Z }.

Record Memory := {
  ridesRidden : gmap N RideMemory;
  favoriteRide : option N;
  worstExperience : option N;
  totalSpent : Z;
  itemsBought : list Purchase;
  timeInPark : Z
}.

Record Modifiers := {
  happinessBonus : float;
  energyDrain : float;
  hungerRate : float;
  thirstRate : float;
  spendingMultiplier : float
}.

Record Stats := {
  moodChanges : Z;
  behaviorsChanged : Z;
  socialInteractions : Z;
  decisionsInfluenced : Z
}.

Record Profile := {
  profile_id : ident;
  createdTick : Z;
  traits : gmap string Z;
  mood : Mood;
  behavior : Behavior;
  social : Social;
  memory : Memory;
  modifiers : Modifiers;
  stats : Stats
}.

Record Group := {
  group_id : N;
  leaderId : ident;
  members : list ident;
  formation : string;
  targetRide : option N;
  group_createdTick : Z
}.

Record PersonalityStore := {
  guests : gmap N Profile;
  groups : gmap N Group;
  nextGroupId : N
}.

(** Field updates. *)
Definition set_traits (t : gmap string Z) (p : Profile) : Profile :=
  {| profile_id := profile_id p; createdTick := createdTick p; traits := t; mood := mood p;
     behavior := behavior p; social := social p; memory := memory p;
     modifiers := modifiers p; stats := stats p |}.

Definition set_mood (m : Mood) (p : Profile) : Profile :=
  {| profile_id := profile_id p; createdTick := createdTick p; traits := traits p; mood := m;
     behavior := behavior p; social := social p; memory := memory p;
     modifiers := modifiers p; stats := stats p |}.

Definition set_behavior (b : Behavior) (p : Profile) : Profile :=
  {| profile_id := profile_id p; createdTick := createdTick p; traits := traits p; mood := mood p;
     behavior := b; social := social p; memory := memory p;
     modifiers := modifiers p; stats := stats p |}.

Definition set_social (s : Social) (p : Profile) : Profile :=
  {| profile_id := profile_id p; createdTick := createdTick p; traits := traits p; mood := mood p;
     behavior := behavior p; social := s; memory := memory p;
     modifiers := modifiers p; stats := stats p |}.

Definition set_memory (m : Memory) (p : Profile) : Profile :=
  {| profile_id := profile_id p; createdTick := createdTick p; traits := traits p; mood := mood p;
     behavior := behavior p; social := social p; memory := m;
     modifiers := modifiers p; stats := stats p |}.

Definition set_modifiers (m : Modifiers) (p : Profile) : Profile :=
  {| profile_id := profile_id p; createdTick := createdTick p; traits := traits p; mood := mood p;
     behavior := behavior p; social := social p; memory := memory p;
     modifiers := m; stats := stats p |}.

Definition set_stats (s : Stats) (p : Profile) : Profile :=
  {| profile_id := profile_id p; createdTick := createdTick p; traits := traits p; mood := mood p;
     behavior := behavior p; social := social p; memory := memory p;
     modifiers := modifiers p; stats := s |}.

(** [social.groupId = g; social.isLeader = b] on a profile. *)
Definition set_group (g : option N) (b : bool) (p : Profile) : Profile :=
  set_social {| social_groupId := g; social_isLeader := b;
                social_friendIds := social_friendIds (social p);
                social_recentInteractions := social_recentInteractions (social p) |} p.

(** [social.isLeader = b] alone. *)
Definition set_isLeader (b : bool) (p : Profile) : Profile :=
  set_group (social_groupId (social p)) b p.

Definition set_guests (g : gmap N Profile) (st : PersonalityStore) : PersonalityStore :=
  {| guests := g; groups := groups st; nextGroupId := nextGroupId st |}.

Definition set_groups (g : gmap N Group) (st : PersonalityStore) : PersonalityStore :=
  {| guests := guests st; groups := g; nextGroupId := nextGroupId st |}.

Definition set_members (l : list ident) (g : Group) : Group :=
  {| group_id := group_id g; leaderId := leaderId g; members := l; formation := formation g;
     targetRide := targetRide g; group_createdTick := group_createdTick g |}.

Definition set_leaderId (l : ident) (g : Group) : Group :=
  {| group_id := group_id g; leaderId := l; members := members g; formation := formation g;
     targetRide := targetRide g; group_createdTick := group_createdTick g |}.

(** A group id in a condition: null and 0 are falsy. *)
Definition truthy (g : option N) : option N :=
  match g with
  | Some 0%N | None => None
  | Some n => Some n
  end.

(** Reading a trait as a Number: an absent property is [undefined], which
    arithmetic turns into NaN. *)
Definition trait (t : gmap string Z) (name : string) : float :=
  match t !! name with Some v => Z2f v | None => nan end.

(** [traits.name > c]; false for an absent trait. *)
Definition trait_gt (t : gmap string Z) (name : string) (c : Z) : bool :=
  match t !! name with Some v => c <? v | None => false end.

Definition initial_PersonalityStore : PersonalityStore :=
  {| guests := ∅; groups := ∅; nextGroupId := 1 |}.

(** The plugin state the engines share: the store and the random generator. *)
Record Sim := { store : PersonalityStore; random : RandomGenerator }.

Definition set_store (st : PersonalityStore) (s : Sim) : Sim :=
  {| store := st; random := random s |}.

(** ** PersonalityStore: operations *)

Definition calculateModifiers (personality : Profile) : Profile :=
  let t := traits personality in
  set_modifiers
    {| happinessBonus := happinessBonus (modifiers personality);
       energyDrain := (1.0 - (trait t "energetic" - 128) / 512)%float;
       hungerRate := (0.8 + (trait t "hungry" / 255) * 0.4)%float;
       thirstRate := (0.8 + (trait t "energetic" / 255) * 0.4)%float;
       spendingMultiplier := (1.5 - (trait t "frugal" / 255))%float |}
    personality.

(** One round of the trait loop: draw, clamp, assign. *)
Definition draw_trait (H : Host) (acc : gmap string Z * RandomGenerator)
    (entry : string * string) : gmap string Z * RandomGenerator :=
  let '(value, r) := getGaussianRandom H 128 40 (snd acc) in
  (<[snd entry := Z.max 0 (Z.min 255 value)]> (fst acc), r).

Definition createNewPersonality (H : Host) (guestId : ident) (r : RandomGenerator)
  : Profile * RandomGenerator :=
  let personality :=
    {| profile_id := guestId;
       createdTick := ticksElapsed H;
       traits := ∅;
       mood := {| mood_current := CONTENT; mood_intensity := 128;
                  mood_lastChange := ticksElapsed H |};
       behavior := {| behavior_current := WANDERING; behavior_target := None;
                      behavior_startTick := ticksElapsed H |};
       social := {| social_groupId := None; social_isLeader := false;
                    social_friendIds := []; social_recentInteractions := 0 |};
       memory := {| ridesRidden := ∅; favoriteRide := None; worstExperience := None;
                    totalSpent := 0; itemsBought := []; timeInPark := 0 |};
       modifiers := {| happinessBonus := 0; energyDrain := 1.0; hungerRate := 1.0;
                       thirstRate := 1.0; spendingMultiplier := 1.0 |};
       stats := {| moodChanges := 0; behaviorsChanged := 0; socialInteractions := 0;
                   decisionsInfluenced := 0 |} |} in
  let '(t, r') := foldl (draw_trait H) (∅, r) PERSONALITY_TRAITS in
  (calculateModifiers (set_traits t personality), r').

(** [getGuestData]: the profile under the guest's slot, created on first
    sight.  The caller gets the stored object itself; the model returns its
    value together with the state that now holds it. *)
Definition getGuestData (H : Host) (guestId : ident) (s : Sim) : Profile * Sim :=
  match guests (store s) !! slot guestId with
  | Some p => (p, s)
  | None =>
      let '(p, r) := createNewPersonality H guestId (random s) in
      (p, {| store := set_guests (<[slot guestId := p]> (guests (store s))) (store s);
             random := r |})
  end.

Definition hasGuestData (guestId : ident) (st : PersonalityStore) : bool :=
  bool_decide (is_Some (guests st !! slot guestId)).

Definition removeGuestData (guestId : ident) (st : PersonalityStore) : PersonalityStore :=
  match guests st !! slot guestId with
  | None => st
  | Some p =>
      let gs :=
        match truthy (social_groupId (social p)) with
        | Some groupId =>
            match groups st !! groupId with
            | Some g =>
                let ms := match indexOf guestId (members g) with
                          | Some idx => splice1 idx (members g)
                          | None => members g
                          end in
                if bool_decide (length ms = 0%nat) then delete groupId (groups st)
                else <[groupId := set_members ms g]> (groups st)
            | None => groups st
            end
        | None => groups st
        end in
      {| guests := delete (slot guestId) (guests st); groups := gs;
         nextGroupId := nextGroupId st |}
  end.

Definition createGroup (H : Host) (leaderGuestId : ident) (st : PersonalityStore)
  : N * PersonalityStore :=
  let groupId := nextGroupId st in
  let g := {| group_id := groupId; leaderId := leaderGuestId; members := [leaderGuestId];
              formation := "follow"; targetRide := None;
              group_createdTick := ticksElapsed H |} in
  (groupId,
   {| guests := alter (set_group (Some groupId) true) (slot leaderGuestId) (guests st);
      groups := <[groupId := g]> (groups st);
      nextGroupId := (nextGroupId st + 1)%N |}).

Definition removeFromGroup (guestId : ident) (st : PersonalityStore) : PersonalityStore :=
  match guests st !! slot guestId with
  | None => st
  | Some p =>
      match truthy (social_groupId (social p)) with
      | None => st
      | Some groupId =>
          match groups st !! groupId with
          | None => st
          | Some g =>
              let ms := match indexOf guestId (members g) with
                        | Some idx => splice1 idx (members g)
                        | None => members g
                        end in
              let g1 := set_members ms g in
              let st1 := set_groups (<[groupId := g1]> (groups st)) st in
              let st2 :=
                if decide (leaderId g1 = guestId) then
                  match ms with
                  | newLeaderId :: _ =>
                      {| guests := alter (set_isLeader true) (slot newLeaderId) (guests st1);
                         groups := <[groupId := set_leaderId newLeaderId g1]> (groups st1);
                         nextGroupId := nextGroupId st1 |}
                  | [] => set_groups (delete groupId (groups st1)) st1
                  end
                else st1 in
              set_guests (alter (set_group None false) (slot guestId) (guests st2)) st2
          end
      end
  end.

(** [addToGroup] returns true or false; [None] is the TypeError raised when
    leaving the previous group deleted the target group (the state reached
    by then is kept). *)
Definition addToGroup (guestId : ident) (groupId : N) (st : PersonalityStore)
  : option bool * PersonalityStore :=
  match groups st !! groupId with
  | None => (Some false, st)
  | Some _ =>
      match guests st !! slot guestId with
      | None => (Some false, st)
      | Some p =>
          let st1 := match truthy (social_groupId (social p)) with
                     | Some _ => removeFromGroup guestId st
                     | None => st
                     end in
          match groups st1 !! groupId with
          | None => (None, st1)
          | Some g =>
              (Some true,
               {| guests := alter (set_group (Some groupId) false) (slot guestId) (guests st1);
                  groups := <[groupId := set_members (members g ++ [guestId]) g]> (groups st1);
                  nextGroupId := nextGroupId st1 |})
          end
      end
  end.

Definition getGroupMembers (groupId : N) (st : PersonalityStore) : list ident :=
  match groups st !! groupId with Some g => members g | None => [] end.

(** The table [validGuestIds] that [cleanupOldData] fills: the ids of the
    entries that are not null and whose id is not null. *)
Definition validGuestIds (l : list (option Entity)) : gset N :=
  foldl (fun acc e => match e with
                      | Some g => match entity_id g with Some i => {[ i ]} ∪ acc | None => acc end
                      | None => acc
                      end) ∅ l.

(** [cleanupOldData]: the set of live ids is collected first; a throwing
    enumeration ends the pass at once.  The loop then visits the property
    names of [guests], so [removeGuestData] receives a [Key]. *)
Definition cleanupOldData (H : Host) (st : PersonalityStore) : PersonalityStore :=
  match getAllEntities H with
  | None => st
  | Some l =>
      let valid := validGuestIds l in
      foldl (fun st guestId =>
               if bool_decide (is_Some (guests st !! guestId)) then
                 if bool_decide (guestId ∈ valid) then st
                 else removeGuestData (Key guestId) st
               else st)
            st (own_keys (guests st))
  end.

Definition clear : PersonalityStore := initial_PersonalityStore.

(** ** MoodSystem *)

(** [countNearbyGuests]: the guests on the guest's tile and on its four
    orthogonal neighbours, the guest itself left out; 0 when a host query
    throws. *)
Definition countNearbyGuests (H : Host) (guest : Entity) : Z :=
  let tileX := guest_x guest / 32 in
  let tileY := guest_y guest / 32 in
  let directions := [(1, 0); (-1, 0); (0, 1); (0, -1)] in
  match getAllEntitiesOnTile H (tileX * 32) (tileY * 32) with
  | None => 0
  | Some nearbyGuests =>
      let fix go (ds : list (Z * Z)) (count : Z) : option Z :=
        match ds with
        | [] => Some count
        | d :: ds' =>
            match getAllEntitiesOnTile H ((tileX + fst d) * 32) ((tileY + snd d) * 32) with
            | None => None
            | Some adjacentGuests => go ds' (count + Z.of_nat (length adjacentGuests))
            end
        end in
      match go directions (Z.of_nat (length nearbyGuests)) with
      | Some count => Z.max 0 (count - 1)
      | None => 0
      end
  end.

Definition calculateMood (cfg : CONFIG) (H : Host) (guest : Entity) (data : Profile) : Mood :=
  let t := traits data in
  let mk c i := {| mood_current := c; mood_intensity := i;
                   mood_lastChange := mood_lastChange (mood data) |} in
  let baseHappiness := if happiness guest =? 0 then 128 else happiness guest in
  let happinessModifier := 0 in
  let happinessModifier :=
    if trait_gt t "social" 150
    then happinessModifier + Z.min 20 (countNearbyGuests H guest * 2)
    else happinessModifier in
  let happinessModifier :=
    if trait_gt t "nervous" 150
    then happinessModifier - Z.min 20 (countNearbyGuests H guest * 3)
    else happinessModifier in
  if hunger guest <? 50 then
    mk HUNGRY_MOOD (50 + (50 - Z2f (hunger guest)))%float
  else if thirst guest <? 50 then
    mk THIRSTY_MOOD (50 + (50 - Z2f (thirst guest)))%float
  else if 200 <? toilet guest then
    mk ANNOYED (100 + (Z2f (toilet guest) - 200) / 2)%float
  else if energy guest <? 40 then
    mk TIRED (40 + (40 - Z2f (energy guest)))%float
  else if 150 <? nausea guest then
    mk SICK (Z2f (nausea guest))
  else
    let adjustedHappiness := Z.max 0 (Z.min 255 (baseHappiness + happinessModifier)) in
    if happyMoodThreshold cfg + 50 <? adjustedHappiness then
      mk ECSTATIC (Z2f adjustedHappiness)
    else if happyMoodThreshold cfg <? adjustedHappiness then
      mk HAPPY (Z2f adjustedHappiness)
    else if neutralMoodThreshold cfg <? adjustedHappiness then
      mk CONTENT (Z2f adjustedHappiness)
    else if sadMoodThreshold cfg <? adjustedHappiness then
      mk NEUTRAL (Z2f adjustedHappiness)
    else if 30 <? adjustedHappiness then
      mk SAD (128 - Z2f adjustedHappiness)%float
    else
      mk ANGRY (200 - Z2f adjustedHappiness)%float.

Definition set_happinessTarget (v : Z) (g : Entity) : Entity :=
  {| entity_id := entity_id g; is_guest := is_guest g; guest_x := guest_x g;
     guest_y := guest_y g; hunger := hunger g; thirst := thirst g; toilet := toilet g;
     energy := energy g; nausea := nausea g; happiness := happiness g;
     happinessTarget := v; energyTarget := energyTarget g; isInPark := isInPark g;
     hasUmbrella := hasUmbrella g |}.

Definition set_energyTarget (v : Z) (g : Entity) : Entity :=
  {| entity_id := entity_id g; is_guest := is_guest g; guest_x := guest_x g;
     guest_y := guest_y g; hunger := hunger g; thirst := thirst g; toilet := toilet g;
     energy := energy g; nausea := nausea g; happiness := happiness g;
     happinessTarget := happinessTarget g; energyTarget := v; isInPark := isInPark g;
     hasUmbrella := hasUmbrella g |}.

Definition set_energy (v : Z) (g : Entity) : Entity :=
  {| entity_id := entity_id g; is_guest := is_guest g; guest_x := guest_x g;
     guest_y := guest_y g; hunger := hunger g; thirst := thirst g; toilet := toilet g;
     energy := v; nausea := nausea g; happiness := happiness g;
     happinessTarget := happinessTarget g; energyTarget := energyTarget g;
     isInPark := isInPark g; hasUmbrella := hasUmbrella g |}.

(** [applyMoodEffects].  The adjustment scaled by the configured strength
    is rounded; a NaN product makes the new target NaN, which the test
    [> 5] rejects, and an infinite product clamps to 255 or 0. *)
Definition applyMoodEffects (cfg : CONFIG) (H : Host) (guest : Entity) (data : Profile) : Entity :=
  if negb (canModifyGameState H) then guest
  else
    let happinessAdjust :=
      match mood_current (mood data) with
      | ECSTATIC => 30
      | HAPPY => 15
      | EXCITED => 20
      | BORED => -10
      | ANNOYED => -15
      | SAD => -20
      | ANGRY => -30
      | _ => 0
      end in
    let scaled := (Z2f happinessAdjust * moodInfluenceStrength cfg)%float in
    let write newTarget :=
      if 5 <? Z.abs (newTarget - happinessTarget guest)
      then set_happinessTarget newTarget guest
      else guest in
    match Prim2SF scaled with
    | S754_nan => guest
    | S754_infinity negative => write (if negative then 0 else 255)
    | _ =>
        let happinessAdjust := Math_round scaled in
        write (Z.max 0 (Z.min 255 (happinessTarget guest + happinessAdjust)))
    end.

(** The hysteresis test of [updateMood]. *)
Definition mood_differs (newMood old : Mood) : bool :=
  negb (bool_decide (mood_current newMood = mood_current old))
  || gt (abs (mood_intensity newMood - mood_intensity old)%float) 10.

Definition bump_moodChanges (p : Profile) : Profile :=
  set_stats {| moodChanges := moodChanges (stats p) + 1;
               behaviorsChanged := behaviorsChanged (stats p);
               socialInteractions := socialInteractions (stats p);
               decisionsInfluenced := decisionsInfluenced (stats p) |} p.

Definition put_profile (guestId : ident) (p : Profile) (s : Sim) : Sim :=
  set_store (set_guests (<[slot guestId := p]> (guests (store s))) (store s)) s.

Definition updateMood (cfg : CONFIG) (H : Host) (guestId : ident) (guest : Entity) (s : Sim)
  : Sim * Entity :=
  if negb (canModifyGameState H) then (s, guest)
  else
    let '(data, s1) := getGuestData H guestId s in
    let newMood := calculateMood cfg H guest data in
    if mood_differs newMood (mood data) then
      let data' :=
        bump_moodChanges
          (set_mood {| mood_current := mood_current newMood;
                       mood_intensity := mood_intensity newMood;
                       mood_lastChange := ticksElapsed H |} data) in
      (put_profile guestId data' s1, applyMoodEffects cfg H guest data')
    else (s1, guest).

(** ** BehaviorSystem *)

(** [getWeatherBehavior]: [None] is the null result.  A throwing
    [climate.current] or [hasItem] is caught and gives null as well. *)
Definition getWeatherBehavior (H : Host) (guest : Entity) (data : Profile)
    (r : RandomGenerator) : option BEHAVIOR_TYPES * RandomGenerator :=
  let t := traits data in
  match weather H with
  | None => (None, r)
  | Some currentWeather =>
      let thunder (r : RandomGenerator) :=
        if bool_decide (currentWeather = "thunder") && trait_gt t "nervous" 100
        then (Some SEEKING_SHELTER, r) else (None, r) in
      if bool_decide (currentWeather = "rain") || bool_decide (currentWeather = "heavy_rain") then
        match hasUmbrella guest with
        | None => (None, r)
        | Some true => thunder r
        | Some false =>
            if trait_gt t "nervous" 150 then (Some SEEKING_SHELTER, r)
            else
              let '(u, r1) := getRandomFloat H r in
              if (u <? 0.3)%float then (Some SEEKING_SHELTER, r1) else thunder r1
        end
      else thunder r
  end.

Definition determineBehavior (cfg : CONFIG) (H : Host) (guest : Entity) (data : Profile)
    (r : RandomGenerator) : BEHAVIOR_TYPES * RandomGenerator :=
  let t := traits data in
  let m := mood data in
  if 180 <? toilet guest then (SEEKING_TOILET, r)
  else if (hunger guest <? 40) && trait_gt t "hungry" 100 then (SEEKING_FOOD, r)
  else if thirst guest <? 40 then (SEEKING_DRINK, r)
  else if hunger guest <? 60 then (SEEKING_FOOD, r)
  else
    let '(weatherBehavior, r) :=
      if weatherReactionsEnabled cfg then getWeatherBehavior H guest data r else (None, r) in
    match weatherBehavior with
    | Some b => (b, r)
    | None =>
        if energy guest <? 30 then (RESTING, r)
        else if bool_decide (is_Some (truthy (social_groupId (social data))))
                && negb (social_isLeader (social data)) then (FOLLOWING_GROUP, r)
        else if social_isLeader (social data) then (LEADING_GROUP, r)
        else
          let '(photo, r) :=
            if trait_gt t "photographer" 180
            then let '(u, r1) := getRandomFloat H r in ((u <? 0.1)%float, r1)
            else (false, r) in
          if photo then (PHOTO_TAKING, r)
          else
            let '(shop, r) :=
              if trait_gt t "collector" 180
              then let '(u, r1) := getRandomFloat H r in ((u <? 0.05)%float, r1)
              else (false, r) in
            if shop then (SHOPPING, r)
            else
              let '(chat, r) :=
                if trait_gt t "social" 170
                then let '(u, r1) := getRandomFloat H r in
                     ((u <? groupFormationChance cfg)%float, r1)
                else (false, r) in
              if chat then (SOCIALIZING, r)
              else if bool_decide (mood_current m = BORED) then (SEEKING_RIDE, r)
              else
                let '(leave, r) :=
                  if bool_decide (mood_current m = SAD) && isInPark guest
                  then let '(u, r1) := getRandomFloat H r in ((u <? 0.1)%float, r1)
                  else (false, r) in
                if leave then (LEAVING, r)
                else if trait_gt t "thrillSeeker" 150 || trait_gt t "adventurous" 150
                then (SEEKING_RIDE, r)
                else (WANDERING, r)
    end.

Definition calculatePreferredIntensity (data : Profile) : Z :=
  let t := traits data in
  let baseIntensity := 5%float in
  let baseIntensity := (baseIntensity + (trait t "thrillSeeker" - 128) / 40)%float in
  let baseIntensity := (baseIntensity - (trait t "nervous" - 128) / 50)%float in
  let baseIntensity := (baseIntensity + (trait t "adventurous" - 128) / 80)%float in
  let baseIntensity :=
    if trait_gt t "romantic" 170 then (baseIntensity - 2)%float else baseIntensity in
  Z.max 1 (Z.min 15 (Math_round baseIntensity)).

Definition set_target (tg : option Target) (p : Profile) : Profile :=
  set_behavior {| behavior_current := behavior_current (behavior p); behavior_target := tg;
                  behavior_startTick := behavior_startTick (behavior p) |} p.

Definition handleSeekingRide (cfg : CONFIG) (data : Profile) : Profile :=
  if negb (ridePreferencesEnabled cfg) then data
  else
    let preferredIntensity := calculatePreferredIntensity data in
    set_target (Some (RideTarget preferredIntensity)) data.

(** [findNearbyGuestsForSocializing]: the tiles within the configured radius
    are visited column by column; a throwing tile query ends the scan and
    what was collected so far is returned.  Looking a neighbour up creates
    its profile when it has none. *)
Fixpoint scan_tile (H : Host) (self : option N) (guestsOnTile : list Entity)
    (nearby : list ident) (s : Sim) : list ident * Sim :=
  match guestsOnTile with
  | [] => (nearby, s)
  | otherGuest :: rest =>
      match entity_id otherGuest with
      | Some i =>
          if bool_decide (Some i ≠ self) then
            let '(otherData, s1) := getGuestData H (Num i) s in
            if trait_gt (traits otherData) "social" 100
            then scan_tile H self rest (nearby ++ [Num i]) s1
            else scan_tile H self rest nearby s1
          else scan_tile H self rest nearby s
      | None => scan_tile H self rest nearby s
      end
  end.

Fixpoint scan_tiles (H : Host) (guest : Entity) (offsets : list (Z * Z))
    (nearby : list ident) (s : Sim) : list ident * Sim :=
  match offsets with
  | [] => (nearby, s)
  | (dx, dy) :: rest =>
      if (dx =? 0) && (dy =? 0) then scan_tiles H guest rest nearby s
      else
        match getAllEntitiesOnTile H ((guest_x guest / 32 + dx) * 32)
                                     ((guest_y guest / 32 + dy) * 32) with
        | None => (nearby, s)
        | Some guestsOnTile =>
            let '(nearby1, s1) := scan_tile H (entity_id guest) guestsOnTile nearby s in
            scan_tiles H guest rest nearby1 s1
        end
  end.

Definition findNearbyGuestsForSocializing (cfg : CONFIG) (H : Host) (guest : Entity) (s : Sim)
  : list ident * Sim :=
  let R := socialInfluenceRadius cfg in
  let range := seqZ (- R) (2 * R + 1) in
  scan_tiles H guest (dx ← range; dy ← range; [(dx, dy)]) [] s.

(** The search for a neighbour that already has a group. *)
Fixpoint find_existingGroup (H : Host) (nearbyGuests : list ident) (s : Sim)
  : option N * Sim :=
  match nearbyGuests with
  | [] => (None, s)
  | n :: rest =>
      let '(nearbyData, s1) := getGuestData H n s in
      match truthy (social_groupId (social nearbyData)) with
      | Some g => (Some g, s1)
      | None => find_existingGroup H rest s1
      end
  end.

Definition bump_socialInteractions (p : Profile) : Profile :=
  set_stats {| moodChanges := moodChanges (stats p);
               behaviorsChanged := behaviorsChanged (stats p);
               socialInteractions := socialInteractions (stats p) + 1;
               decisionsInfluenced := decisionsInfluenced (stats p) |} p.

Definition alter_profile (f : Profile -> Profile) (guestId : ident) (s : Sim) : Sim :=
  set_store (set_guests (alter f (slot guestId) (guests (store s))) (store s)) s.

(** [handleSocializing], for the guest stored under [guestId] (its
    [guest.id]).  [data] is the guest's stored profile, so the model reads
    and writes it through the store.  A TypeError (a stale group reference,
    or [addToGroup] failing) leaves the state reached by then; the caller
    catches it. *)
Definition handleSocializing (cfg : CONFIG) (H : Host) (guestId : ident) (guest : Entity)
    (s : Sim) : Sim :=
  if negb (socialBehaviorEnabled cfg) then s
  else
    match guests (store s) !! slot guestId with
    | None => s
    | Some data =>
        match truthy (social_groupId (social data)) with
        | Some _ => s
        | None =>
            let '(nearbyGuests, s1) := findNearbyGuestsForSocializing cfg H guest s in
            match nearbyGuests with
            | [] => s1
            | first :: _ =>
                let '(existingGroup, s2) := find_existingGroup H nearbyGuests s1 in
                match existingGroup with
                | Some g =>
                    match groups (store s2) !! g with
                    | None => s2
                    | Some grp =>
                        if (length (members grp) <? 6)%nat then
                          let '(res, st3) := addToGroup guestId g (store s2) in
                          match res with
                          | Some _ => alter_profile bump_socialInteractions guestId
                                        (set_store st3 s2)
                          | None => set_store st3 s2
                          end
                        else s2
                    end
                | None =>
                    let '(groupId, st3) := createGroup H guestId (store s2) in
                    let '(res, st4) := addToGroup first groupId st3 in
                    match res with
                    | Some _ => alter_profile bump_socialInteractions guestId
                                  (set_store st4 s2)
                    | None => set_store st4 s2
                    end
                end
            end
        end
    end.

Definition executeBehavior (cfg : CONFIG) (H : Host) (guestId : ident) (guest : Entity)
    (s : Sim) : Sim * Entity :=
  if negb (canModifyGameState H) then (s, guest)
  else
    match guests (store s) !! slot guestId with
    | None => (s, guest)
    | Some data =>
        match behavior_current (behavior data) with
        | SEEKING_RIDE => (put_profile guestId (handleSeekingRide cfg data) s, guest)
        | SOCIALIZING => (handleSocializing cfg H guestId guest s, guest)
        | RESTING =>
            if energy guest <? 30
            then (s, set_energyTarget (Z.min 255 (energy guest + 20)) guest)
            else (s, guest)
        | PHOTO_TAKING => (s, set_happinessTarget (Z.min 255 (happinessTarget guest + 10)) guest)
        | _ => (s, guest)
        end
    end.

Definition enter_behavior (H : Host) (b : BEHAVIOR_TYPES) (p : Profile) : Profile :=
  set_stats {| moodChanges := moodChanges (stats p);
               behaviorsChanged := behaviorsChanged (stats p) + 1;
               socialInteractions := socialInteractions (stats p);
               decisionsInfluenced := decisionsInfluenced (stats p) |}
    (set_behavior {| behavior_current := b; behavior_target := behavior_target (behavior p);
                     behavior_startTick := ticksElapsed H |} p).

Definition updateBehavior (cfg : CONFIG) (H : Host) (guestId : ident) (guest : Entity) (s : Sim)
  : Sim * Entity :=
  if negb (canModifyGameState H) then (s, guest)
  else
    let '(data, s1) := getGuestData H guestId s in
    let '(newBehavior, r) := determineBehavior cfg H guest data (random s1) in
    let s2 := {| store := store s1; random := r |} in
    if bool_decide (newBehavior ≠ behavior_current (behavior data)) then
      executeBehavior cfg H guestId guest (put_profile guestId (enter_behavior H newBehavior data) s2)
    else (s2, guest).

(** ** RidePreferenceSystem *)

Definition recordRideExperience (H : Host) (guestId : ident) (rideId : N) (satisfaction : float)
    (s : Sim) : Sim :=
  let '(data, s1) := getGuestData H guestId s in
  let mem := memory data in
  let rideMemory :=
    match ridesRidden mem !! rideId with
    | Some rm => rm
    | None => {| timesRidden := 0; totalSatisfaction := 0 |}
    end in
  let rideMemory :=
    {| timesRidden := timesRidden rideMemory + 1;
       totalSatisfaction := (totalSatisfaction rideMemory + satisfaction)%float |} in
  let avgSatisfaction :=
    (totalSatisfaction rideMemory / Z2f (timesRidden rideMemory))%float in
  let favorite :=
    if gt avgSatisfaction 0.8 && (2 <=? timesRidden rideMemory)
    then Some rideId else favoriteRide mem in
  let worst :=
    if (avgSatisfaction <? 0.3)%float && (1 <=? timesRidden rideMemory)
    then Some rideId else worstExperience mem in
  put_profile guestId
    (set_memory {| ridesRidden := <[rideId := rideMemory]> (ridesRidden mem);
                   favoriteRide := favorite;
                   worstExperience := worst;
                   totalSpent := totalSpent mem;
                   itemsBought := itemsBought mem;
                   timeInPark := timeInPark mem |} data)
    s1.

(** ** SocialSystem *)

Definition dissolveGroup (groupId : N) (st : PersonalityStore) : PersonalityStore :=
  match groups st !! groupId with
  | None => st
  | Some group =>
      let st1 := foldl (fun st m => removeFromGroup m st) st (members group) in
      set_groups (delete groupId (groups st1)) st1
  end.

(** The members [updateGroup] decides to remove: one that the host no
    longer resolves always, one farther than 15 tiles from the leader with
    probability 0.1. *)
Fixpoint membersToRemove (H : Host) (leader : Entity) (leaderId : ident)
    (ms : list ident) (r : RandomGenerator) : list ident * RandomGenerator :=
  match ms with
  | [] => ([], r)
  | memberId :: rest =>
      if decide (memberId = leaderId) then membersToRemove H leader leaderId rest r
      else
        match getEntity H memberId with
        | None =>
            let '(out, r1) := membersToRemove H leader leaderId rest r in
            (memberId :: out, r1)
        | Some member =>
            let distance := Z.abs (guest_x member / 32 - guest_x leader / 32)
                            + Z.abs (guest_y member / 32 - guest_y leader / 32) in
            if 15 <? distance then
              let '(u, r1) := getRandomFloat H r in
              let '(out, r2) := membersToRemove H leader leaderId rest r1 in
              if (u <? 0.1)%float then (memberId :: out, r2) else (out, r2)
            else membersToRemove H leader leaderId rest r
        end
  end.

Definition updateGroup (H : Host) (groupId : N) (s : Sim) : Sim :=
  match groups (store s) !! groupId with
  | None => s
  | Some group =>
      if (length (members group) <? 2)%nat then set_store (dissolveGroup groupId (store s)) s
      else
        match getEntity H (leaderId group) with
        | None => set_store (dissolveGroup groupId (store s)) s
        | Some leader =>
            let '(out, r) := membersToRemove H leader (leaderId group) (members group)
                               (random s) in
            {| store := foldl (fun st m => removeFromGroup m st) (store s) out;
               random := r |}
        end
  end.

Definition updateGroups (H : Host) (s : Sim) : Sim :=
  if negb (canModifyGameState H) then s
  else foldl (fun s groupId =>
                if bool_decide (is_Some (groups (store s) !! groupId))
                then updateGroup H groupId s else s)
             s (own_keys (groups (store s))).

(** ** GuestGenerationHandler *)

(** [onGuestGenerated]: the second component is the host entity of the new
    guest after the initial modifiers ([None] when the host does not
    resolve it). *)
Definition onGuestGenerated (H : Host) (guestId : ident) (s : Sim) : Sim * option Entity :=
  if negb (canModifyGameState H) then (s, getEntity H guestId)
  else
    let '(data, s1) := getGuestData H guestId s in
    match getEntity H guestId with
    | Some guest =>
        if is_guest guest then
          let guest :=
            if trait_gt (traits data) "energetic" 170
            then set_energyTarget (Z.min 255 (energyTarget guest + 20))
                   (set_energy (Z.min 255 (energy guest + 20)) guest)
            else guest in
          let guest :=
            if trait_gt (traits data) "patient" 170
            then set_happinessTarget (Z.min 255 (happinessTarget guest + 10)) guest
            else guest in
          (s1, Some guest)
        else (s1, Some guest)
    | None => (s1, None)
    end.

(** ** PerformanceMonitor *)

(** [reads] counts the readings of [Date.now()] taken so far. *)
Record PerformanceMonitor := {
  frameStartTime : Z;
  frameTimes : list Z;
  reads : nat
}.

Definition maxFrameTimes : nat := 60.

Definition initial_PerformanceMonitor : PerformanceMonitor :=
  {| frameStartTime := 0; frameTimes := []; reads := 0 |}.

Definition startFrame (H : Host) (pm : PerformanceMonitor) : PerformanceMonitor :=
  {| frameStartTime := now H (reads pm); frameTimes := frameTimes pm; reads := S (reads pm) |}.

Definition getElapsedMs (H : Host) (pm : PerformanceMonitor) : Z * PerformanceMonitor :=
  (now H (reads pm) - frameStartTime pm,
   {| frameStartTime := frameStartTime pm; frameTimes := frameTimes pm; reads := S (reads pm) |}).

Definition isOverBudget (cfg : CONFIG) (H : Host) (pm : PerformanceMonitor)
  : bool * PerformanceMonitor :=
  let '(elapsed, pm1) := getElapsedMs H pm in (ge (Z2f elapsed) (frameBudgetMs cfg), pm1).

Definition endFrame (H : Host) (pm : PerformanceMonitor) : Z * PerformanceMonitor :=
  let '(elapsed, pm1) := getElapsedMs H pm in
  let ft := frameTimes pm1 ++ [elapsed] in
  let ft := if (maxFrameTimes <? length ft)%nat then drop 1 ft else ft in
  (elapsed, {| frameStartTime := frameStartTime pm1; frameTimes := ft; reads := reads pm1 |}).

Definition getAverageFrameTime (pm : PerformanceMonitor) : float :=
  match frameTimes pm with
  | [] => 0%float
  | _ =>
      let sum := foldl Z.add 0 (frameTimes pm) in
      (Z2f sum / Z2f (Z.of_nat (length (frameTimes pm))))%float
  end.

Definition set_maxGuestsPerTick (v : Z) (c : CONFIG) : CONFIG :=
  {| enabled := enabled c; frameBudgetMs := frameBudgetMs c; maxGuestsPerTick := v;
     updateInterval := updateInterval c; moodDecayInterval := moodDecayInterval c;
     socialUpdateInterval := socialUpdateInterval c;
     adaptivePerformance := adaptivePerformance c; minGuestsPerTick := minGuestsPerTick c;
     maxAdaptiveGuestsPerTick := maxAdaptiveGuestsPerTick c;
     targetFrameTime := targetFrameTime c; moodInfluenceStrength := moodInfluenceStrength c;
     socialInfluenceRadius := socialInfluenceRadius c;
     groupFormationChance := groupFormationChance c;
     weatherReactionsEnabled := weatherReactionsEnabled c;
     ridePreferencesEnabled := ridePreferencesEnabled c;
     socialBehaviorEnabled := socialBehaviorEnabled c;
     happyMoodThreshold := happyMoodThreshold c;
     neutralMoodThreshold := neutralMoodThreshold c;
     sadMoodThreshold := sadMoodThreshold c |}.

Definition adjustProcessingRate (pm : PerformanceMonitor) (cfg : CONFIG) : CONFIG :=
  if negb (adaptivePerformance cfg) then cfg
  else
    let avg := getAverageFrameTime pm in
    if gt avg (targetFrameTime cfg * 1.5)%float then
      set_maxGuestsPerTick (Z.max (minGuestsPerTick cfg) (maxGuestsPerTick cfg - 1)) cfg
    else if (avg <? targetFrameTime cfg * 0.5)%float then
      set_maxGuestsPerTick (Z.min (maxAdaptiveGuestsPerTick cfg) (maxGuestsPerTick cfg + 1)) cfg
    else cfg.

(** ** PersonalityProcessor *)

Record Statistics := {
  guestsProcessed : Z;
  personalitiesCreated : Z;
  lastFrameTime : Z;
  avgFrameTime : float;
  ticksProcessed : Z
}.

Record PersonalityProcessor := {
  guestIndex : Z;
  tickCounter : Z;
  moodTickCounter : Z;
  socialTickCounter : Z;
  cleanupTickCounter : Z;
  statistics : Statistics
}.

Definition initial_Statistics : Statistics :=
  {| guestsProcessed := 0; personalitiesCreated := 0; lastFrameTime := 0;
     avgFrameTime := 0; ticksProcessed := 0 |}.

Definition initial_PersonalityProcessor : PersonalityProcessor :=
  {| guestIndex := 0; tickCounter := 0; moodTickCounter := 0; socialTickCounter := 0;
     cleanupTickCounter := 0; statistics := initial_Statistics |}.

(** Everything a scheduler step can change: the plugin's singletons and the
    guest objects the host handed out ([live], the array of the current
    pass; the engines write targets into its elements). *)
Record World := {
  config : CONFIG;
  sim : Sim;
  monitor : PerformanceMonitor;
  processor : PersonalityProcessor;
  live : list (option Entity)
}.

Definition set_timeInPark (v : Z) (p : Profile) : Profile :=
  set_memory {| ridesRidden := ridesRidden (memory p); favoriteRide := favoriteRide (memory p);
                worstExperience := worstExperience (memory p);
                totalSpent := totalSpent (memory p); itemsBought := itemsBought (memory p);
                timeInPark := v |} p.

(** [processGuest] for a guest whose id is [i]; the third component tells
    whether a profile was created by the first-sight test. *)
Definition processGuest (cfg : CONFIG) (H : Host) (i : N) (guest : Entity) (s : Sim)
  : Sim * Entity * bool :=
  let guestId := Num i in
  let created := negb (hasGuestData guestId (store s)) in
  let s := if created then snd (getGuestData H guestId s) else s in
  let '(s, guest) := updateMood cfg H guestId guest s in
  let '(s, guest) := updateBehavior cfg H guestId guest s in
  let '(data, s) := getGuestData H guestId s in
  (put_profile guestId (set_timeInPark (ticksElapsed H - createdTick data) data) s,
   guest, created).

Definition set_statistics (f : Statistics -> Statistics) (p : PersonalityProcessor)
  : PersonalityProcessor :=
  {| guestIndex := guestIndex p; tickCounter := tickCounter p;
     moodTickCounter := moodTickCounter p; socialTickCounter := socialTickCounter p;
     cleanupTickCounter := cleanupTickCounter p; statistics := f (statistics p) |}.

Definition set_guestIndex (v : Z) (p : PersonalityProcessor) : PersonalityProcessor :=
  {| guestIndex := v; tickCounter := tickCounter p;
     moodTickCounter := moodTickCounter p; socialTickCounter := socialTickCounter p;
     cleanupTickCounter := cleanupTickCounter p; statistics := statistics p |}.

Definition count_processed (created : bool) (st : Statistics) : Statistics :=
  {| guestsProcessed := guestsProcessed st + 1;
     personalitiesCreated := personalitiesCreated st + (if created then 1 else 0);
     lastFrameTime := lastFrameTime st; avgFrameTime := avgFrameTime st;
     ticksProcessed := ticksProcessed st |}.

(** One round of the [while] loop of [processGuests]: the guest under the
    cursor is taken, the cursor advances, and the counter [processed] is
    incremented as the source does (inside the [try] after a processed guest,
    and once more at the end of every round).  [processGuest] as modelled
    never raises, so the [catch] of the source has no counterpart here. *)
Definition process_round (H : Host) (processed : Z) (w : World) : Z * World :=
  let guestCount := Z.of_nat (length (live w)) in
  let idx := Z.to_nat (Z.rem (guestIndex (processor w)) guestCount) in
  let proc1 := set_guestIndex (Z.rem (guestIndex (processor w) + 1) guestCount) (processor w) in
  match live w !! idx with
  | Some (Some guest) =>
      match entity_id guest with
      | Some i =>
          if is_guest guest then
            let '(s1, guest1, created) := processGuest (config w) H i guest (sim w) in
            (processed + 1 + 1,
             {| config := config w; sim := s1; monitor := monitor w;
                processor := set_statistics (count_processed created) proc1;
                live := <[idx := Some guest1]> (live w) |})
          else
            (processed + 1,
             {| config := config w; sim := sim w; monitor := monitor w; processor := proc1;
                live := live w |})
      | None =>
          (processed + 1,
           {| config := config w; sim := sim w; monitor := monitor w; processor := proc1;
              live := live w |})
      end
  | _ =>
      (processed + 1,
       {| config := config w; sim := sim w; monitor := monitor w; processor := proc1;
          live := live w |})
  end.

Definition set_monitor (pm : PerformanceMonitor) (w : World) : World :=
  {| config := config w; sim := sim w; monitor := pm; processor := processor w;
     live := live w |}.

(** The [while] loop.  Every round adds at least 1 to [processed], so
    [fuel] rounds suffice once [fuel] is at least the distance of
    [processed] to the cap (see [process_loop_fuel]). *)
Fixpoint process_loop (fuel : nat) (H : Host) (processed : Z) (w : World) : World :=
  match fuel with
  | O => w
  | S fuel' =>
      if processed <? maxGuestsPerTick (config w) then
        let '(over, pm) := isOverBudget (config w) H (monitor w) in
        let w := set_monitor pm w in
        if over then w
        else
          let '(processed', w') := process_round H processed w in
          process_loop fuel' H processed' w'
      else w
  end.

Definition finish_frame (H : Host) (w : World) : World :=
  let '(frameTime, pm) := endFrame H (monitor w) in
  {| config := adjustProcessingRate pm (config w);
     sim := sim w;
     monitor := pm;
     processor :=
       set_statistics (fun st =>
         {| guestsProcessed := guestsProcessed st;
            personalitiesCreated := personalitiesCreated st;
            lastFrameTime := frameTime;
            avgFrameTime := getAverageFrameTime pm;
            ticksProcessed := ticksProcessed st |}) (processor w);
     live := live w |}.

Definition processGuests (H : Host) (w : World) : World :=
  let w := set_monitor (startFrame H (monitor w)) w in
  match getAllEntities H with
  | None | Some [] => set_monitor (snd (endFrame H (monitor w))) w
  | Some guests =>
      let w := {| config := config w; sim := sim w; monitor := monitor w;
                  processor := processor w; live := guests |} in
      finish_frame H (process_loop (Z.to_nat (maxGuestsPerTick (config w))) H 0 w)
  end.

Definition js_max (a b : float) : float :=
  if is_nan a || is_nan b then nan else if (a <? b)%float then b else a.

Definition js_min (a b : float) : float :=
  if is_nan a || is_nan b then nan else if (b <? a)%float then b else a.

Definition decay_mood (data : Profile) : Profile :=
  let i := mood_intensity (mood data) in
  if (i =? 128)%float then data
  else
    let decay := if gt i 128 then (-1)%float else 1%float in
    set_mood {| mood_current := mood_current (mood data);
                mood_intensity := js_max 0 (js_min 255 (i + decay)%float);
                mood_lastChange := mood_lastChange (mood data) |} data.

Definition processMoodDecay (st : PersonalityStore) : PersonalityStore :=
  set_guests (decay_mood <$> guests st) st.

Definition set_sim (s : Sim) (w : World) : World :=
  {| config := config w; sim := s; monitor := monitor w; processor := processor w;
     live := live w |}.

Definition set_processor (p : PersonalityProcessor) (w : World) : World :=
  {| config := config w; sim := sim w; monitor := monitor w; processor := p;
     live := live w |}.

Definition onTick (H : Host) (w : World) : World :=
  if negb (enabled (config w)) then w
  else if negb (canModifyGameState H) then w
  else
    let p := processor w in
    let w := set_processor
               {| guestIndex := guestIndex p; tickCounter := tickCounter p + 1;
                  moodTickCounter := moodTickCounter p + 1;
                  socialTickCounter := socialTickCounter p + 1;
                  cleanupTickCounter := cleanupTickCounter p + 1;
                  statistics := statistics p |} w in
    let w :=
      if updateInterval (config w) <=? tickCounter (processor w) then
        let p := processor w in
        processGuests H
          (set_processor
             {| guestIndex := guestIndex p; tickCounter := 0;
                moodTickCounter := moodTickCounter p;
                socialTickCounter := socialTickCounter p;
                cleanupTickCounter := cleanupTickCounter p;
                statistics := statistics p |} w)
      else w in
    let w :=
      if moodDecayInterval (config w) <=? moodTickCounter (processor w) then
        let p := processor w in
        set_sim (set_store (processMoodDecay (store (sim w))) (sim w))
          (set_processor
             {| guestIndex := guestIndex p; tickCounter := tickCounter p;
                moodTickCounter := 0;
                socialTickCounter := socialTickCounter p;
                cleanupTickCounter := cleanupTickCounter p;
                statistics := statistics p |} w)
      else w in
    let w :=
      if socialUpdateInterval (config w) <=? socialTickCounter (processor w) then
        let p := processor w in
        set_sim (updateGroups H (sim w))
          (set_processor
             {| guestIndex := guestIndex p; tickCounter := tickCounter p;
                moodTickCounter := moodTickCounter p;
                socialTickCounter := 0;
                cleanupTickCounter := cleanupTickCounter p;
                statistics := statistics p |} w)
      else w in
    let w :=
      if 500 <=? cleanupTickCounter (processor w) then
        let p := processor w in
        set_sim (set_store (cleanupOldData H (store (sim w))) (sim w))
          (set_processor
             {| guestIndex := guestIndex p; tickCounter := tickCounter p;
                moodTickCounter := moodTickCounter p;
                socialTickCounter := socialTickCounter p;
                cleanupTickCounter := 0;
                statistics := statistics p |} w)
      else w in
    set_processor
      (set_statistics (fun st =>
         {| guestsProcessed := guestsProcessed st;
            personalitiesCreated := personalitiesCreated st;
            lastFrameTime := lastFrameTime st;
            avgFrameTime := avgFrameTime st;
            ticksProcessed := ticksProcessed st + 1 |}) (processor w)) w.

(** * Properties: definitions on the specification's side *)

(** ** The group invariant *)

(** A stored group is consistent when its leader is one of its members and
    every member has a profile whose [social.groupId] is the group's id. *)
Definition group_consistent (st : PersonalityStore) (g : Group) : bool :=
  bool_decide (leaderId g ∈ members g)
  && forallb (fun m => match guests st !! slot m with
                       | Some p => bool_decide (social_groupId (social p) = Some (group_id g))
                       | None => false
                       end) (members g).

Definition store_consistent (st : PersonalityStore) : bool :=
  forallb (fun kg => group_consistent st (snd kg)) (map_to_list (groups st)).

(** ** The documented behaviour cascade *)

(** A rule of the cascade: the condition on the inputs, the probability of
    the gate when the rule has one, and the behaviour it selects. *)
Record rule := {
  applies : CONFIG -> Host -> Entity -> Profile -> bool;
  chance : option (CONFIG -> float);
  outcome : BEHAVIOR_TYPES
}.

(** First match wins; a gated rule whose condition holds takes the next
    random float and fires when it is below the rule's probability. *)
Fixpoint cascade (rules : list rule) (cfg : CONFIG) (H : Host) (guest : Entity)
    (data : Profile) (r : RandomGenerator) : BEHAVIOR_TYPES * RandomGenerator :=
  match rules with
  | [] => (WANDERING, r)
  | ru :: rest =>
      if applies ru cfg H guest data then
        match chance ru with
        | None => (outcome ru, r)
        | Some p =>
            let '(u, r1) := getRandomFloat H r in
            if (u <? p cfg)%float then (outcome ru, r1)
            else cascade rest cfg H guest data r1
        end
      else cascade rest cfg H guest data r
  end.

(** "Currently raining and the agent lacks rain protection". *)
Definition caught_in_rain (cfg : CONFIG) (H : Host) (guest : Entity) : bool :=
  weatherReactionsEnabled cfg
  && bool_decide (weather H = Some "rain" ∨ weather H = Some "heavy_rain")
  && bool_decide (hasUmbrella guest = Some false).

Definition grouped (data : Profile) : bool :=
  bool_decide (is_Some (truthy (social_groupId (social data)))).

(** The fourteen rules in the documented order (rule 5 has three cases,
    rule 7 two). *)
Definition documented_cascade : list rule :=
  [ (* 1 *)
    {| applies := fun _ _ g _ => 180 <? toilet g; chance := None; outcome := SEEKING_TOILET |};
    (* 2 *)
    {| applies := fun _ _ g d => (hunger g <? 40) && trait_gt (traits d) "hungry" 100;
       chance := None; outcome := SEEKING_FOOD |};
    (* 3 *)
    {| applies := fun _ _ g _ => thirst g <? 40; chance := None; outcome := SEEKING_DRINK |};
    (* 4 *)
    {| applies := fun _ _ g _ => hunger g <? 60; chance := None; outcome := SEEKING_FOOD |};
    (* 5 *)
    {| applies := fun c H g d => caught_in_rain c H g && trait_gt (traits d) "nervous" 150;
       chance := None; outcome := SEEKING_SHELTER |};
    {| applies := fun c H g _ => caught_in_rain c H g;
       chance := Some (fun _ => 0.3%float); outcome := SEEKING_SHELTER |};
    {| applies := fun c H _ d => weatherReactionsEnabled c
                                 && bool_decide (weather H = Some "thunder")
                                 && trait_gt (traits d) "nervous" 100;
       chance := None; outcome := SEEKING_SHELTER |};
    (* 6 *)
    {| applies := fun _ _ g _ => energy g <? 30; chance := None; outcome := RESTING |};
    (* 7 *)
    {| applies := fun _ _ _ d => grouped d && negb (social_isLeader (social d));
       chance := None; outcome := FOLLOWING_GROUP |};
    {| applies := fun _ _ _ d => social_isLeader (social d);
       chance := None; outcome := LEADING_GROUP |};
    (* 8 *)
    {| applies := fun _ _ _ d => trait_gt (traits d) "photographer" 180;
       chance := Some (fun _ => 0.1%float); outcome := PHOTO_TAKING |};
    (* 9 *)
    {| applies := fun _ _ _ d => trait_gt (traits d) "collector" 180;
       chance := Some (fun _ => 0.05%float); outcome := SHOPPING |};
    (* 10 *)
    {| applies := fun _ _ _ d => trait_gt (traits d) "social" 170;
       chance := Some groupFormationChance; outcome := SOCIALIZING |};
    (* 11 *)
    {| applies := fun _ _ _ d => bool_decide (mood_current (mood d) = BORED);
       chance := None; outcome := SEEKING_RIDE |};
    (* 12 *)
    {| applies := fun _ _ g d => bool_decide (mood_current (mood d) = SAD) && isInPark g;
       chance := Some (fun _ => 0.1%float); outcome := LEAVING |};
    (* 13 *)
    {| applies := fun _ _ _ d => trait_gt (traits d) "thrillSeeker" 150
                                 || trait_gt (traits d) "adventurous" 150;
       chance := None; outcome := SEEKING_RIDE |};
    (* 14 *)
    {| applies := fun _ _ _ _ => true; chance := None; outcome := WANDERING |} ].

(** ** The documented preferred ride intensity *)

(** The Iverson bracket [[b]]. *)
Definition iverson (b : bool) : float := if b then 1%float else 0%float.

(** 5 + (thrillSeeking-128)/40 - (nervous-128)/50 + (adventurous-128)/80
    - 2*[romantic > 170], evaluated left to right in binary64. *)
Definition preferred_intensity_formula (thrillSeeking nervous adventurous romantic : Z) : float :=
  (5 + (Z2f thrillSeeking - 128) / 40 - (Z2f nervous - 128) / 50
     + (Z2f adventurous - 128) / 80 - 2 * iverson (170 <? romantic)%Z)%float.

Definition clamp (v lo hi : Z) : Z := Z.max lo (Z.min hi v).



(** * Sample worlds for the closed examples *)

(** A guest entity with unremarkable needs, standing on tile (0, 0). *)
Definition sample_guest (i : N) : Entity :=
  {| entity_id := Some i; is_guest := true; guest_x := 0; guest_y := 0;
     hunger := 128; thirst := 128; toilet := 0; energy := 128; nausea := 0;
     happiness := 128; happinessTarget := 128; energyTarget := 128;
     isInPark := true; hasUmbrella := Some false |}.

(** A host in the given network mode with the given live guests.  Every
    random draw answers 5000 (the float 0.5) and the clock stands still;
    [Math_log] and [Math_cos] are given by their values at the only
    arguments these draws produce, ln 0.5 and cos pi. *)
Definition sample_Host (mode : network_mode) (entities : option (list (option Entity))) : Host :=
  {| network := Some mode;
     ticksElapsed := 100;
     getAllEntities := entities;
     getAllEntitiesOnTile := fun _ _ => Some [];
     getEntity := fun _ => None;
     weather := Some "sunny";
     getRandom := fun _ => Some 5000;
     now := fun _ => 0;
     Math_log := fun _ => (-0.6931471805599453)%float;
     Math_cos := fun _ => (-1)%float |}.

Definition server_Host : Host := sample_Host mode_server (Some []).
Definition client_Host : Host := sample_Host mode_client (Some []).

Definition empty_Sim : Sim :=
  {| store := initial_PersonalityStore; random := initial_RandomGenerator |}.

(** Guests 1 and 2 with profiles, guest 1 leading a group that guest 2 has
    joined, built with the store's own operations. *)
Definition pair_store : PersonalityStore :=
  let s := snd (getGuestData server_Host (Num 2) (snd (getGuestData server_Host (Num 1) empty_Sim))) in
  let '(groupId, st) := createGroup server_Host (Num 1) (store s) in
  snd (addToGroup (Num 2) groupId st).

(** A profile with the four traits of the intensity scenario. *)
Definition scenario_profile : Profile :=
  set_traits (<["thrillSeeker" := 200]> (<["nervous" := 30]> (<["adventurous" := 180]>
               (<["romantic" := 50]> ∅))))
    (fst (createNewPersonality server_Host (Num 1) initial_RandomGenerator)).

(** Five live guests, ids 1 to 5. *)
Definition five_guests : list (option Entity) :=
  [Some (sample_guest 1); Some (sample_guest 2); Some (sample_guest 3);
   Some (sample_guest 4); Some (sample_guest 5)].

Definition initial_World : World :=
  {| config := default_CONFIG; sim := empty_Sim; monitor := initial_PerformanceMonitor;
     processor := initial_PersonalityProcessor; live := [] |}.

(** The leader's profile and the group record of [pair_store], and a
    hungry guest. *)
Definition pair_leader : Profile :=
  set_group (Some 1%N) true (fst (createNewPersonality server_Host (Num 1) initial_RandomGenerator)).

Definition pair_group : Group :=
  {| group_id := 1; leaderId := Num 1; members := [Num 1; Num 2]; formation := "follow";
     targetRide := None; group_createdTick := 100 |}.

Definition hungry_guest : Entity :=
  {| entity_id := Some 1%N; is_guest := true; guest_x := 0; guest_y := 0;
     hunger := 30; thirst := 10; toilet := 180; energy := 5; nausea := 0;
     happiness := 20; happinessTarget := 128; energyTarget := 128;
     isInPark := true; hasUmbrella := Some false |}.

(** * Observations on a state *)

(** What a guest remembers of a ride, and its favourite and worst rides. *)
Definition ride_record (s : Sim) (guestId : ident) (rideId : N) : option RideMemory :=
  p ← guests (store s) !! slot guestId; ridesRidden (memory p) !! rideId.

Definition favorite_of (s : Sim) (guestId : ident) : option (option N) :=
  favoriteRide ∘ memory <$> guests (store s) !! slot guestId.

Definition worst_of (s : Sim) (guestId : ident) : option (option N) :=
  worstExperience ∘ memory <$> guests (store s) !! slot guestId.

(** The exact value of round(5 + (t-128)/40 - (n-128)/50 + (a-128)/80) in
    rational arithmetic, over the common denominator 400. *)
Definition exact_round (t n a : Z) : Z :=
  (2 * (2000 + 10 * (t - 128) - 8 * (n - 128) + 5 * (a - 128)) + 400) / 800.

(** * Further operations of the plugin *)

(** ** ShoppingSystem *)

(** [recordPurchase]: the spend is accumulated and the purchase appended to
    the log; past 20 entries the oldest is dropped. *)
Definition recordPurchase (H : Host) (guestId : ident) (itemType : string) (price : Z)
    (s : Sim) : Sim :=
  let '(data, s1) := getGuestData H guestId s in
  let mem := memory data in
  let log := itemsBought mem
             ++ [{| purchase_item := itemType; purchase_price := price;
                    purchase_tick := ticksElapsed H |}] in
  let log := if (20 <? length log)%nat then drop 1 log else log in
  put_profile guestId
    (set_memory {| ridesRidden := ridesRidden mem;
                   favoriteRide := favoriteRide mem;
                   worstExperience := worstExperience mem;
                   totalSpent := totalSpent mem + price;
                   itemsBought := log;
                   timeInPark := timeInPark mem |} data)
    s1.

(** ** RidePreferenceSystem: the satisfaction score *)

(** The ratings of a ride as the host reports them. *)
Record Ride := { ride_intensity : Z; ride_excitement : Z; ride_nausea : Z }.

(** [calculateRideSatisfaction].  [ride] is the answer of [map.getRide]
    for the ride ([None]: null, or the call throws).  [r || d] on a rating
    takes the default for 0. *)
Definition calculateRideSatisfaction (H : Host) (ride : option Ride) (guestId : ident)
    (rideId : N) (s : Sim) : float * Sim :=
  let '(data, s1) := getGuestData H guestId s in
  match ride with
  | None => (0.5%float, s1)
  | Some ride =>
      let t := traits data in
      let or_default (v d : Z) := if v =? 0 then d else v in
      let satisfaction := 0.5%float in
      let intensity := (Z2f (or_default (ride_intensity ride) 500%Z) / 100)%float in
      let preferredIntensity := calculatePreferredIntensity data in
      let intensityDiff := abs (intensity - Z2f preferredIntensity)%float in
      let satisfaction := (satisfaction - intensityDiff * 0.05)%float in
      let satisfaction :=
        if trait_gt t "thrillSeeker" 150
        then (satisfaction
              + (Z2f (or_default (ride_excitement ride) 500%Z) / 100) * 0.02)%float
        else satisfaction in
      let satisfaction :=
        if trait_gt t "nervous" 150
        then (satisfaction
              - (Z2f (or_default (ride_nausea ride) 300%Z) / 100) * 0.03)%float
        else satisfaction in
      let satisfaction :=
        if bool_decide (favoriteRide (memory data) = Some rideId)
        then (satisfaction + 0.2)%float else satisfaction in
      let satisfaction :=
        if bool_decide (worstExperience (memory data) = Some rideId)
        then (satisfaction - 0.3)%float else satisfaction in
      (js_max 0 (js_min 1 satisfaction), s1)
  end.

(** ** CompatibilityLayer *)

(** [onPathfindingAssist]: a known guest that is SAD or ANGRY is reset to
    NEUTRAL at intensity 128; an unknown guest gets no profile. *)
Definition onPathfindingAssist (H : Host) (guestId : ident) (s : Sim) : Sim :=
  if hasGuestData guestId (store s) then
    let '(data, s1) := getGuestData H guestId s in
    if bool_decide (mood_current (mood data) = SAD)
       || bool_decide (mood_current (mood data) = ANGRY)
    then put_profile guestId
           (set_mood {| mood_current := NEUTRAL; mood_intensity := 128;
                        mood_lastChange := mood_lastChange (mood data) |} data) s1
    else s1
  else s.

(** ** PersonalityProcessor: the steps of a tick *)

(** The steps of [onTick] one by one: the four counters advance, then each
    engine runs when its counter has reached its interval, then the tick is
    counted.  [onTick_phases] shows that [onTick] is their composition. *)
Definition tick_counters (w : World) : World :=
  let p := processor w in
  set_processor
    {| guestIndex := guestIndex p; tickCounter := tickCounter p + 1;
       moodTickCounter := moodTickCounter p + 1;
       socialTickCounter := socialTickCounter p + 1;
       cleanupTickCounter := cleanupTickCounter p + 1;
       statistics := statistics p |} w.

Definition guest_phase (H : Host) (w : World) : World :=
  if updateInterval (config w) <=? tickCounter (processor w) then
    let p := processor w in
    processGuests H
      (set_processor
         {| guestIndex := guestIndex p; tickCounter := 0;
            moodTickCounter := moodTickCounter p;
            socialTickCounter := socialTickCounter p;
            cleanupTickCounter := cleanupTickCounter p;
            statistics := statistics p |} w)
  else w.

Definition mood_phase (w : World) : World :=
  if moodDecayInterval (config w) <=? moodTickCounter (processor w) then
    let p := processor w in
    set_sim (set_store (processMoodDecay (store (sim w))) (sim w))
      (set_processor
         {| guestIndex := guestIndex p; tickCounter := tickCounter p;
            moodTickCounter := 0;
            socialTickCounter := socialTickCounter p;
            cleanupTickCounter := cleanupTickCounter p;
            statistics := statistics p |} w)
  else w.

Definition social_phase (H : Host) (w : World) : World :=
  if socialUpdateInterval (config w) <=? socialTickCounter (processor w) then
    let p := processor w in
    set_sim (updateGroups H (sim w))
      (set_processor
         {| guestIndex := guestIndex p; tickCounter := tickCounter p;
            moodTickCounter := moodTickCounter p;
            socialTickCounter := 0;
            cleanupTickCounter := cleanupTickCounter p;
            statistics := statistics p |} w)
  else w.

Definition cleanup_phase (H : Host) (w : World) : World :=
  if 500 <=? cleanupTickCounter (processor w) then
    let p := processor w in
    set_sim (set_store (cleanupOldData H (store (sim w))) (sim w))
      (set_processor
         {| guestIndex := guestIndex p; tickCounter := tickCounter p;
            moodTickCounter := moodTickCounter p;
            socialTickCounter := socialTickCounter p;
            cleanupTickCounter := 0;
            statistics := statistics p |} w)
  else w.

Definition count_tick (w : World) : World :=
  set_processor
    (set_statistics (fun st =>
       {| guestsProcessed := guestsProcessed st;
          personalitiesCreated := personalitiesCreated st;
          lastFrameTime := lastFrameTime st;
          avgFrameTime := avgFrameTime st;
          ticksProcessed := ticksProcessed st + 1 |}) (processor w)) w.

(** * Invariants and measures of the further properties *)

(** ** Profiles and groups *)

(** Every stored group sits under an id that [createGroup] has already
    handed out. *)
Definition ids_below_next (st : PersonalityStore) : Prop :=
  ∀ k, is_Some (groups st !! k) → (k < nextGroupId st)%N.

(** [st'] has no group that [st] lacks, and the same next group id. *)
Definition no_new_groups (st st' : PersonalityStore) : Prop :=
  nextGroupId st' = nextGroupId st
  ∧ ∀ k, is_Some (groups st' !! k) → is_Some (groups st !! k).

(** [st'] holds profiles for the same guests as [st]. *)
Definition same_guests (st st' : PersonalityStore) : Prop :=
  ∀ k, is_Some (guests st' !! k) ↔ is_Some (guests st !! k).

(** The guest has a profile that names no group and is no leader. *)
Definition ungrouped (st : PersonalityStore) (m : ident) : Prop :=
  ∃ p, guests st !! slot m = Some p
       ∧ social_groupId (social p) = None ∧ social_isLeader (social p) = false.

(** Every guest of [ms] has a profile that names the group [groupId]. *)
Definition enrolled (groupId : N) (ms : list ident) (st : PersonalityStore) : bool :=
  forallb (fun m => match guests st !! slot m with
                    | Some p => bool_decide (social_groupId (social p) = Some groupId)
                    | None => false
                    end) ms.

(** Ids as the game hands them out (numbers), as opposed to property names. *)
Definition is_Num (i : ident) : bool := match i with Num _ => true | Key _ => false end.

(** Every stored group has members, all of them listed by number. *)
Definition numeric_groups (st : PersonalityStore) : bool :=
  forallb (fun kg => match members (snd kg) with
                     | [] => false
                     | ms => forallb is_Num ms
                     end) (map_to_list (groups st)).

(** What a profile holds outside its [social] record and its count of
    social interactions. *)
Definition outside_social (p : Profile) :=
  (profile_id p, createdTick p, traits p, mood p, behavior p, memory p, modifiers p,
   moodChanges (stats p), behaviorsChanged (stats p), decisionsInfluenced (stats p)).

(** Every profile of [st] is still there in [st'], the same outside its
    social part. *)
Definition keeps_profiles (st st' : PersonalityStore) : Prop :=
  ∀ k p, guests st !! k = Some p →
         ∃ p', guests st' !! k = Some p' ∧ outside_social p' = outside_social p.

(** [st'] has the profiles of [st], changed in their social part at most. *)
Definition social_only (st st' : PersonalityStore) : Prop :=
  keeps_profiles st st' ∧ same_guests st st'.

(** The entry a purchase leaves in the log. *)
Definition purchase_entry (H : Host) (itemType : string) (price : Z) : Purchase :=
  {| purchase_item := itemType; purchase_price := price; purchase_tick := ticksElapsed H |}.

(** ** Numbers *)

(** An integer between 0 and 255. *)
Definition is_byte (z : Z) : bool := (0 <=? z) && (z <=? 255).

(** A Number between 0 and 255. *)
Definition in_byte_range (x : float) : bool := (0 <=? x)%float && (x <=? 255)%float.

(** A Number between 0 and 1. *)
Definition in_unit_range (x : float) : bool := (0 <=? x)%float && (x <=? 1)%float.

(** [f] stays between 0 and 255 on the bytes that satisfy [cond]. *)
Definition byte_range_on (cond : Z -> bool) (f : Z -> float) : bool :=
  forallb (fun z => implb (cond z) (in_byte_range (f z))) (seqZ 0 256).

(** [n] steps of 1 from [z] toward 128, stopping there. *)
Definition toward_128 (n : nat) (z : Z) : Z :=
  if 128 <? z then Z.max 128 (z - Z.of_nat n) else Z.min 128 (z + Z.of_nat n).

(** One pass of the decay from the integer intensity [z], compared with
    [toward_128]. *)
Definition decay_step_agrees (z : Z) : bool :=
  let i := Z2f z in
  if (i =? 128)%float then z =? 128
  else Leibniz.eqb (js_max 0 (js_min 255 (i + (if gt i 128 then -1 else 1))%float))
                   (Z2f (toward_128 1 z)).

(** Every draw [v / 10000] with [v] in [l] lies in [0, 1). *)
Definition unit_draws (l : list Z) : bool :=
  forallb (fun v => (0 <=? Z2f v / 10000)%float && (Z2f v / 10000 <? 1)%float) l.

(** The host's generator answers within the range it is asked for. *)
Definition draws_in_range (H : Host) : Prop :=
  ∀ k v, getRandom H k = Some v → 0 ≤ v < 10000.

(** ** The scheduler *)

(** The four tick counters of the processor. *)
Definition counters (p : PersonalityProcessor) : Z * Z * Z * Z :=
  (tickCounter p, moodTickCounter p, socialTickCounter p, cleanupTickCounter p).

(** [c'] is [c] up to the cap [maxGuestsPerTick]. *)
Definition same_but_cap (c c' : CONFIG) : Prop :=
  c' = set_maxGuestsPerTick (maxGuestsPerTick c') c.

(** The frame-time window and the cap are within their bounds. *)
Definition monitor_ok (w : World) : Prop :=
  (length (frameTimes (monitor w)) ≤ maxFrameTimes)%nat
  ∧ minGuestsPerTick (config w) ≤ maxGuestsPerTick (config w)
    ≤ maxAdaptiveGuestsPerTick (config w).

(** What the scheduler keeps true from tick to tick: every counter
    non-negative and below its interval, and the monitor within its bounds. *)
Definition schedule_ok (w : World) : Prop :=
  0 ≤ tickCounter (processor w) < updateInterval (config w)
  ∧ 0 ≤ moodTickCounter (processor w) < moodDecayInterval (config w)
  ∧ 0 ≤ socialTickCounter (processor w) < socialUpdateInterval (config w)
  ∧ 0 ≤ cleanupTickCounter (processor w) < 500
  ∧ monitor_ok w.

(** * Further sample worlds *)

(** Guest 1 with a profile, alone in the group it leads. *)
Definition solo_store : PersonalityStore :=
  snd (createGroup server_Host (Num 1)
         (store (snd (getGuestData server_Host (Num 1) empty_Sim)))).

(** [pair_store] with guest 1 ANGRY at intensity 200. *)
Definition angry_store : PersonalityStore :=
  set_guests (alter (set_mood {| mood_current := ANGRY; mood_intensity := 200;
                                 mood_lastChange := 100 |}) 1%N (guests pair_store))
    pair_store.

(** A host for which guests 1 and 2 of [pair_store] are live, on one tile. *)
Definition pair_Host : Host :=
  {| network := Some mode_server;
     ticksElapsed := 100;
     getAllEntities := Some [Some (sample_guest 1); Some (sample_guest 2)];
     getAllEntitiesOnTile := fun _ _ => Some [];
     getEntity := fun i => match i with
                           | Num 1 => Some (sample_guest 1)
                           | Num 2 => Some (sample_guest 2)
                           | _ => None
                           end;
     weather := Some "sunny";
     getRandom := fun _ => Some 5000;
     now := fun _ => 0;
     Math_log := fun _ => (-0.6931471805599453)%float;
     Math_cos := fun _ => (-1)%float |}.

(** A host for which only guest 1 is still in the park. *)
Definition leader_only_Host : Host := sample_Host mode_server (Some [Some (sample_guest 1)]).

(** A host whose [context.getRandom] always throws. *)
Definition seeded_Host : Host :=
  {| network := Some mode_server;
     ticksElapsed := 100;
     getAllEntities := Some [];
     getAllEntitiesOnTile := fun _ _ => Some [];
     getEntity := fun _ => None;
     weather := Some "rain";
     getRandom := fun _ => None;
     now := fun _ => 0;
     Math_log := fun _ => (-0.6931471805599453)%float;
     Math_cos := fun _ => (-1)%float |}.

(** * Properties *)

(** ** Binary64 facts used below *)


Lemma SFsub_diag_small (s : spec_float) :
  SFltb (Prim2SF 10) (SFabs (SF64sub s s)) = false.
Proof.
  change (Prim2SF 10) with (S754_finite false 5629499534213120 (-49)).
  destruct s as [[]|[]| |sg m e]; try reflexivity.
  unfold SF64sub, SFsub. rewrite Z.sub_diag. reflexivity.
Qed.

(** A Number never differs from itself by more than 10 (not even NaN). *)
Lemma abs_sub_diag (x : float) : gt (abs (x - x)) 10 = false.
Proof. unfold gt. rewrite ltb_spec, abs_spec, sub_spec. apply SFsub_diag_small. Qed.


(** ** Trait generation *)

Section trait_loop.
Context (H : Host) (Hfinite : gaussian_finite H).

(** The trait loop assigns every listed name the clamped rounding of a
    finite Gaussian value, and keeps the other entries. *)
Lemma draw_traits_lookup (names : list (string * string)) (acc : gmap string Z)
    (r : RandomGenerator) (name : string) :
  let t := fst (foldl (draw_trait H) (acc, r) names) in
  (name ∈ names.*2 →
   ∃ x, finite x = true ∧ t !! name = Some (Z.max 0 (Z.min 255 (Math_round x))))
  ∧ (name ∉ names.*2 → t !! name = acc !! name).
Proof.
  revert acc r. induction names as [|[k n] names IH]; intros acc r; cbn zeta.
  - split; [intros Hin; inversion Hin | done].
  - cbn [foldl].
    assert (∃ x r1, finite x = true
                    ∧ draw_trait H (acc, r) (k, n)
                      = (<[n := Z.max 0 (Z.min 255 (Math_round x))]> acc, r1))
      as (x & r1 & Hx & ->).
    { unfold draw_trait, getGaussianRandom. cbn [fst snd].
      pose proof (Hfinite r) as Hx.
      destruct (gaussian H 128 40 r) as [x r1]. by exists x, r1. }
    destruct (IH (<[n := Z.max 0 (Z.min 255 (Math_round x))]> acc) r1) as [IHin IHout].
    cbn [fmap list_fmap snd]. split.
    + intros Hin. destruct (decide (name ∈ names.*2)) as [Hn|Hn]; [by apply IHin|].
      apply elem_of_cons in Hin as [Heq|Hin]; [|done].
      exists x. split; [done|]. rewrite (IHout Hn), Heq. apply lookup_insert_eq.
    + intros Hout. apply not_elem_of_cons in Hout as [Hne Hout].
      rewrite (IHout Hout). by apply lookup_insert_ne.
Qed.
End trait_loop.

(** C6: a generated profile defines exactly the twelve named traits, every
    trait is an integer between 0 and 255 (the clamped rounding of a Gaussian
    draw), and the four derived modifiers
    are the documented formulas of the generated traits:
    energyDrain = 1 - (energetic-128)/512, hungerRate = 0.8 + (hungry/255)*0.4,
    thirstRate = 0.8 + (energetic/255)*0.4, spendingMultiplier = 1.5 - frugal/255
    (binary64 operations, as the engine evaluates them).  The statement is
    for hosts that keep the Gaussian draws finite. *)
Theorem createNewPersonality_traits_and_modifiers (H : Host) (guestId : ident)
    (r : RandomGenerator) :
  gaussian_finite H →
  let p := fst (createNewPersonality H guestId r) in
  length PERSONALITY_TRAITS = 12%nat
  ∧ NoDup PERSONALITY_TRAITS.*2
  ∧ (∀ name, name ∈ PERSONALITY_TRAITS.*2 ↔ is_Some (traits p !! name))
  ∧ (∀ name v, traits p !! name = Some v →
       0 ≤ v ≤ 255 ∧ ∃ x, finite x = true ∧ v = clamp (Math_round x) 0 255)
  ∧ ∃ energetic hungry frugal,
      traits p !! "energetic" = Some energetic
      ∧ traits p !! "hungry" = Some hungry
      ∧ traits p !! "frugal" = Some frugal
      ∧ energyDrain (modifiers p) = (1 - (Z2f energetic - 128) / 512)%float
      ∧ hungerRate (modifiers p) = (0.8 + (Z2f hungry / 255) * 0.4)%float
      ∧ thirstRate (modifiers p) = (0.8 + (Z2f energetic / 255) * 0.4)%float
      ∧ spendingMultiplier (modifiers p) = (1.5 - Z2f frugal / 255)%float.
Proof.
  intros Hfinite. cbn zeta. unfold createNewPersonality.
  destruct (foldl (draw_trait H) (∅, r) PERSONALITY_TRAITS) as [t r'] eqn:Hfold.
  pose proof (fun name => draw_traits_lookup H Hfinite PERSONALITY_TRAITS ∅ r name) as Hl.
  cbn zeta in Hl. rewrite Hfold in Hl. cbn [fst] in Hl.
  cbn [fst calculateModifiers set_modifiers set_traits traits modifiers
       energyDrain hungerRate thirstRate spendingMultiplier].
  assert (Hin : ∀ name, name ∈ PERSONALITY_TRAITS.*2 → is_Some (t !! name)).
  { intros name Hn. destruct (Hl name) as [Hi _]. destruct (Hi Hn) as (x & _ & ->). done. }
  split; [reflexivity|]. split; [compute_done|].
  split; [|split].
  - intros name. split; [apply Hin|].
    intros [v Hv]. destruct (decide (name ∈ PERSONALITY_TRAITS.*2)) as [|Hn]; [done|].
    destruct (Hl name) as [_ Hout]. rewrite (Hout Hn), lookup_empty in Hv. done.
  - intros name v Hv. destruct (decide (name ∈ PERSONALITY_TRAITS.*2)) as [Hn|Hn].
    + destruct (Hl name) as [Hi _]. destruct (Hi Hn) as (x & Hx & Hlk).
      rewrite Hlk in Hv. injection Hv as <-. split; [lia|]. by exists x.
    + destruct (Hl name) as [_ Hout]. rewrite (Hout Hn), lookup_empty in Hv. done.
  - destruct (Hin "energetic") as [e He]; [compute_done|].
    destruct (Hin "hungry") as [h Hh]; [compute_done|].
    destruct (Hin "frugal") as [f Hf]; [compute_done|].
    exists e, h, f. unfold trait. rewrite He, Hh, Hf. done.
Qed.

Lemma createNewPersonality_traits_and_modifiers_witness :
  gaussian_finite server_Host
  ∧ traits (fst (createNewPersonality server_Host (Num 1) initial_RandomGenerator))
    !! "energetic" = Some 81
  ∧ energyDrain (modifiers (fst (createNewPersonality server_Host (Num 1)
                                   initial_RandomGenerator)))
    = (1 - (Z2f 81 - 128) / 512)%float.
Proof.
  assert (Hfin : gaussian_finite server_Host) by (intros r; reflexivity).
  split; [exact Hfin|].
  destruct (createNewPersonality_traits_and_modifiers server_Host (Num 1)
              initial_RandomGenerator Hfin)
    as (_ & _ & _ & _ & e & h & f & He & _ & _ & Hd & _).
  assert (He' : traits (fst (createNewPersonality server_Host (Num 1) initial_RandomGenerator))
                !! "energetic" = Some 81) by (vm_compute; reflexivity).
  split; [exact He'|]. rewrite He' in He. injection He as <-. exact Hd.
Defined.

(** ** Reconciliation *)

(** C10: when the host's guest enumeration throws, [cleanupOldData] returns
    at once and the store (profiles, groups, next group id) is unchanged. *)
Theorem cleanupOldData_enumeration_failure (H : Host) (st : PersonalityStore) :
  getAllEntities H = None → cleanupOldData H st = st.
Proof. intros Hthrow. unfold cleanupOldData. by rewrite Hthrow. Qed.

Lemma cleanupOldData_enumeration_failure_witness :
  getAllEntities (sample_Host mode_server None) = None
  ∧ cleanupOldData (sample_Host mode_server None) pair_store = pair_store.
Proof.
  split; [reflexivity|].
  apply (cleanupOldData_enumeration_failure (sample_Host mode_server None) pair_store).
  reflexivity.
Defined.

(** ** Preferred ride intensity *)







(** The rounding is that of the engine's arithmetic: at thrillSeeker 0,
    nervous 8, adventurous 72 the rational value of the formula is exactly
    3.5, the binary64 sum falls just below it, and the engine stores 3. *)
Remark preferred_intensity_rounds_the_binary64_sum :
  exact_round 0 8 72 = 4
  ∧ clamp (Math_round (preferred_intensity_formula 0 8 72 0)) 1 15 = 3.
Proof. split; vm_compute; reflexivity. Qed.

(** ** Ride memory *)

(** C5, as stated, fails: after two recordings of satisfaction 0.8 the
    ride has been ridden twice and its average is at least 0.8, yet it is
    not the favourite. *)
Lemma favorite_needs_more_than_0_8 :
  let s := recordRideExperience server_Host (Num 1) 7 0.8
             (recordRideExperience server_Host (Num 1) 7 0.8 empty_Sim) in
  ∃ rm, ride_record s (Num 1) 7 = Some rm
        ∧ timesRidden rm = 2
        ∧ ge (totalSatisfaction rm / Z2f (timesRidden rm)) 0.8 = true
        ∧ favorite_of s (Num 1) = Some None.
Proof.
  cbn zeta. eexists. split; [vm_compute; reflexivity|].
  split; [reflexivity|]. split; vm_compute; reflexivity.
Qed.

(** C5 (amended): recording a ride experience adds 1 to the ride's
    times-ridden count and the given satisfaction to its total; the ride
    becomes the favourite when the new average is strictly above 0.8 and the
    count is at least 2, and the worst experience when the average is below
    0.3 and the count is at least 1; otherwise the single favourite and the
    single worst entry keep their previous value. *)
Theorem recordRideExperience_spec (H : Host) (guestId : ident) (rideId : N)
    (satisfaction : float) (s : Sim) :
  let data := fst (getGuestData H guestId s) in
  let old := default {| timesRidden := 0; totalSatisfaction := 0 |}
               (ridesRidden (memory data) !! rideId) in
  let s' := recordRideExperience H guestId rideId satisfaction s in
  let n := timesRidden old + 1 in
  let total := (totalSatisfaction old + satisfaction)%float in
  let avg := (total / Z2f n)%float in
  ride_record s' guestId rideId = Some {| timesRidden := n; totalSatisfaction := total |}
  ∧ favorite_of s' guestId
    = Some (if gt avg 0.8 && (2 <=? n) then Some rideId else favoriteRide (memory data))
  ∧ worst_of s' guestId
    = Some (if (avg <? 0.3)%float && (1 <=? n) then Some rideId
            else worstExperience (memory data)).
Proof.
  cbn zeta. unfold recordRideExperience, ride_record, favorite_of, worst_of.
  destruct (getGuestData H guestId s) as [data s1]. cbn [fst].
  unfold put_profile, set_store, set_guests. cbn [store guests].
  rewrite lookup_insert_eq. cbn [mbind option_bind fmap option_fmap option_map].
  cbn [memory set_memory ridesRidden favoriteRide worstExperience compose].
  rewrite lookup_insert_eq.
  destruct (ridesRidden (memory data) !! rideId) as [rm|];
    cbn [default timesRidden totalSatisfaction]; done.
Qed.

(** ** The behaviour cascade *)

(** Settles the tests on the weather string once it is known to be, or not
    to be, one of the three the engine looks for. *)
Ltac weather_tests :=
  repeat (first
    [ rewrite bool_decide_eq_true_2 by (done || (by left) || (by right))
    | rewrite bool_decide_eq_false_2
        by (done || congruence || (let Hw := fresh in intros Hw; destruct Hw; congruence)) ];
    cbn [orb andb]).

(** The draw of the rain rule. *)
Ltac rain_draw H r :=
  let u := fresh "u" in
  let r1 := fresh "r" in
  destruct (getRandomFloat H r) as [u r1]; by destruct (u <? 0.3)%float.

(** The three weather rules are [getWeatherBehavior]. *)
Lemma getWeatherBehavior_cascade (cfg : CONFIG) (H : Host) (guest : Entity) (data : Profile)
    (r : RandomGenerator) (rest : list rule) :
  weatherReactionsEnabled cfg = true →
  cascade (firstn 3 (skipn 4 documented_cascade) ++ rest) cfg H guest data r
  = match getWeatherBehavior H guest data r with
    | (Some b, r1) => (b, r1)
    | (None, r1) => cascade rest cfg H guest data r1
    end.
Proof.
  intros Hen. cbn [firstn skipn documented_cascade app cascade applies chance outcome].
  unfold caught_in_rain, getWeatherBehavior. rewrite Hen. cbn [andb].
  destruct (weather H) as [w|]; [|by weather_tests].
  destruct (decide (w = "rain")) as [->|Hr];
    [|destruct (decide (w = "heavy_rain")) as [->|Hh]].
  - weather_tests.
    destruct (hasUmbrella guest) as [[]|]; cbn; try done.
    destruct (trait_gt (traits data) "nervous" 150); [done | rain_draw H r].
  - weather_tests.
    destruct (hasUmbrella guest) as [[]|]; cbn; try done.
    destruct (trait_gt (traits data) "nervous" 150); [done | rain_draw H r].
  - destruct (decide (w = "thunder")) as [->|Ht]; weather_tests; [|done].
    by destruct (trait_gt (traits data) "nervous" 100).
Qed.

(** Rules 6 to 14 are the rest of [determineBehavior]. *)
Lemma cascade_tail (cfg : CONFIG) (H : Host) (guest : Entity) (data : Profile)
    (r : RandomGenerator) :
  cascade (skipn 7 documented_cascade) cfg H guest data r
  = let t := traits data in
    let m := mood data in
    if energy guest <? 30 then (RESTING, r)
    else if bool_decide (is_Some (truthy (social_groupId (social data))))
            && negb (social_isLeader (social data)) then (FOLLOWING_GROUP, r)
    else if social_isLeader (social data) then (LEADING_GROUP, r)
    else
      let '(photo, r) :=
        if trait_gt t "photographer" 180
        then let '(u, r1) := getRandomFloat H r in ((u <? 0.1)%float, r1)
        else (false, r) in
      if photo then (PHOTO_TAKING, r)
      else
        let '(shop, r) :=
          if trait_gt t "collector" 180
          then let '(u, r1) := getRandomFloat H r in ((u <? 0.05)%float, r1)
          else (false, r) in
        if shop then (SHOPPING, r)
        else
          let '(chat, r) :=
            if trait_gt t "social" 170
            then let '(u, r1) := getRandomFloat H r in
                 ((u <? groupFormationChance cfg)%float, r1)
            else (false, r) in
          if chat then (SOCIALIZING, r)
          else if bool_decide (mood_current m = BORED) then (SEEKING_RIDE, r)
          else
            let '(leave, r) :=
              if bool_decide (mood_current m = SAD) && isInPark guest
              then let '(u, r1) := getRandomFloat H r in ((u <? 0.1)%float, r1)
              else (false, r) in
            if leave then (LEAVING, r)
            else if trait_gt t "thrillSeeker" 150 || trait_gt t "adventurous" 150
            then (SEEKING_RIDE, r)
            else (WANDERING, r).
Proof.
  cbn [skipn documented_cascade cascade applies chance outcome]. unfold grouped. cbn zeta.
  repeat (first [done | case_match; simplify_eq/=]).
Qed.

Lemma determineBehavior_cascade (cfg : CONFIG) (H : Host) (guest : Entity) (data : Profile)
    (r : RandomGenerator) :
  determineBehavior cfg H guest data r = cascade documented_cascade cfg H guest data r.
Proof.
  unfold determineBehavior.
  change documented_cascade
    with (firstn 4 documented_cascade
          ++ (firstn 3 (skipn 4 documented_cascade) ++ skipn 7 documented_cascade)).
  cbn [firstn documented_cascade app]. cbn [cascade applies chance outcome].
  destruct (180 <? toilet guest); [done|].
  destruct (_ && trait_gt _ "hungry" 100); [done|].
  destruct (thirst guest <? 40); [done|].
  destruct (hunger guest <? 60); [done|].
  destruct (weatherReactionsEnabled cfg) eqn:Hen.
  - change (cascade _ cfg H guest data r)
      with (cascade (firstn 3 (skipn 4 documented_cascade) ++ skipn 7 documented_cascade)
              cfg H guest data r).
    rewrite (getWeatherBehavior_cascade _ _ _ _ _ _ Hen).
    destruct (getWeatherBehavior H guest data r) as [[b|] r1]; [done|].
    symmetry. apply cascade_tail.
  - change (cascade _ cfg H guest data r)
      with (cascade (firstn 3 (skipn 4 documented_cascade) ++ skipn 7 documented_cascade)
              cfg H guest data r).
    cbn [firstn skipn documented_cascade app cascade applies chance outcome].
    unfold caught_in_rain. rewrite Hen. cbn [andb].
    symmetry. apply cascade_tail.
Qed.

(** In a cascade, either a rule of the prefix whose condition holds is
    selected, or the decision passes to the rest. *)
Lemma cascade_app (pre rest : list rule) (cfg : CONFIG) (H : Host) (guest : Entity)
    (data : Profile) (r : RandomGenerator) :
  (∃ q, q ∈ pre ∧ applies q cfg H guest data = true
        ∧ fst (cascade (pre ++ rest) cfg H guest data r) = outcome q)
  ∨ (∃ r', cascade (pre ++ rest) cfg H guest data r = cascade rest cfg H guest data r').
Proof.
  revert r. induction pre as [|q pre IH]; intros r; [right; by exists r|].
  cbn [app cascade]. destruct (applies q cfg H guest data) eqn:Hq.
  - destruct (chance q) as [p|].
    + destruct (getRandomFloat H r) as [u r1]. destruct (u <? p cfg)%float.
      * left. exists q. split; [left|done].
      * destruct (IH r1) as [(q' & Hin & Hq' & Hres)|[r' Hres]].
        -- left. exists q'. split; [by right|done].
        -- right. by exists r'.
    + left. exists q. split; [left|done].
  - destruct (IH r) as [(q' & Hin & Hq' & Hres)|[r' Hres]].
    + left. exists q'. split; [by right|done].
    + right. by exists r'.
Qed.

(** C4: for all inputs and random draws, [determineBehavior] selects the
    first matching rule of the documented cascade.  When a rule's condition
    holds, the selected behaviour is that of a higher-priority rule whose
    condition holds, or the rule's own (for a gated rule, when its draw
    passes; when it fails the decision goes to the lower rules with the
    draws that remain), never a lower-priority rule's while the rule fires.
    A guest with hunger 30, hungry trait 150 and restroom need at most 180
    is Seeking-food whatever the mood and the weather. *)
Theorem determineBehavior_first_match (cfg : CONFIG) (H : Host) (guest : Entity)
    (data : Profile) (r : RandomGenerator) :
  determineBehavior cfg H guest data r = cascade documented_cascade cfg H guest data r
  ∧ (∀ pre ru post,
       documented_cascade = pre ++ ru :: post →
       applies ru cfg H guest data = true →
       (∃ q, q ∈ pre ∧ applies q cfg H guest data = true
             ∧ fst (determineBehavior cfg H guest data r) = outcome q)
       ∨ (∃ r',
            match chance ru with
            | None => determineBehavior cfg H guest data r = (outcome ru, r')
            | Some p =>
                let '(u, r1) := getRandomFloat H r' in
                if (u <? p cfg)%float
                then determineBehavior cfg H guest data r = (outcome ru, r1)
                else determineBehavior cfg H guest data r = cascade post cfg H guest data r1
            end))
  ∧ (hunger guest = 30 → traits data !! "hungry" = Some 150 → toilet guest ≤ 180 →
     fst (determineBehavior cfg H guest data r) = SEEKING_FOOD).
Proof.
  split; [apply determineBehavior_cascade|]. split.
  - intros pre ru post Hsplit Hru. rewrite determineBehavior_cascade, Hsplit.
    destruct (cascade_app pre (ru :: post) cfg H guest data r) as [Hq|[r' Hr']]; [by left|].
    right. exists r'. rewrite Hr'. cbn [cascade]. rewrite Hru.
    destruct (chance ru) as [p|]; [|done].
    destruct (getRandomFloat H r') as [u r1]. by destruct (u <? p cfg)%float.
  - intros Hh Ht Hto. unfold determineBehavior, trait_gt. rewrite Hh, Ht.
    destruct (180 <? toilet guest) eqn:Hgt; [lia|]. reflexivity.
Qed.

Lemma determineBehavior_first_match_witness :
  fst (determineBehavior default_CONFIG server_Host hungry_guest
         (set_traits (<["hungry" := 150]> ∅) scenario_profile) initial_RandomGenerator)
  = SEEKING_FOOD.
Proof.
  refine (proj2 (proj2 (determineBehavior_first_match _ _ _ _ _)) _ _ _);
    [reflexivity | reflexivity | cbn; lia].
Defined.

(** ** Mood hysteresis *)

(** [calculateMood] reads the guest's needs and position and the traits;
    of the stored mood only the last-change tick, which it copies. *)
Lemma calculateMood_ext (cfg : CONFIG) (H : Host) (guest guest' : Entity) (data data' : Profile) :
  guest_x guest' = guest_x guest → guest_y guest' = guest_y guest →
  hunger guest' = hunger guest → thirst guest' = thirst guest →
  toilet guest' = toilet guest → energy guest' = energy guest →
  nausea guest' = nausea guest → happiness guest' = happiness guest →
  traits data' = traits data →
  mood_current (calculateMood cfg H guest' data') = mood_current (calculateMood cfg H guest data)
  ∧ mood_intensity (calculateMood cfg H guest' data')
    = mood_intensity (calculateMood cfg H guest data).
Proof.
  intros Hx Hy Hh Ht Hto He Hn Hha Htr.
  assert (Hc : countNearbyGuests H guest' = countNearbyGuests H guest)
    by (unfold countNearbyGuests; by rewrite Hx, Hy).
  unfold calculateMood. rewrite Hc, Hh, Ht, Hto, He, Hn, Hha, Htr.
  generalize (countNearbyGuests H guest). intros c.
  repeat case_match; done.
Qed.

(** [applyMoodEffects] writes the happiness target only. *)
Lemma applyMoodEffects_needs (cfg : CONFIG) (H : Host) (guest : Entity) (data : Profile) :
  let g := applyMoodEffects cfg H guest data in
  guest_x g = guest_x guest ∧ guest_y g = guest_y guest ∧ hunger g = hunger guest
  ∧ thirst g = thirst guest ∧ toilet g = toilet guest ∧ energy g = energy guest
  ∧ nausea g = nausea guest ∧ happiness g = happiness guest.
Proof. cbn zeta. unfold applyMoodEffects. repeat case_match; done. Qed.

Lemma getGuestData_stored (H : Host) (guestId : ident) (s : Sim) :
  let '(data, s1) := getGuestData H guestId s in
  guests (store s1) !! slot guestId = Some data.
Proof.
  unfold getGuestData. destruct (guests (store s) !! slot guestId) as [p|] eqn:Hp; [done|].
  destruct (createNewPersonality H guestId (random s)) as [p r]. cbn. apply lookup_insert_eq.
Qed.

Lemma getGuestData_present (H : Host) (guestId : ident) (s : Sim) (p : Profile) :
  guests (store s) !! slot guestId = Some p → getGuestData H guestId s = (p, s).
Proof. intros Hp. unfold getGuestData. by rewrite Hp. Qed.

(** A mood inside the hysteresis band changes nothing. *)
Lemma updateMood_settled (cfg : CONFIG) (H : Host) (guestId : ident) (guest : Entity) (s : Sim)
    (data : Profile) :
  guests (store s) !! slot guestId = Some data →
  mood_differs (calculateMood cfg H guest data) (mood data) = false →
  updateMood cfg H guestId guest s = (s, guest).
Proof.
  intros Hp Hd. unfold updateMood. destruct (canModifyGameState H); [|done]. cbn [negb].
  rewrite (getGuestData_present _ _ _ _ Hp). by rewrite Hd.
Qed.

(** C7: on an authoritative participant, with [data] the guest's profile
    (created on first sight) and [newMood] the recomputed mood: the stored
    mood is replaced exactly when the new state differs from the stored one
    or the intensities differ by more than 10, and then the last-change tick
    is the current tick and the mood-change counter grows by 1; otherwise
    the stored profile (mood, last-change tick, counter) and the guest (its
    happiness target) are unchanged.  Evaluating again with the same inputs
    changes nothing. *)
Theorem updateMood_hysteresis (cfg : CONFIG) (H : Host) (guestId : ident) (guest : Entity)
    (s : Sim) :
  canModifyGameState H = true →
  let data := fst (getGuestData H guestId s) in
  let s1 := snd (getGuestData H guestId s) in
  let newMood := calculateMood cfg H guest data in
  let s' := fst (updateMood cfg H guestId guest s) in
  let guest' := snd (updateMood cfg H guestId guest s) in
  (mood_current newMood ≠ mood_current (mood data)
   ∨ gt (abs (mood_intensity newMood - mood_intensity (mood data))) 10 = true →
   ∃ data', guests (store s') !! slot guestId = Some data'
            ∧ mood_current (mood data') = mood_current newMood
            ∧ mood_intensity (mood data') = mood_intensity newMood
            ∧ mood_lastChange (mood data') = ticksElapsed H
            ∧ moodChanges (stats data') = moodChanges (stats data) + 1)
  ∧ (¬ (mood_current newMood ≠ mood_current (mood data)
        ∨ gt (abs (mood_intensity newMood - mood_intensity (mood data))) 10 = true) →
     s' = s1 ∧ guest' = guest
     ∧ guests (store s') !! slot guestId = Some data)
  ∧ updateMood cfg H guestId guest' s' = (s', guest').
Proof.
  intros Hauth. cbn zeta.
  pose proof (getGuestData_stored H guestId s) as Hst.
  assert (Hcall : updateMood cfg H guestId guest s
                  = let '(data, s1) := getGuestData H guestId s in
                    let newMood := calculateMood cfg H guest data in
                    if mood_differs newMood (mood data) then
                      let data' :=
                        bump_moodChanges
                          (set_mood {| mood_current := mood_current newMood;
                                       mood_intensity := mood_intensity newMood;
                                       mood_lastChange := ticksElapsed H |} data) in
                      (put_profile guestId data' s1, applyMoodEffects cfg H guest data')
                    else (s1, guest)).
  { unfold updateMood. by rewrite Hauth. }
  rewrite Hcall. clear Hcall.
  destruct (getGuestData H guestId s) as [data s1]. cbn [fst snd]. cbn zeta.
  set (newMood := calculateMood cfg H guest data).
  assert (Hiff : mood_differs newMood (mood data) = true
                 ↔ (mood_current newMood ≠ mood_current (mood data)
                    ∨ gt (abs (mood_intensity newMood - mood_intensity (mood data))) 10 = true)).
  { unfold mood_differs. rewrite orb_true_iff, negb_true_iff, bool_decide_eq_false. done. }
  destruct (mood_differs newMood (mood data)) eqn:Hd; cbn [fst snd].
  - set (data' := bump_moodChanges _).
    assert (Hnew : guests (store (put_profile guestId data' s1)) !! slot guestId = Some data')
      by apply lookup_insert_eq.
    split; [|split].
    + intros _. by exists data'.
    + intros Hn. exfalso. apply Hn. by apply Hiff.
    + apply (updateMood_settled _ _ _ _ _ _ Hnew).
      destruct (applyMoodEffects_needs cfg H guest data')
        as (Hx & Hy & Hh & Ht & Hto & He & Hn & Hha).
      destruct (calculateMood_ext cfg H guest (applyMoodEffects cfg H guest data') data data'
                  Hx Hy Hh Ht Hto He Hn Hha eq_refl) as [Hc Hi].
      unfold mood_differs. rewrite Hc, Hi. cbn [data' bump_moodChanges set_stats set_mood mood
        mood_current mood_intensity].
      rewrite abs_sub_diag, bool_decide_eq_true_2; done.
  - split; [|split].
    + intros Hy. apply Hiff in Hy. congruence.
    + done.
    + by apply (updateMood_settled _ _ _ _ _ _ Hst).
Qed.

Lemma updateMood_hysteresis_witness :
  canModifyGameState server_Host = true
  ∧ mood_current
      (calculateMood default_CONFIG server_Host hungry_guest
         (fst (getGuestData server_Host (Num 1) empty_Sim))) = HUNGRY_MOOD
  ∧ (let s' := fst (updateMood default_CONFIG server_Host (Num 1) hungry_guest empty_Sim) in
     let guest' := snd (updateMood default_CONFIG server_Host (Num 1) hungry_guest empty_Sim) in
     updateMood default_CONFIG server_Host (Num 1) guest' s' = (s', guest')).
Proof.
  split; [reflexivity|]. split; [reflexivity|].
  exact (proj2 (proj2 (updateMood_hysteresis default_CONFIG server_Host (Num 1) hungry_guest
                         empty_Sim eq_refl))).
Defined.

(** ** Groups *)

(** C1 (evaluation at the failing input): in the consistent store where
    guest 1 leads the group of guests 1 and 2, [removeGuestData] of guest 1
    leaves the group with the removed guest as its leader and guest 2 as its
    only member, so the leader is not a member; the same removal reached
    through [cleanupOldData] (guest 1 absent from the host's list) removes
    the profile and leaves the group's member list and leader as they were.
    [removeFromGroup], applied to the same store, promotes guest 2. *)
Theorem removeGuestData_keeps_departed_leader :
  store_consistent pair_store = true
  ∧ groups pair_store !! 1%N = Some pair_group
  ∧ groups (removeGuestData (Num 1) pair_store) !! 1%N
    = Some (set_members [Num 2] pair_group)
  ∧ store_consistent (removeGuestData (Num 1) pair_store) = false
  ∧ (let st := cleanupOldData (sample_Host mode_server (Some [Some (sample_guest 2)]))
                 pair_store in
     hasGuestData (Num 1) st = false
     ∧ groups st !! 1%N = Some pair_group
     ∧ store_consistent st = false)
  ∧ groups (removeFromGroup (Num 1) pair_store) !! 1%N
    = Some (set_leaderId (Num 2) (set_members [Num 2] pair_group))
  ∧ store_consistent (removeFromGroup (Num 1) pair_store) = true.
Proof. repeat split; vm_compute; reflexivity. Qed.


Lemma dissolveGroup_gone (groupId : N) (st : PersonalityStore) :
  groups (dissolveGroup groupId st) !! groupId = None.
Proof.
  unfold dissolveGroup. destruct (groups st !! groupId) eqn:Hg; [|done].
  cbn. apply lookup_delete_eq.
Qed.



(** ** Authority *)

(** C3, as stated, fails: on a participant that may not modify the game
    state, looking a guest up still creates and stores its profile, and
    recording a ride experience still writes to the store. *)
Lemma getGuestData_writes_when_read_only :
  canModifyGameState client_Host = false
  ∧ hasGuestData (Num 1) (store empty_Sim) = false
  ∧ hasGuestData (Num 1) (store (snd (getGuestData client_Host (Num 1) empty_Sim))) = true
  ∧ hasGuestData (Num 1)
      (store (recordRideExperience client_Host (Num 1) 7 0.5 empty_Sim)) = true.
Proof. repeat split; vm_compute; reflexivity. Qed.

(** C3 (amended): when the participant is not authoritative, the gated
    entry points ([updateMood], [applyMoodEffects], [updateBehavior],
    [executeBehavior], [updateGroups], [onGuestGenerated], [onTick]) return
    at once: the store, the random generator, the guest and the scheduler
    state are unchanged, and no error is raised. *)
Theorem read_only_entry_points (cfg : CONFIG) (H : Host) :
  canModifyGameState H = false →
  (∀ guestId guest s, updateMood cfg H guestId guest s = (s, guest))
  ∧ (∀ guest data, applyMoodEffects cfg H guest data = guest)
  ∧ (∀ guestId guest s, updateBehavior cfg H guestId guest s = (s, guest))
  ∧ (∀ guestId guest s, executeBehavior cfg H guestId guest s = (s, guest))
  ∧ (∀ s, updateGroups H s = s)
  ∧ (∀ guestId s, onGuestGenerated H guestId s = (s, getEntity H guestId))
  ∧ (∀ w, onTick H w = w).
Proof.
  intros Hro.
  unfold updateMood, applyMoodEffects, updateBehavior, executeBehavior, updateGroups,
    onGuestGenerated, onTick.
  rewrite Hro. cbn [negb]. repeat split; try done.
  intros w. by destruct (negb (enabled (config w))).
Qed.

Lemma read_only_entry_points_witness :
  canModifyGameState client_Host = false
  ∧ updateMood default_CONFIG client_Host (Num 1) hungry_guest empty_Sim
    = (empty_Sim, hungry_guest)
  ∧ onTick client_Host initial_World = initial_World.
Proof.
  split; [reflexivity|].
  destruct (read_only_entry_points default_CONFIG client_Host eq_refl)
    as (Hm & _ & _ & _ & _ & _ & Ht).
  split; [apply Hm | apply Ht].
Defined.

(** ** The scheduler pass *)

(** Every round of the loop advances the counter and leaves the cap alone. *)
Lemma process_round_progress (H : Host) (processed : Z) (w : World) :
  processed < fst (process_round H processed w)
  ∧ config (snd (process_round H processed w)) = config w.
Proof.
  unfold process_round. repeat case_match; cbn [fst snd config]; split; (lia || done).
Qed.

(** The loop has ended by its own condition once the fuel covers the
    distance to the cap: more fuel changes nothing. *)
Lemma process_loop_fuel (H : Host) (fuel : nat) (processed : Z) (w : World) :
  (Z.to_nat (maxGuestsPerTick (config w) - processed) ≤ fuel)%nat →
  process_loop (S fuel) H processed w = process_loop fuel H processed w.
Proof.
  revert processed w. induction fuel as [|fuel IH]; intros processed w Hfuel.
  - cbn [process_loop]. destruct (processed <? _) eqn:Hlt; [lia|done].
  - change (process_loop (S (S fuel)) H processed w)
      with (if processed <? maxGuestsPerTick (config w) then
              let '(over, pm) := isOverBudget (config w) H (monitor w) in
              let w := set_monitor pm w in
              if over then w
              else let '(processed', w') := process_round H processed w in
                   process_loop (S fuel) H processed' w'
            else w).
    cbn [process_loop]. destruct (processed <? _) eqn:Hlt; [|done].
    destruct (isOverBudget (config w) H (monitor w)) as [[] pm]; [done|].
    pose proof (process_round_progress H processed (set_monitor pm w)) as [Hp Hc].
    destruct (process_round H processed (set_monitor pm w)) as [processed' w'].
    cbn [fst snd] in Hp, Hc. apply IH. rewrite Hc. cbn [set_monitor config]. lia.
Qed.

(** C9 (evaluation at the failing input): with the cap at 5, five live
    guests and a clock that never reaches the budget, one pass processes
    3 guests, not 5: a processed guest adds 2 to the loop's counter.  The
    cursor ends at 3 and only guests 1 to 3 have profiles. *)
Theorem processGuests_double_count :
  let H := sample_Host mode_server (Some five_guests) in
  let w := processGuests H initial_World in
  maxGuestsPerTick (config initial_World) = 5
  ∧ length five_guests = 5%nat
  ∧ (∀ k, ge (Z2f (now H k - now H 0)) (frameBudgetMs (config initial_World)) = false)
  ∧ guestsProcessed (statistics (processor w)) = 3
  ∧ guestIndex (processor w) = 3
  ∧ own_keys (guests (store (sim w))) = [1%N; 2%N; 3%N].
Proof.
  cbn zeta. split; [reflexivity|]. split; [reflexivity|]. split; [intros k; reflexivity|].
  repeat split; vm_compute; reflexivity.
Qed.

(** * Further properties of the code *)

(** ** The profile table *)

(** X1: [getGuestData] is a get-or-create.  After a call the guest has a
    profile, a second call returns the same profile and changes nothing,
    the profiles of the other guests and all groups are untouched, and a
    call for a guest that already has a profile leaves the whole state as
    it was. *)
Theorem getGuestData_round_trip (H : Host) (guestId other : ident) (s : Sim) :
  let data := fst (getGuestData H guestId s) in
  let s1 := snd (getGuestData H guestId s) in
  hasGuestData guestId (store s1) = true
  ∧ getGuestData H guestId s1 = (data, s1)
  ∧ (slot other ≠ slot guestId →
     guests (store s1) !! slot other = guests (store s) !! slot other)
  ∧ groups (store s1) = groups (store s)
  ∧ (hasGuestData guestId (store s) = true → s1 = s).
Proof.
  cbn zeta. pose proof (getGuestData_stored H guestId s) as Hst.
  unfold hasGuestData.
  destruct (getGuestData H guestId s) as [data s1] eqn:Hget. cbn [fst snd].
  split; [by rewrite Hst, bool_decide_eq_true_2|].
  split; [by apply getGuestData_present|].
  unfold getGuestData in Hget.
  destruct (guests (store s) !! slot guestId) as [p|] eqn:Hp.
  - injection Hget as <- <-. done.
  - destruct (createNewPersonality H guestId (random s)) as [p r].
    injection Hget as <- <-. cbn [store guests set_guests groups].
    split; [intros Hne; by apply lookup_insert_ne|]. split; [done|].
    intros Hh. apply bool_decide_eq_true_1 in Hh. rewrite ?Hp in Hh. by destruct Hh.
Qed.

(** X2: [removeGuestData] removes the profile of the guest and of nobody
    else, keeps the next group id, creates no group, and does nothing at
    all for a guest without a profile. *)
Theorem removeGuestData_removes_one (guestId other : ident) (st : PersonalityStore) :
  let st' := removeGuestData guestId st in
  hasGuestData guestId st' = false
  ∧ (slot other ≠ slot guestId → guests st' !! slot other = guests st !! slot other)
  ∧ nextGroupId st' = nextGroupId st
  ∧ (∀ k, is_Some (groups st' !! k) → is_Some (groups st !! k))
  ∧ (hasGuestData guestId st = false → st' = st).
Proof.
  cbn zeta. unfold removeGuestData, hasGuestData.
  destruct (guests st !! slot guestId) as [p|] eqn:Hp.
  - cbn [guests groups nextGroupId]. rewrite lookup_delete_eq.
    split; [by rewrite bool_decide_eq_false_2; [|intros [? ?]]|].
    split; [intros Hne; by apply lookup_delete_ne|]. split; [done|]. split.
    + intros k. repeat case_match; try done;
        first [ by intros [_ ?]%lookup_delete_is_Some
              | intros [<-|[_ ?]]%lookup_insert_is_Some; [by eexists|done] ].
    + rewrite bool_decide_eq_true_2; [done|by eexists].
  - rewrite Hp. split; [by rewrite bool_decide_eq_false_2; [|intros [? ?]]|]. done.
Qed.

(** ** Group ids *)

Lemma no_new_groups_refl (st : PersonalityStore) : no_new_groups st st.
Proof. by split. Qed.

Lemma no_new_groups_trans (st1 st2 st3 : PersonalityStore) :
  no_new_groups st1 st2 → no_new_groups st2 st3 → no_new_groups st1 st3.
Proof. intros [Hn1 Hk1] [Hn2 Hk2]. split; [congruence | naive_solver]. Qed.

Lemma same_guests_refl (st : PersonalityStore) : same_guests st st.
Proof. by intros k. Qed.

Lemma same_guests_trans (st1 st2 st3 : PersonalityStore) :
  same_guests st1 st2 → same_guests st2 st3 → same_guests st1 st3.
Proof. intros H1 H2 k. rewrite (H2 k). apply H1. Qed.

(** A fold of steps that each add no group, or each keep the guests. *)
Lemma foldl_no_new_groups {A} (f : PersonalityStore → A → PersonalityStore) (l : list A)
    (st : PersonalityStore) :
  (∀ st x, no_new_groups st (f st x)) → no_new_groups st (foldl f st l).
Proof.
  intros Hf. revert st. induction l as [|x l IH]; intros st; [apply no_new_groups_refl|].
  cbn [foldl]. eapply no_new_groups_trans; [apply Hf | apply IH].
Qed.

Lemma foldl_same_guests {A} (f : PersonalityStore → A → PersonalityStore) (l : list A)
    (st : PersonalityStore) :
  (∀ st x, same_guests st (f st x)) → same_guests st (foldl f st l).
Proof.
  intros Hf. revert st. induction l as [|x l IH]; intros st; [apply same_guests_refl|].
  cbn [foldl]. eapply same_guests_trans; [apply Hf | apply IH].
Qed.

Lemma is_Some_alter {A} (f : A → A) (m : gmap N A) (i k : N) :
  is_Some (alter f i m !! k) ↔ is_Some (m !! k).
Proof.
  rewrite lookup_alter. case_decide; [|done]. subst. by rewrite fmap_is_Some.
Qed.

Lemma removeFromGroup_no_new_groups (guestId : ident) (st : PersonalityStore) :
  no_new_groups st (removeFromGroup guestId st).
Proof.
  unfold removeFromGroup. repeat case_match; try apply no_new_groups_refl;
    (split; [done|]); cbn [groups set_guests set_groups]; intros k Hk;
    repeat first
      [ apply lookup_delete_is_Some in Hk as [_ Hk]
      | apply lookup_insert_is_Some in Hk as [<-|[_ Hk]]; [by eexists|] ]; done.
Qed.

Lemma removeFromGroup_same_guests (guestId : ident) (st : PersonalityStore) :
  same_guests st (removeFromGroup guestId st).
Proof.
  unfold removeFromGroup. repeat case_match; try apply same_guests_refl;
    intros k; cbn [guests set_guests set_groups]; by rewrite ?is_Some_alter.
Qed.

Lemma removeGuestData_no_new_groups (guestId : ident) (st : PersonalityStore) :
  no_new_groups st (removeGuestData guestId st).
Proof.
  unfold removeGuestData. repeat case_match; try apply no_new_groups_refl;
    (split; [done|]); cbn [groups]; intros k Hk; try done;
    repeat first
      [ apply lookup_delete_is_Some in Hk as [_ Hk]
      | apply lookup_insert_is_Some in Hk as [<-|[_ Hk]]; [by eexists|] ]; done.
Qed.

Lemma addToGroup_no_new_groups (guestId : ident) (groupId : N) (st : PersonalityStore) :
  no_new_groups st (snd (addToGroup guestId groupId st)).
Proof.
  unfold addToGroup.
  destruct (groups st !! groupId) as [g0|] eqn:Hg0; [|apply no_new_groups_refl].
  destruct (guests st !! slot guestId) as [p|]; [|apply no_new_groups_refl].
  set (st1 := match truthy _ with Some _ => removeFromGroup guestId st | None => st end).
  assert (H1 : no_new_groups st st1).
  { unfold st1. destruct (truthy _); [apply removeFromGroup_no_new_groups|].
    apply no_new_groups_refl. }
  destruct (groups st1 !! groupId) as [g|] eqn:Hg; cbn [snd]; [|done].
  eapply no_new_groups_trans; [exact H1|]. split; [done|]. cbn [groups]. intros k Hk.
  apply lookup_insert_is_Some in Hk as [<-|[_ Hk]]; [by eexists|done].
Qed.

Lemma addToGroup_same_guests (guestId : ident) (groupId : N) (st : PersonalityStore) :
  same_guests st (snd (addToGroup guestId groupId st)).
Proof.
  unfold addToGroup.
  destruct (groups st !! groupId) as [g0|] eqn:Hg0; [|apply same_guests_refl].
  destruct (guests st !! slot guestId) as [p|]; [|apply same_guests_refl].
  set (st1 := match truthy _ with Some _ => removeFromGroup guestId st | None => st end).
  assert (H1 : same_guests st st1).
  { unfold st1. destruct (truthy _); [apply removeFromGroup_same_guests|].
    apply same_guests_refl. }
  destruct (groups st1 !! groupId) as [g|] eqn:Hg; cbn [snd]; [|done].
  eapply same_guests_trans; [exact H1|]. intros k. cbn [guests]. by rewrite is_Some_alter.
Qed.

Lemma dissolveGroup_no_new_groups (groupId : N) (st : PersonalityStore) :
  no_new_groups st (dissolveGroup groupId st).
Proof.
  unfold dissolveGroup. destruct (groups st !! groupId) as [g|]; [|apply no_new_groups_refl].
  eapply no_new_groups_trans.
  - apply (foldl_no_new_groups (fun st m => removeFromGroup m st)).
    intros st0 m. apply removeFromGroup_no_new_groups.
  - split; [done|]. cbn [groups set_groups]. by intros k [_ Hk]%lookup_delete_is_Some.
Qed.

Lemma dissolveGroup_same_guests (groupId : N) (st : PersonalityStore) :
  same_guests st (dissolveGroup groupId st).
Proof.
  unfold dissolveGroup. destruct (groups st !! groupId) as [g|]; [|apply same_guests_refl].
  eapply same_guests_trans.
  - apply (foldl_same_guests (fun st m => removeFromGroup m st)).
    intros st0 m. apply removeFromGroup_same_guests.
  - intros k. by cbn [guests set_groups].
Qed.

Lemma cleanupOldData_no_new_groups (H : Host) (st : PersonalityStore) :
  no_new_groups st (cleanupOldData H st).
Proof.
  unfold cleanupOldData. destruct (getAllEntities H); [|apply no_new_groups_refl].
  apply foldl_no_new_groups. intros st0 k. repeat case_match; try apply no_new_groups_refl.
  apply removeGuestData_no_new_groups.
Qed.

Lemma updateGroup_no_new_groups (H : Host) (groupId : N) (s : Sim) :
  no_new_groups (store s) (store (updateGroup H groupId s)).
Proof.
  unfold updateGroup. repeat case_match; cbn [store set_store];
    try apply no_new_groups_refl; try apply dissolveGroup_no_new_groups.
  apply (foldl_no_new_groups (fun st m => removeFromGroup m st)).
  intros st0 m. apply removeFromGroup_no_new_groups.
Qed.

Lemma updateGroup_same_guests (H : Host) (groupId : N) (s : Sim) :
  same_guests (store s) (store (updateGroup H groupId s)).
Proof.
  unfold updateGroup. repeat case_match; cbn [store set_store];
    try apply same_guests_refl; try apply dissolveGroup_same_guests.
  apply (foldl_same_guests (fun st m => removeFromGroup m st)).
  intros st0 m. apply removeFromGroup_same_guests.
Qed.

Lemma updateGroups_no_new_groups (H : Host) (s : Sim) :
  no_new_groups (store s) (store (updateGroups H s)).
Proof.
  unfold updateGroups. destruct (negb (canModifyGameState H)); [apply no_new_groups_refl|].
  generalize (own_keys (groups (store s))). intros l. revert s.
  induction l as [|k l IH]; intros s; [apply no_new_groups_refl|].
  cbn [foldl]. eapply no_new_groups_trans; [|apply IH].
  case_match; [apply updateGroup_no_new_groups | apply no_new_groups_refl].
Qed.

Lemma updateGroups_same_guests (H : Host) (s : Sim) :
  same_guests (store s) (store (updateGroups H s)).
Proof.
  unfold updateGroups. destruct (negb (canModifyGameState H)); [apply same_guests_refl|].
  generalize (own_keys (groups (store s))). intros l. revert s.
  induction l as [|k l IH]; intros s; [apply same_guests_refl|].
  cbn [foldl]. eapply same_guests_trans; [|apply IH].
  case_match; [apply updateGroup_same_guests | apply same_guests_refl].
Qed.

(** X3: no operation but [createGroup] makes a group appear or moves the
    next group id: [removeFromGroup], [addToGroup], [removeGuestData],
    [dissolveGroup], [cleanupOldData] and [updateGroups] leave the next id
    alone and every group they leave behind was there before. *)
Theorem only_createGroup_adds_groups (H : Host) (st : PersonalityStore) :
  (∀ guestId, no_new_groups st (removeFromGroup guestId st))
  ∧ (∀ guestId groupId, no_new_groups st (snd (addToGroup guestId groupId st)))
  ∧ (∀ guestId, no_new_groups st (removeGuestData guestId st))
  ∧ (∀ groupId, no_new_groups st (dissolveGroup groupId st))
  ∧ no_new_groups st (cleanupOldData H st)
  ∧ (∀ r, no_new_groups st (store (updateGroups H {| store := st; random := r |}))).
Proof.
  split; [intros; apply removeFromGroup_no_new_groups|].
  split; [intros; apply addToGroup_no_new_groups|].
  split; [intros; apply removeGuestData_no_new_groups|].
  split; [intros; apply dissolveGroup_no_new_groups|].
  split; [apply cleanupOldData_no_new_groups|].
  intros r. apply (updateGroups_no_new_groups H {| store := st; random := r |}).
Qed.

Lemma no_new_groups_ids_below_next (st st' : PersonalityStore) :
  no_new_groups st st' → ids_below_next st → ids_below_next st'.
Proof. intros [Hn Hk] Hinv k Hs. rewrite Hn. by apply Hinv, Hk. Qed.

(** X4: when every stored group sits under an id below [nextGroupId],
    [createGroup] returns an id that no group uses, stores under it a
    group led by the given guest with that guest as only member, keeps
    every other group as it is (a group the leader already belonged to
    included), adds and removes no profile, and keeps the ids below the new
    [nextGroupId]. *)
Theorem createGroup_fresh_id (H : Host) (leaderGuestId : ident) (st : PersonalityStore) :
  ids_below_next st →
  let groupId := fst (createGroup H leaderGuestId st) in
  let st' := snd (createGroup H leaderGuestId st) in
  groups st !! groupId = None
  ∧ groups st' !! groupId
    = Some {| group_id := groupId; leaderId := leaderGuestId; members := [leaderGuestId];
              formation := "follow"; targetRide := None;
              group_createdTick := ticksElapsed H |}
  ∧ (∀ k g, groups st !! k = Some g → groups st' !! k = Some g)
  ∧ same_guests st st'
  ∧ ids_below_next st'.
Proof.
  intros Hinv. cbn zeta. unfold createGroup. cbn [fst snd groups guests nextGroupId].
  assert (Hnone : groups st !! nextGroupId st = None).
  { destruct (groups st !! nextGroupId st) eqn:Hg; [|done].
    assert (nextGroupId st < nextGroupId st)%N by (apply Hinv; by eexists). lia. }
  split; [done|]. split; [apply lookup_insert_eq|]. split; [|split].
  - intros k g Hk. rewrite lookup_insert_ne; [done|]. congruence.
  - intros k. cbn [guests]. apply is_Some_alter.
  - intros k Hk. cbn [groups nextGroupId] in *.
    apply lookup_insert_is_Some in Hk as [<-|[_ Hk]]; [lia|]. apply Hinv in Hk. lia.
Qed.

Lemma createGroup_fresh_id_witness :
  ids_below_next pair_store
  ∧ fst (createGroup server_Host (Num 2) pair_store) = 2%N
  ∧ groups (snd (createGroup server_Host (Num 2) pair_store)) !! 1%N = Some pair_group.
Proof.
  assert (Hinv : ids_below_next pair_store).
  { intros k [g Hk]. destruct (decide (k = 1%N)) as [->|Hne]; [done|].
    exfalso. revert Hk.
    assert (Hg : groups pair_store = {[ 1%N := pair_group ]}) by (vm_compute; reflexivity).
    rewrite Hg, lookup_singleton_ne; done. }
  split; [exact Hinv|]. split; [reflexivity|].
  destruct (createGroup_fresh_id server_Host (Num 2) pair_store Hinv) as (_ & _ & Hkeep & _).
  apply Hkeep. vm_compute. reflexivity.
Defined.

(** ** Joining and leaving groups *)

(** X5: the outcomes of [addToGroup].  It answers false exactly when the
    group or the guest's profile is missing, and then changes nothing.
    When it answers true the guest is the last member of the group and its
    profile names the group, without the leader flag.  When it raises, the
    target group no longer exists. *)
Theorem addToGroup_outcomes (guestId : ident) (groupId : N) (st : PersonalityStore) :
  let res := fst (addToGroup guestId groupId st) in
  let st' := snd (addToGroup guestId groupId st) in
  (res = Some false ↔ groups st !! groupId = None ∨ guests st !! slot guestId = None)
  ∧ (res = Some false → st' = st)
  ∧ (res = Some true →
     ∃ grp p, groups st' !! groupId = Some grp
              ∧ last (members grp) = Some guestId
              ∧ guests st' !! slot guestId = Some p
              ∧ social_groupId (social p) = Some groupId
              ∧ social_isLeader (social p) = false)
  ∧ (res = None → groups st' !! groupId = None).
Proof.
  cbn zeta. unfold addToGroup.
  destruct (groups st !! groupId) as [g0|] eqn:Hg0; cbn [fst snd];
    [|split; [split; [by left|done]|done]].
  destruct (guests st !! slot guestId) as [p|] eqn:Hp; cbn [fst snd];
    [|split; [split; [by right|done]|done]].
  set (st1 := match truthy _ with Some _ => removeFromGroup guestId st | None => st end).
  assert (Hp1 : is_Some (guests st1 !! slot guestId)).
  { unfold st1. destruct (truthy _); [|by eexists].
    apply (removeFromGroup_same_guests guestId st). by eexists. }
  destruct (groups st1 !! groupId) as [g|] eqn:Hg; cbn [fst snd groups guests].
  - split; [split; [done|by intros [|]]|]. split; [done|]. split; [|done].
    intros _. destruct Hp1 as [p1 Hp1]. eexists _, _.
    split; [apply lookup_insert_eq|]. split; [apply last_snoc|].
    split; [by rewrite lookup_alter_eq, Hp1|]. done.
  - split; [split; [done|by intros [|]]|]. done.
Qed.

(** X6: adding a guest to the group it leads alone raises a TypeError:
    leaving the group first deletes it, the push then finds no group.  The
    guest is left without a group and the group is gone. *)
Theorem addToGroup_sole_leader_raises (guestId : ident) (groupId : N) (st : PersonalityStore)
    (p : Profile) (grp : Group) :
  guests st !! slot guestId = Some p →
  social_groupId (social p) = Some groupId →
  groupId ≠ 0%N →
  groups st !! groupId = Some grp →
  leaderId grp = guestId →
  members grp = [guestId] →
  let st' := snd (addToGroup guestId groupId st) in
  fst (addToGroup guestId groupId st) = None
  ∧ groups st' !! groupId = None
  ∧ guests st' !! slot guestId = Some (set_group None false p).
Proof.
  intros Hp Hg Hg0 Hgrp Hl Hms. cbn zeta.
  assert (Htr : truthy (Some groupId) = Some groupId) by (destruct groupId; done).
  assert (Hrm : removeFromGroup guestId st
                = {| guests := alter (set_group None false) (slot guestId) (guests st);
                     groups := delete groupId (<[groupId := set_members [] grp]> (groups st));
                     nextGroupId := nextGroupId st |}).
  { unfold removeFromGroup. rewrite Hp, Hg, Htr, Hgrp, Hms.
    cbn [indexOf set_members leaderId]. rewrite !decide_True by done.
    reflexivity. }
  unfold addToGroup. rewrite Hgrp, Hp, Hg, Htr, Hrm. cbn [groups guests].
  rewrite lookup_delete_eq. cbn [fst snd groups guests]. rewrite lookup_delete_eq.
  split; [done|]. split; [done|]. by rewrite lookup_alter_eq, Hp.
Qed.

Lemma addToGroup_sole_leader_raises_witness :
  fst (addToGroup (Num 1) 1 solo_store) = None
  ∧ groups (snd (addToGroup (Num 1) 1 solo_store)) !! 1%N = None.
Proof.
  assert (Hp : guests solo_store !! slot (Num 1) = Some pair_leader)
    by (vm_compute; reflexivity).
  assert (Hg : groups solo_store !! 1%N = Some (set_members [Num 1] pair_group))
    by (vm_compute; reflexivity).
  destruct (addToGroup_sole_leader_raises (Num 1) 1 solo_store pair_leader
              (set_members [Num 1] pair_group) Hp eq_refl ltac:(discriminate) Hg
              eq_refl eq_refl) as (Hres & Hgone & _).
  split; [exact Hres | exact Hgone].
Defined.

(** X7: [removeFromGroup] is idempotent. *)
Theorem removeFromGroup_idempotent (guestId : ident) (st : PersonalityStore) :
  removeFromGroup guestId (removeFromGroup guestId st) = removeFromGroup guestId st.
Proof.
  destruct (guests st !! slot guestId) as [p|] eqn:Hp; cycle 1.
  { assert (E : removeFromGroup guestId st = st)
      by (unfold removeFromGroup; by rewrite Hp).
    by rewrite !E. }
  destruct (truthy (social_groupId (social p))) as [groupId|] eqn:Htr; cycle 1.
  { assert (E : removeFromGroup guestId st = st)
      by (unfold removeFromGroup; by rewrite Hp, Htr).
    by rewrite !E. }
  destruct (groups st !! groupId) as [g|] eqn:Hg; cycle 1.
  { assert (E : removeFromGroup guestId st = st)
      by (unfold removeFromGroup; by rewrite Hp, Htr, Hg).
    by rewrite !E. }
  assert (Hcleared : ∃ p', guests (removeFromGroup guestId st) !! slot guestId
                           = Some (set_group None false p')).
  { unfold removeFromGroup. rewrite Hp, Htr, Hg. cbn [guests set_guests].
    rewrite lookup_alter_eq.
    assert (Hs : is_Some (guests (removeFromGroup guestId st) !! slot guestId))
      by (apply (removeFromGroup_same_guests guestId st); by eexists).
    unfold removeFromGroup in Hs. rewrite Hp, Htr, Hg in Hs. cbn [guests set_guests] in Hs.
    apply is_Some_alter in Hs as [p' Hp']. exists p'. by rewrite Hp'. }
  destruct Hcleared as [p' Hp'].
  generalize dependent (removeFromGroup guestId st). intros st' Hp'.
  unfold removeFromGroup. by rewrite Hp'.
Qed.

(** X8: for a guest whose profile names an existing group,
    [removeFromGroup] deletes that group exactly when the guest is its
    leader and no member is left; removing anyone but the leader keeps the
    group, with the first listed occurrence of the guest taken out, and
    changes no profile but the guest's; no other group is touched; the
    guest ends without a group and without the leader flag. *)
Theorem removeFromGroup_deletes_only_empty_led (guestId : ident) (st : PersonalityStore)
    (p : Profile) (groupId : N) (grp : Group) :
  guests st !! slot guestId = Some p →
  social_groupId (social p) = Some groupId →
  groupId ≠ 0%N →
  groups st !! groupId = Some grp →
  let st' := removeFromGroup guestId st in
  let rest := match indexOf guestId (members grp) with
              | Some idx => splice1 idx (members grp)
              | None => members grp
              end in
  (groups st' !! groupId = None ↔ leaderId grp = guestId ∧ rest = [])
  ∧ (leaderId grp ≠ guestId →
     groups st' !! groupId = Some (set_members rest grp)
     ∧ guests st' = alter (set_group None false) (slot guestId) (guests st))
  ∧ (∀ k, k ≠ groupId → groups st' !! k = groups st !! k)
  ∧ ∃ p', guests st' !! slot guestId = Some p'
          ∧ social_groupId (social p') = None ∧ social_isLeader (social p') = false.
Proof.
  intros Hp Hg Hg0 Hgrp. cbn zeta.
  assert (Htr : truthy (Some groupId) = Some groupId) by (destruct groupId; done).
  unfold removeFromGroup. rewrite Hp, Hg, Htr, Hgrp.
  set (rest := match indexOf guestId (members grp) with
               | Some idx => splice1 idx (members grp) | None => members grp end).
  cbn [set_members leaderId].
  destruct (decide (leaderId grp = guestId)) as [Hl|Hl]; [destruct rest as [|m rest']|];
    cbn [groups guests set_guests set_groups].
  - split; [split; [done|intros _; apply lookup_delete_eq]|]. split; [done|].
    split; [intros k Hk; by rewrite lookup_delete_ne, lookup_insert_ne|].
    eexists. rewrite lookup_alter_eq, Hp. done.
  - split; [split; [rewrite lookup_insert_eq; done|by intros [_ ?]]|]. split; [done|].
    split; [intros k Hk; by rewrite !lookup_insert_ne|].
    destruct (decide (slot m = slot guestId)) as [Heq|Hne].
    + rewrite Heq. eexists. rewrite lookup_alter_eq, lookup_alter_eq, Hp. done.
    + eexists. rewrite lookup_alter_eq, lookup_alter_ne, Hp by done. done.
  - split; [split; [rewrite lookup_insert_eq; done|by intros [? _]]|].
    split; [intros _; split; [apply lookup_insert_eq|done]|].
    split; [intros k Hk; by rewrite lookup_insert_ne|].
    eexists. rewrite lookup_alter_eq, Hp. done.
Qed.

Lemma removeFromGroup_deletes_only_empty_led_witness :
  groups (removeFromGroup (Num 2) pair_store) !! 1%N = Some (set_members [Num 1] pair_group)
  ∧ guests (removeFromGroup (Num 2) pair_store)
    = alter (set_group None false) 2%N (guests pair_store).
Proof.
  assert (Hp : ∃ p, guests pair_store !! slot (Num 2) = Some p
                    ∧ social_groupId (social p) = Some 1%N).
  { eexists. split; vm_compute; reflexivity. }
  destruct Hp as (p & Hp & Hg).
  assert (Hgrp : groups pair_store !! 1%N = Some pair_group) by (vm_compute; reflexivity).
  destruct (removeFromGroup_deletes_only_empty_led (Num 2) pair_store p 1%N pair_group
              Hp Hg ltac:(discriminate) Hgrp) as (_ & Hnl & _).
  apply Hnl. discriminate.
Defined.

(** ** Dissolving and maintaining groups *)

Lemma enrolled_spec (groupId : N) (ms : list ident) (st : PersonalityStore) :
  enrolled groupId ms st = true ↔
  ∀ m, m ∈ ms → ∃ p, guests st !! slot m = Some p ∧ social_groupId (social p) = Some groupId.
Proof.
  unfold enrolled. rewrite forallb_forall. split.
  - intros Hall m Hm. specialize (Hall m (proj1 (list_elem_of_In _ _) Hm)).
    destruct (guests st !! slot m) as [p|]; [|done].
    exists p. split; [done|]. by apply bool_decide_eq_true_1 in Hall.
  - intros Hall m Hm. destruct (Hall m (proj2 (list_elem_of_In _ _) Hm)) as (p & -> & Hg).
    by apply bool_decide_eq_true_2.
Qed.

(** Removing the first listed member of a group whose profile names it. *)
Lemma removeFromGroup_head (m : ident) (rest : list ident) (groupId : N)
    (st : PersonalityStore) (p : Profile) (g : Group) :
  guests st !! slot m = Some p →
  social_groupId (social p) = Some groupId →
  groupId ≠ 0%N →
  groups st !! groupId = Some g →
  members g = m :: rest →
  let st1 := removeFromGroup m st in
  ungrouped st1 m
  ∧ (rest ≠ [] → ∃ g1, groups st1 !! groupId = Some g1 ∧ members g1 = rest)
  ∧ (∀ k, k ≠ groupId → groups st1 !! k = groups st !! k)
  ∧ (∀ k q, k ≠ slot m → guests st !! k = Some q →
       ∃ q1, guests st1 !! k = Some q1
             ∧ social_groupId (social q1) = social_groupId (social q))
  ∧ (∀ k, k ∉ slot <$> (m :: rest) → guests st1 !! k = guests st !! k).
Proof.
  intros Hp Hg Hg0 Hgrp Hms. cbn zeta.
  assert (Htr : truthy (Some groupId) = Some groupId) by (destruct groupId; done).
  unfold removeFromGroup, ungrouped. rewrite Hp, Hg, Htr, Hgrp, Hms.
  cbn [indexOf]. rewrite (decide_True (P := m = m)) by done.
  cbn [splice1 take drop app set_members leaderId]. rewrite !drop_0.
  destruct (decide (leaderId g = m)) as [Hl|Hl]; [destruct rest as [|n rest']|];
    cbn [groups guests set_guests set_groups nextGroupId set_leaderId members].
  - split; [eexists; by rewrite lookup_alter_eq, Hp|].
    split; [done|].
    split; [intros k Hk; by rewrite lookup_delete_ne, lookup_insert_ne|].
    split; [intros k q Hk Hq; exists q; by rewrite lookup_alter_ne|].
    intros k Hk. rewrite lookup_alter_ne; [done|]. set_solver.
  - split.
    { destruct (decide (slot n = slot m)) as [Heq|Hne].
      - rewrite Heq. eexists. by rewrite !lookup_alter_eq, Hp.
      - eexists. by rewrite lookup_alter_eq, lookup_alter_ne, Hp. }
    split; [intros _; eexists; by rewrite lookup_insert_eq|].
    split; [intros k Hk; by rewrite !lookup_insert_ne|].
    split.
    { intros k q Hk Hq. rewrite lookup_alter_ne by done.
      destruct (decide (slot n = k)) as [<-|Hne].
      - rewrite lookup_alter_eq, Hq. by eexists.
      - rewrite lookup_alter_ne, Hq by done. by eexists. }
    intros k Hk. rewrite !lookup_alter_ne; [done|set_solver..].
  - split; [eexists; by rewrite lookup_alter_eq, Hp|].
    split; [intros _; eexists; by rewrite lookup_insert_eq|].
    split; [intros k Hk; by rewrite lookup_insert_ne|].
    split; [intros k q Hk Hq; exists q; by rewrite lookup_alter_ne|].
    intros k Hk. rewrite lookup_alter_ne; [done|]. set_solver.
Qed.

(** The loop of [dissolveGroup] over the member list of the group. *)
Lemma dissolve_loop (groupId : N) (rest : list ident) :
  groupId ≠ 0%N →
  ∀ st,
    NoDup (slot <$> rest) →
    (rest ≠ [] → ∃ g, groups st !! groupId = Some g ∧ members g = rest) →
    enrolled groupId rest st = true →
    let st' := foldl (fun st m => removeFromGroup m st) st rest in
    (∀ m, m ∈ rest → ungrouped st' m)
    ∧ (∀ k, k ∉ slot <$> rest → guests st' !! k = guests st !! k)
    ∧ (∀ k, k ≠ groupId → groups st' !! k = groups st !! k).
Proof.
  intros Hg0. induction rest as [|m rest IH]; intros st Hnd Hgrp Hen; cbn zeta.
  { split; [by intros m ?%elem_of_nil|done]. }
  destruct (Hgrp ltac:(done)) as (g & Hg & Hms).
  pose proof (proj1 (enrolled_spec _ _ _) Hen) as Hall.
  destruct (Hall m ltac:(left)) as (p & Hp & Hpg).
  destruct (removeFromGroup_head m rest groupId st p g Hp Hpg Hg0 Hg Hms)
    as (Hum & Hrest & Hother & Hkeep & Hout).
  apply NoDup_cons in Hnd as [Hm Hnd].
  cbn [foldl]. set (st1 := removeFromGroup m st) in *.
  destruct (IH st1 Hnd Hrest) as (IH1 & IH2 & IH3).
  { apply enrolled_spec. intros n Hn.
    destruct (Hall n ltac:(by right)) as (q & Hq & Hqg).
    assert (Hne : slot n ≠ slot m).
    { intros Heq. apply Hm. rewrite <-Heq. by apply list_elem_of_fmap_2. }
    destruct (Hkeep (slot n) q Hne Hq) as (q1 & Hq1 & Hq1g).
    exists q1. split; [done|congruence]. }
  split; [|split].
  - intros n [->|Hn]%elem_of_cons; [|by apply IH1].
    unfold ungrouped. by rewrite IH2.
  - intros k Hk. rewrite IH2; [by apply Hout|].
    intros Hin. apply Hk. rewrite fmap_cons. by right.
  - intros k Hk. rewrite IH3 by done. by apply Hother.
Qed.

(** X9: [dissolveGroup] on a group whose members have pairwise different
    ids and profiles that name the group: the group is deleted, every
    member ends without a group and without the leader flag, and no other
    profile and no other group changes. *)
Theorem dissolveGroup_ungroups_members (groupId : N) (st : PersonalityStore) (grp : Group) :
  groups st !! groupId = Some grp →
  groupId ≠ 0%N →
  NoDup (slot <$> members grp) →
  enrolled groupId (members grp) st = true →
  let st' := dissolveGroup groupId st in
  groups st' !! groupId = None
  ∧ (∀ m, m ∈ members grp → ungrouped st' m)
  ∧ (∀ k, k ∉ slot <$> members grp → guests st' !! k = guests st !! k)
  ∧ (∀ k, k ≠ groupId → groups st' !! k = groups st !! k).
Proof.
  intros Hgrp Hg0 Hnd Hen. cbn zeta.
  destruct (dissolve_loop groupId (members grp) Hg0 st Hnd) as (H1 & H2 & H3);
    [by intros _; exists grp|done|].
  unfold dissolveGroup. rewrite Hgrp. cbn [groups guests set_groups].
  split; [apply lookup_delete_eq|]. split; [done|]. split; [done|].
  intros k Hk. rewrite lookup_delete_ne by done. by apply H3.
Qed.

Lemma dissolveGroup_ungroups_members_witness :
  groups (dissolveGroup 1 pair_store) !! 1%N = None
  ∧ ungrouped (dissolveGroup 1 pair_store) (Num 1)
  ∧ ungrouped (dissolveGroup 1 pair_store) (Num 2).
Proof.
  assert (Hgrp : groups pair_store !! 1%N = Some pair_group) by (vm_compute; reflexivity).
  assert (Hnd : NoDup (slot <$> members pair_group)).
  { apply NoDup_cons. split; [|apply NoDup_singleton].
    intros Hin. apply list_elem_of_singleton in Hin. discriminate. }
  assert (Hen : enrolled 1 (members pair_group) pair_store = true)
    by (vm_compute; reflexivity).
  destruct (dissolveGroup_ungroups_members 1 pair_store pair_group Hgrp
              ltac:(discriminate) Hnd Hen) as (Hgone & Hall & _).
  split; [exact Hgone|].
  split; apply Hall; [left | right; left].
Defined.

(** [removeFromGroup] of anyone but the leader keeps a group and its leader. *)
Lemma removeFromGroup_keeps_led_group (m : ident) (groupId : N) (st : PersonalityStore)
    (g : Group) :
  groups st !! groupId = Some g →
  leaderId g ≠ m →
  ∃ g', groups (removeFromGroup m st) !! groupId = Some g'
        ∧ leaderId g' = leaderId g
        ∧ members g' `sublist_of` members g
        ∧ (leaderId g ∈ members g → leaderId g ∈ members g').
Proof.
  intros Hg Hl. unfold removeFromGroup.
  destruct (guests st !! slot m) as [p|]; [|by exists g].
  destruct (truthy (social_groupId (social p))) as [G|]; [|by exists g].
  destruct (groups st !! G) as [g0|] eqn:Hg0; [|by exists g].
  set (ms := match indexOf m (members g0) with
             | Some idx => splice1 idx (members g0) | None => members g0 end).
  destruct (decide (G = groupId)) as [->|HG].
  - assert (g0 = g) as -> by congruence.
    cbn [set_members leaderId]. rewrite decide_False by done.
    cbn [groups set_guests set_groups]. rewrite lookup_insert_eq.
    eexists. split; [done|]. split; [done|]. cbn [members set_members].
    assert (Hms : ms `sublist_of` members g ∧ (leaderId g ∈ members g → leaderId g ∈ ms)).
    { unfold ms. clear -Hl. generalize (leaderId g) Hl. intros L HL.
      induction (members g) as [|y l IH]; cbn [indexOf]; [done|].
      destruct (decide (y = m)) as [->|Hy].
      - cbn [splice1 take drop app]. split; [by apply sublist_cons|].
        intros [?|?]%elem_of_cons; [congruence|done].
      - destruct (indexOf m l) as [idx|]; cbn [fmap option_fmap option_map]; [|done].
        cbn [splice1 take drop app] in *. destruct IH as [IH1 IH2].
        split; [by apply sublist_skip|].
        intros [->|?]%elem_of_cons; [left|right; by apply IH2]. }
    done.
  - exists g. split; [|done].
    cbn [set_members leaderId].
    repeat case_match; cbn [groups set_guests set_groups];
      rewrite ?lookup_delete_ne, ?lookup_insert_ne by done; done.
Qed.

Lemma membersToRemove_spares_leader (H : Host) (leader : Entity) (leaderId : ident)
    (ms : list ident) (r : RandomGenerator) :
  leaderId ∉ fst (membersToRemove H leader leaderId ms r).
Proof.
  revert r. induction ms as [|m ms IH]; intros r; cbn [membersToRemove]; [set_solver|].
  destruct (decide (m = leaderId)) as [->|Hm]; [apply IH|].
  destruct (getEntity H m).
  - case_match; [|apply IH].
    destruct (getRandomFloat H r) as [u r1].
    specialize (IH r1). destruct (membersToRemove H leader leaderId ms r1) as [out r2].
    cbn [fst] in IH. case_match; cbn [fst]; [|done].
    by intros [->|?]%elem_of_cons.
  - specialize (IH r). destruct (membersToRemove H leader leaderId ms r) as [out r1].
    cbn [fst] in *. by intros [->|?]%elem_of_cons.
Qed.

Lemma remove_loop_keeps_led_group (groupId : N) (out : list ident) :
  ∀ (st : PersonalityStore) (g : Group),
    groups st !! groupId = Some g →
    leaderId g ∉ out →
    ∃ g', groups (foldl (fun st m => removeFromGroup m st) st out) !! groupId = Some g'
          ∧ leaderId g' = leaderId g
          ∧ members g' `sublist_of` members g
          ∧ (leaderId g ∈ members g → leaderId g ∈ members g').
Proof.
  induction out as [|m out IH]; intros st g Hg Hl; cbn [foldl]; [by exists g|].
  destruct (removeFromGroup_keeps_led_group m groupId st g Hg) as (g1 & Hg1 & Hl1 & Hs1 & Hin1);
    [set_solver|].
  destruct (IH (removeFromGroup m st) g1 Hg1) as (g' & Hg' & Hl' & Hs' & Hin');
    [rewrite Hl1; set_solver|].
  exists g'. split; [done|]. split; [congruence|]. split; [by etrans|].
  intros Hin. rewrite <-Hl1. apply Hin'. rewrite Hl1. by apply Hin1.
Qed.

(** X10: [updateGroup] keeps a group exactly when it has at least two
    members and the host still resolves its leader.  A group that is kept
    keeps its leader, its member list is a sublist of the old one and
    still lists the leader if it did; a group that is dissolved costs no
    random draw. *)
Theorem updateGroup_survival (H : Host) (groupId : N) (s : Sim) (grp : Group) :
  groups (store s) !! groupId = Some grp →
  let s' := updateGroup H groupId s in
  (is_Some (groups (store s') !! groupId)
   ↔ (2 ≤ length (members grp))%nat ∧ is_Some (getEntity H (leaderId grp)))
  ∧ (∀ g', groups (store s') !! groupId = Some g' →
       leaderId g' = leaderId grp
       ∧ members g' `sublist_of` members grp
       ∧ (leaderId grp ∈ members grp → leaderId grp ∈ members g'))
  ∧ (groups (store s') !! groupId = None → random s' = random s).
Proof.
  intros Hgrp. cbn zeta. unfold updateGroup. rewrite Hgrp.
  destruct (length (members grp) <? 2)%nat eqn:Hlen.
  { apply Nat.ltb_lt in Hlen. cbn [store set_store random].
    rewrite dissolveGroup_gone.
    split; [split; [by intros [? ?]|intros [? _]; lia]|]. done. }
  apply Nat.ltb_ge in Hlen.
  destruct (getEntity H (leaderId grp)) as [leader|] eqn:Hle.
  - pose proof (membersToRemove_spares_leader H leader (leaderId grp) (members grp)
                  (random s)) as Hsp.
    destruct (membersToRemove H leader (leaderId grp) (members grp) (random s)) as [out r].
    cbn [fst store random] in *.
    destruct (remove_loop_keeps_led_group groupId out (store s) grp Hgrp Hsp)
      as (g' & Hg' & Hl' & Hs' & Hin').
    rewrite Hg'. split; [split; [done|by eexists]|].
    split; [|done]. intros g'' [= <-]. done.
  - cbn [store set_store random]. rewrite dissolveGroup_gone.
    split; [split; [by intros [? ?]|by intros [_ [? ?]]]|]. done.
Qed.

Lemma updateGroup_survival_witness :
  is_Some (groups (store (updateGroup pair_Host 1 {| store := pair_store;
                                                      random := initial_RandomGenerator |}))
           !! 1%N).
Proof.
  assert (Hgrp : groups pair_store !! 1%N = Some pair_group) by (vm_compute; reflexivity).
  destruct (updateGroup_survival pair_Host 1
              {| store := pair_store; random := initial_RandomGenerator |} pair_group Hgrp)
    as (Hiff & _).
  apply Hiff. split; [cbn; lia|by eexists].
Defined.

(** ** The periodic clean-up *)

Lemma validGuestIds_spec (l : list (option Entity)) (k : N) :
  k ∈ validGuestIds l ↔ ∃ g, Some g ∈ l ∧ entity_id g = Some k.
Proof.
  unfold validGuestIds.
  assert (Hgen : ∀ acc : gset N,
    k ∈ foldl (fun acc e => match e with
                            | Some g => match entity_id g with
                                        | Some i => {[ i ]} ∪ acc | None => acc end
                            | None => acc
                            end) acc l
    ↔ k ∈ acc ∨ ∃ g, Some g ∈ l ∧ entity_id g = Some k).
  { induction l as [|e l IH]; intros acc; cbn [foldl].
    - split; [by left|]. intros [?|(g & ?%elem_of_nil & _)]; done.
    - rewrite IH. split.
      + intros [Hacc|(g & Hg & Hid)]; [|right; exists g; split; [by right|done]].
        destruct e as [g|]; [|by left].
        destruct (entity_id g) as [i|] eqn:Hi; [|by left].
        apply elem_of_union in Hacc as [->%elem_of_singleton|?]; [|by left].
        right. exists g. split; [left|done].
      + intros [Hacc|(g & [<-|Hg]%elem_of_cons & Hid)].
        * left. destruct e as [g|]; [|done]. destruct (entity_id g); [|done].
          apply elem_of_union. by right.
        * left. rewrite Hid. apply elem_of_union. left. by apply elem_of_singleton.
        * right. by exists g. }
  rewrite Hgen. split; [|by right]. intros [?%elem_of_empty|?]; done.
Qed.

Lemma own_keys_spec {A} (m : gmap N A) (k : N) : k ∈ own_keys m ↔ is_Some (m !! k).
Proof.
  unfold own_keys. rewrite merge_sort_Permutation, elem_of_elements. apply elem_of_dom.
Qed.

Lemma removeGuestData_guests (guestId : ident) (st : PersonalityStore) :
  guests (removeGuestData guestId st) = delete (slot guestId) (guests st).
Proof.
  unfold removeGuestData. destruct (guests st !! slot guestId) eqn:Hp; [done|].
  by rewrite delete_id.
Qed.

Lemma cleanup_loop_guests (valid : gset N) (ks : list N) :
  ∀ (st : PersonalityStore) (k : N),
    guests (foldl (fun st guestId =>
                     if bool_decide (is_Some (guests st !! guestId)) then
                       if bool_decide (guestId ∈ valid) then st
                       else removeGuestData (Key guestId) st
                     else st) st ks) !! k
    = if bool_decide (k ∈ ks ∧ k ∉ valid) then None else guests st !! k.
Proof.
  induction ks as [|k0 ks IH]; intros st k; cbn [foldl].
  { rewrite bool_decide_eq_false_2; [done|]. by intros [?%elem_of_nil _]. }
  rewrite IH.
  set (st1 := if bool_decide (is_Some (guests st !! k0)) then _ else st).
  assert (Hst1 : guests st1 !! k
                 = if bool_decide (k = k0 ∧ k ∉ valid) then None else guests st !! k).
  { unfold st1. case_bool_decide as Hpres.
    - case_bool_decide as Hval.
      + rewrite bool_decide_eq_false_2; [done|]. by intros [-> ?].
      + rewrite removeGuestData_guests. cbn [slot]. case_bool_decide as Hk.
        * destruct Hk as [-> _]. apply lookup_delete_eq.
        * rewrite lookup_delete_ne; [done|]. intros <-. by apply Hk.
    - case_bool_decide as Hk; [|done]. destruct Hk as [-> _].
      symmetry. by apply eq_None_not_Some in Hpres. }
  rewrite Hst1.
  destruct (decide (k ∈ ks ∧ k ∉ valid)) as [Ha|Ha];
    destruct (decide (k = k0 ∧ k ∉ valid)) as [Hb|Hb];
    destruct (decide (k ∈ k0 :: ks ∧ k ∉ valid)) as [Hc|Hc];
    rewrite ?(bool_decide_eq_true_2 _ Ha), ?(bool_decide_eq_false_2 _ Ha),
      ?(bool_decide_eq_true_2 _ Hb), ?(bool_decide_eq_false_2 _ Hb),
      ?(bool_decide_eq_true_2 _ Hc), ?(bool_decide_eq_false_2 _ Hc);
    try done; exfalso; rewrite elem_of_cons in Hc; tauto.
Qed.

(** X11: when the host enumerates its guests, [cleanupOldData] keeps the
    profile of a guest that is among them unchanged and leaves no profile
    for a guest that is not. *)
Theorem cleanupOldData_keeps_exactly_live (H : Host) (st : PersonalityStore)
    (l : list (option Entity)) (k : N) :
  getAllEntities H = Some l →
  let st' := cleanupOldData H st in
  (∀ g, Some g ∈ l → entity_id g = Some k → guests st' !! k = guests st !! k)
  ∧ ((∀ g, Some g ∈ l → entity_id g ≠ Some k) → guests st' !! k = None).
Proof.
  intros Hl. cbn zeta. unfold cleanupOldData. rewrite Hl, cleanup_loop_guests. split.
  - intros g Hg Hid. rewrite bool_decide_eq_false_2; [done|].
    intros [_ Hnv]. apply Hnv, validGuestIds_spec. by exists g.
  - intros Hno. case_bool_decide as Hk; [done|].
    destruct (guests st !! k) as [p|] eqn:Hp; [|done].
    exfalso. apply Hk. split; [apply own_keys_spec; by rewrite Hp|].
    intros (g & Hg & Hid)%validGuestIds_spec. by apply (Hno g).
Qed.

Lemma cleanupOldData_keeps_exactly_live_witness :
  guests (cleanupOldData leader_only_Host pair_store) !! 1%N = guests pair_store !! 1%N
  ∧ guests (cleanupOldData leader_only_Host pair_store) !! 2%N = None.
Proof.
  split.
  - refine (proj1 (cleanupOldData_keeps_exactly_live leader_only_Host pair_store
                     [Some (sample_guest 1)] 1 eq_refl) (sample_guest 1) _ eq_refl).
    left.
  - refine (proj2 (cleanupOldData_keeps_exactly_live leader_only_Host pair_store
                     [Some (sample_guest 1)] 2 eq_refl) _).
    intros g Hg. apply list_elem_of_singleton in Hg. injection Hg as ->. discriminate.
Defined.

Lemma indexOf_Key_numeric (k : N) (ms : list ident) :
  forallb is_Num ms = true → indexOf (Key k) ms = None.
Proof.
  induction ms as [|m ms IH]; cbn [forallb indexOf]; [done|].
  intros [Hm Hms]%andb_prop. rewrite IH by done.
  destruct m; [|done]. by rewrite decide_False.
Qed.

Lemma numeric_groups_spec (st : PersonalityStore) (groupId : N) (g : Group) :
  numeric_groups st = true →
  groups st !! groupId = Some g →
  members g ≠ [] ∧ forallb is_Num (members g) = true.
Proof.
  unfold numeric_groups. rewrite forallb_forall. intros Hall Hg.
  specialize (Hall (groupId, g)). cbn [snd] in Hall.
  assert (Hin : In (groupId, g) (map_to_list (groups st))).
  { apply list_elem_of_In. by apply elem_of_map_to_list. }
  specialize (Hall Hin). destruct (members g); done.
Qed.

Lemma set_members_id (g : Group) : set_members (members g) g = g.
Proof. by destruct g. Qed.

Lemma removeGuestData_Key_groups (k : N) (st : PersonalityStore) :
  numeric_groups st = true →
  groups (removeGuestData (Key k) st) = groups st
  ∧ nextGroupId (removeGuestData (Key k) st) = nextGroupId st.
Proof.
  intros Hnum. unfold removeGuestData.
  destruct (guests st !! slot (Key k)) as [p|]; [|done]. cbn [groups nextGroupId].
  split; [|done].
  destruct (truthy (social_groupId (social p))) as [groupId|]; [|done].
  destruct (groups st !! groupId) as [g|] eqn:Hg; [|done].
  destruct (numeric_groups_spec st groupId g Hnum Hg) as [Hne Hall].
  rewrite indexOf_Key_numeric by done.
  rewrite bool_decide_eq_false_2 by (by destruct (members g)).
  rewrite set_members_id. by apply insert_id.
Qed.

(** X12: [cleanupOldData] passes the property names of [guests] to
    [removeGuestData], and [indexOf] does not find a property name among
    numeric ids: when every group has members, all listed by number, the
    clean-up leaves all groups (and the next group id) as they are, the
    removed guests still listed. *)
Theorem cleanupOldData_leaves_numeric_groups (H : Host) (st : PersonalityStore) :
  numeric_groups st = true →
  groups (cleanupOldData H st) = groups st
  ∧ nextGroupId (cleanupOldData H st) = nextGroupId st.
Proof.
  intros Hnum. unfold cleanupOldData. destruct (getAllEntities H) as [l|]; [|done].
  generalize (validGuestIds l). intros valid.
  generalize (own_keys (guests st)). intros ks.
  assert (Hgen : ∀ st0, groups st0 = groups st → nextGroupId st0 = nextGroupId st →
    let st' := foldl (fun st guestId =>
                     if bool_decide (is_Some (guests st !! guestId)) then
                       if bool_decide (guestId ∈ valid) then st
                       else removeGuestData (Key guestId) st
                     else st) st0 ks in
    groups st' = groups st ∧ nextGroupId st' = nextGroupId st).
  { induction ks as [|k ks IH]; intros st0 Hg Hn; cbn zeta; cbn [foldl]; [done|].
    apply IH; repeat case_match; try done.
    - rewrite <-Hg. apply removeGuestData_Key_groups.
      unfold numeric_groups. by rewrite Hg.
    - rewrite <-Hn. apply removeGuestData_Key_groups.
      unfold numeric_groups. by rewrite Hg. }
  by apply Hgen.
Qed.

Lemma cleanupOldData_leaves_numeric_groups_witness :
  groups (cleanupOldData leader_only_Host pair_store) = groups pair_store
  ∧ nextGroupId (cleanupOldData leader_only_Host pair_store) = nextGroupId pair_store.
Proof.
  apply cleanupOldData_leaves_numeric_groups. vm_compute. reflexivity.
Defined.

(** ** Moods *)

(** X13: [calculateMood] never yields BORED, SCARED or EXCITED, and it
    keeps the tick of the last change. *)
Theorem calculateMood_never_bored_scared_excited (cfg : CONFIG) (H : Host)
    (guest : Entity) (data : Profile) :
  let m := calculateMood cfg H guest data in
  mood_current m ≠ BORED ∧ mood_current m ≠ SCARED ∧ mood_current m ≠ EXCITED
  ∧ mood_lastChange m = mood_lastChange (mood data).
Proof.
  cbn zeta. unfold calculateMood. repeat case_match; done.
Qed.

Lemma byte_range_on_spec (cond : Z → bool) (f : Z → float) (z : Z) :
  byte_range_on cond f = true → 0 ≤ z ≤ 255 → cond z = true →
  in_byte_range (f z) = true.
Proof.
  unfold byte_range_on. rewrite forallb_forall. intros Hall Hz Hc.
  specialize (Hall z). rewrite Hc in Hall. apply Hall.
  apply list_elem_of_In, elem_of_seqZ. lia.
Qed.

Lemma hungry_bytes :
  byte_range_on (fun z => z <? 50) (fun z => 50 + (50 - Z2f z))%float = true.
Proof. vm_compute. reflexivity. Qed.

Lemma annoyed_bytes :
  byte_range_on (fun z => 200 <? z) (fun z => 100 + (Z2f z - 200) / 2)%float = true.
Proof. vm_compute. reflexivity. Qed.

Lemma tired_bytes :
  byte_range_on (fun z => z <? 40) (fun z => 40 + (40 - Z2f z))%float = true.
Proof. vm_compute. reflexivity. Qed.

Lemma plain_bytes : byte_range_on (fun _ => true) Z2f = true.
Proof. vm_compute. reflexivity. Qed.

Lemma sad_bytes :
  byte_range_on (fun z => z <=? 128) (fun z => 128 - Z2f z)%float = true.
Proof. vm_compute. reflexivity. Qed.

Lemma angry_bytes :
  byte_range_on (fun z => z <=? 30) (fun z => 200 - Z2f z)%float = true.
Proof. vm_compute. reflexivity. Qed.

Lemma is_byte_spec (z : Z) : is_byte z = true ↔ 0 ≤ z ≤ 255.
Proof. unfold is_byte. rewrite andb_true_iff, !Z.leb_le. done. Qed.

(** X14: for a guest whose hunger, thirst, toilet, energy and nausea are
    bytes, and a sad threshold of at most 128, the intensity computed by
    [calculateMood] lies between 0 and 255. *)
Theorem calculateMood_intensity_range (cfg : CONFIG) (H : Host) (guest : Entity)
    (data : Profile) :
  is_byte (hunger guest) = true →
  is_byte (thirst guest) = true →
  is_byte (toilet guest) = true →
  is_byte (energy guest) = true →
  is_byte (nausea guest) = true →
  sadMoodThreshold cfg ≤ 128 →
  in_byte_range (mood_intensity (calculateMood cfg H guest data)) = true.
Proof.
  intros Hh%is_byte_spec Ht%is_byte_spec Hto%is_byte_spec He%is_byte_spec
         Hn%is_byte_spec Hsad.
  unfold calculateMood.
  set (adj := Z.max 0 (Z.min 255 _)).
  assert (Hadj : 0 ≤ adj ≤ 255) by (unfold adj; lia).
  clearbody adj.
  destruct (hunger guest <? 50) eqn:E1; cbn [mood_intensity].
  { by apply (byte_range_on_spec _ _ (hunger guest) hungry_bytes). }
  destruct (thirst guest <? 50) eqn:E2; cbn [mood_intensity].
  { by apply (byte_range_on_spec _ _ (thirst guest) hungry_bytes). }
  destruct (200 <? toilet guest) eqn:E3; cbn [mood_intensity].
  { by apply (byte_range_on_spec _ _ (toilet guest) annoyed_bytes). }
  destruct (energy guest <? 40) eqn:E4; cbn [mood_intensity].
  { by apply (byte_range_on_spec _ _ (energy guest) tired_bytes). }
  destruct (150 <? nausea guest) eqn:E5; cbn [mood_intensity].
  { by apply (byte_range_on_spec _ _ (nausea guest) plain_bytes). }
  destruct (happyMoodThreshold cfg + 50 <? adj); cbn [mood_intensity].
  { by apply (byte_range_on_spec _ _ adj plain_bytes). }
  destruct (happyMoodThreshold cfg <? adj); cbn [mood_intensity].
  { by apply (byte_range_on_spec _ _ adj plain_bytes). }
  destruct (neutralMoodThreshold cfg <? adj); cbn [mood_intensity].
  { by apply (byte_range_on_spec _ _ adj plain_bytes). }
  destruct (sadMoodThreshold cfg <? adj) eqn:E6; cbn [mood_intensity].
  { by apply (byte_range_on_spec _ _ adj plain_bytes). }
  apply Z.ltb_ge in E6.
  destruct (30 <? adj) eqn:E7; cbn [mood_intensity].
  { apply (byte_range_on_spec _ _ adj sad_bytes); [done|]. apply Z.leb_le. lia. }
  apply Z.ltb_ge in E7.
  apply (byte_range_on_spec _ _ adj angry_bytes); [done|]. by apply Z.leb_le.
Qed.

Lemma calculateMood_intensity_range_witness :
  in_byte_range (mood_intensity (calculateMood default_CONFIG server_Host hungry_guest
                                   pair_leader)) = true.
Proof.
  apply calculateMood_intensity_range; first [reflexivity | by vm_compute].
Defined.

(** ** Mood decay *)

Lemma decay_bytes : forallb decay_step_agrees (seqZ 0 256) = true.
Proof. vm_compute. reflexivity. Qed.

Lemma toward_128_byte (n : nat) (z : Z) : 0 ≤ z ≤ 255 → 0 ≤ toward_128 n z ≤ 255.
Proof. unfold toward_128. destruct (128 <? z) eqn:E; lia. Qed.

Lemma toward_128_S (n : nat) (z : Z) : toward_128 1 (toward_128 n z) = toward_128 (S n) z.
Proof.
  unfold toward_128.
  destruct (128 <? z) eqn:E; [apply Z.ltb_lt in E|apply Z.ltb_ge in E];
    case_match eqn:E'; [apply Z.ltb_lt in E'|apply Z.ltb_ge in E'
                       |apply Z.ltb_lt in E'|apply Z.ltb_ge in E']; lia.
Qed.

Lemma decay_mood_step (data : Profile) (z : Z) :
  mood_intensity (mood data) = Z2f z → 0 ≤ z ≤ 255 →
  mood_intensity (mood (decay_mood data)) = Z2f (toward_128 1 z)
  ∧ mood_current (mood (decay_mood data)) = mood_current (mood data)
  ∧ mood_lastChange (mood (decay_mood data)) = mood_lastChange (mood data).
Proof.
  intros Hi Hz.
  pose proof decay_bytes as Hall. rewrite forallb_forall in Hall.
  specialize (Hall z). unfold decay_step_agrees in Hall. cbn zeta in Hall.
  assert (Hin : In z (seqZ 0 256)) by (apply list_elem_of_In, elem_of_seqZ; lia).
  specialize (Hall Hin).
  unfold decay_mood. rewrite Hi.
  destruct (Z2f z =? 128)%float.
  - apply Z.eqb_eq in Hall as ->. by rewrite Hi.
  - apply Leibniz.eqb_spec in Hall. cbn [mood set_mood mood_intensity mood_current
                                         mood_lastChange]. done.
Qed.

Lemma processMoodDecay_iter (n : nat) (st : PersonalityStore) (k : N) :
  guests (Nat.iter n processMoodDecay st) !! k = Nat.iter n decay_mood <$> guests st !! k.
Proof.
  induction n as [|n IH].
  - cbn [Nat.iter nat_rect]. by destruct (guests st !! k).
  - rewrite !Nat.iter_succ. unfold processMoodDecay at 1. cbn [guests set_guests].
    rewrite lookup_fmap, IH. by destruct (guests st !! k).
Qed.

(** X15: [n] passes of [processMoodDecay] move an integer intensity
    between 0 and 255 by [n] steps of 1 toward 128, where it stays; the
    mood state and the tick of its last change are kept. *)
Theorem processMoodDecay_steps_toward_128 (n : nat) (st : PersonalityStore) (k : N)
    (p : Profile) (z : Z) :
  guests st !! k = Some p →
  mood_intensity (mood p) = Z2f z →
  0 ≤ z ≤ 255 →
  ∃ p', guests (Nat.iter n processMoodDecay st) !! k = Some p'
        ∧ mood_intensity (mood p') = Z2f (toward_128 n z)
        ∧ mood_current (mood p') = mood_current (mood p)
        ∧ mood_lastChange (mood p') = mood_lastChange (mood p).
Proof.
  intros Hp Hi Hz. rewrite processMoodDecay_iter, Hp. cbn [fmap option_fmap option_map].
  eexists. split; [done|].
  induction n as [|n (IHi & IHc & IHl)].
  - split; [|done]. cbn [Nat.iter nat_rect]. rewrite Hi. f_equal.
    unfold toward_128. case_match; lia.
  - rewrite Nat.iter_succ.
    destruct (decay_mood_step (Nat.iter n decay_mood p) (toward_128 n z) IHi
                (toward_128_byte n z Hz)) as (Hi' & Hc' & Hl').
    rewrite Hi', Hc', Hl', toward_128_S. done.
Qed.

Lemma processMoodDecay_steps_toward_128_witness :
  ∃ p', guests (Nat.iter 100 processMoodDecay angry_store) !! 1%N = Some p'
        ∧ mood_intensity (mood p') = 128%float
        ∧ mood_current (mood p') = ANGRY.
Proof.
  assert (Hp : ∃ p, guests angry_store !! 1%N = Some p
                    ∧ mood_intensity (mood p) = Z2f 200 ∧ mood_current (mood p) = ANGRY).
  { eexists. split; [vm_compute; reflexivity|]. split; reflexivity. }
  destruct Hp as (p & Hp & Hi & Hc).
  destruct (processMoodDecay_steps_toward_128 100 angry_store 1 p 200 Hp Hi ltac:(lia))
    as (p' & Hp' & Hi' & Hc' & _).
  exists p'. split; [exact Hp'|]. split; [exact Hi'|]. by rewrite Hc'.
Defined.

(** ** Random numbers *)

Lemma low_31_bits (x : Z) : 0 ≤ Z.land x 2147483647 < 2147483648.
Proof.
  change 2147483647 with (Z.ones 31). rewrite Z.land_ones by lia.
  change 2147483648 with (2 ^ 31). apply Z.mod_pos_bound. lia.
Qed.

(** X16: for [min < max], [getSeededRandom] returns a value in
    [[min, max)] and leaves a seed in [[0, 2^31)]; it makes no call to the
    host. *)
Theorem getSeededRandom_range (min max : Z) (r : RandomGenerator) :
  min < max →
  let '(v, r') := getSeededRandom min max r in
  min ≤ v < max ∧ 0 ≤ seed r' < 2147483648 ∧ drawn r' = drawn r.
Proof.
  intros Hlt. unfold getSeededRandom. cbn [seed drawn].
  set (x := F2Z _). pose proof (low_31_bits x) as Hs.
  pose proof (Z.rem_bound_pos (Z.land x 2147483647) (max - min)) as Hr.
  split; [lia|]. split; [lia|done].
Qed.

Lemma getSeededRandom_range_witness :
  let '(v, r') := getSeededRandom 0 10000 initial_RandomGenerator in
  0 ≤ v < 10000 ∧ 0 ≤ seed r' < 2147483648 ∧ drawn r' = drawn initial_RandomGenerator.
Proof. apply getSeededRandom_range. lia. Defined.

Lemma unit_draws_spec (l : list Z) (v : Z) :
  unit_draws l = true → In v l →
  (0 <=? Z2f v / 10000)%float = true ∧ (Z2f v / 10000 <? 1)%float = true.
Proof.
  unfold unit_draws. rewrite forallb_forall. intros Hall Hin.
  specialize (Hall v Hin). cbv beta in Hall. by apply andb_prop in Hall.
Qed.

Lemma unit_draws_hold : unit_draws (seqZ 0 10000) = true.
Proof. vm_compute. reflexivity. Qed.

Lemma unit_draw (v : Z) :
  0 ≤ v < 10000 → (0 <=? Z2f v / 10000)%float = true ∧ (Z2f v / 10000 <? 1)%float = true.
Proof.
  intros Hv. apply (unit_draws_spec (seqZ 0 10000) v unit_draws_hold).
  apply list_elem_of_In, elem_of_seqZ. lia.
Qed.

Lemma getRandomFloat_drawn (H : Host) (r : RandomGenerator) :
  drawn (snd (getRandomFloat H r)) = S (drawn r).
Proof.
  unfold getRandomFloat, getGameRandom, getSeededRandom.
  by destruct (getRandom H (drawn r)).
Qed.

(** X17: when the host's generator answers within [[0, 10000)] (or
    throws, so that the seeded generator answers), [getRandomFloat]
    returns a Number in [[0, 1)] and counts one call to the host. *)
Theorem getRandomFloat_unit_interval (H : Host) (r : RandomGenerator) :
  draws_in_range H →
  let '(u, r') := getRandomFloat H r in
  (0 <=? u)%float = true ∧ (u <? 1)%float = true ∧ drawn r' = S (drawn r).
Proof.
  intros Hrange. pose proof (getRandomFloat_drawn H r) as Hd.
  unfold getRandomFloat, getGameRandom in *.
  destruct (getRandom H (drawn r)) as [v|] eqn:Hv; cbn [snd] in *.
  - destruct (unit_draw v (Hrange _ _ Hv)) as [H0 H1]. done.
  - unfold getSeededRandom in *. cbn [seed drawn snd] in *.
    set (x := F2Z _) in *. pose proof (low_31_bits x) as Hs.
    pose proof (Z.rem_bound_pos (Z.land x 2147483647) (10000 - 0)) as Hr.
    destruct (unit_draw (0 + Z.rem (Z.land x 2147483647) (10000 - 0))) as [H0 H1]; [lia|].
    done.
Qed.

Lemma getRandomFloat_unit_interval_witness :
  let '(u, r') := getRandomFloat seeded_Host initial_RandomGenerator in
  (0 <=? u)%float = true ∧ (u <? 1)%float = true
  ∧ drawn r' = S (drawn initial_RandomGenerator).
Proof.
  apply getRandomFloat_unit_interval. intros k v Hv. discriminate Hv.
Defined.

(** ** Behaviour selection *)

(** One step through the tests of [determineBehavior]: a test is decided
    once nothing inside it is left to decide, and a draw is taken with the
    count it leaves. *)
Ltac behavior_step :=
  match goal with
  | |- context [if ?c then _ else _] =>
      lazymatch c with
      | context [match _ with _ => _ end] => fail
      | _ => destruct c eqn:?
      end
  | |- context [match ?x with _ => _ end] =>
      lazymatch x with
      | getRandomFloat ?H ?r =>
          let Hd := fresh "Hd" in
          pose proof (getRandomFloat_drawn H r) as Hd;
          destruct (getRandomFloat H r) as [? ?]; cbn [snd] in Hd
      | context [match _ with _ => _ end] => fail
      | _ => destruct x eqn:?
      end
  end.

Lemma getWeatherBehavior_draws (H : Host) (guest : Entity) (data : Profile)
    (r : RandomGenerator) :
  (drawn r ≤ drawn (snd (getWeatherBehavior H guest data r)) ≤ drawn r + 1)%nat.
Proof.
  unfold getWeatherBehavior. repeat behavior_step; cbn [snd]; lia.
Qed.

(** X18: [determineBehavior] asks for at most 5 random numbers (at most 4
    with weather reactions disabled), and for none when the guest needs a
    toilet, a drink or food. *)
Theorem determineBehavior_draws (cfg : CONFIG) (H : Host) (guest : Entity) (data : Profile)
    (r : RandomGenerator) :
  let r' := snd (determineBehavior cfg H guest data r) in
  (drawn r ≤ drawn r' ≤ drawn r + 5)%nat
  ∧ ((180 <? toilet guest) || (thirst guest <? 40) || (hunger guest <? 60) = true → r' = r)
  ∧ (weatherReactionsEnabled cfg = false → drawn r' ≤ drawn r + 4)%nat.
Proof.
  cbn zeta. unfold determineBehavior.
  pose proof (getWeatherBehavior_draws H guest data r) as Hw.
  destruct (getWeatherBehavior H guest data r) as [wb r1]. cbn [snd] in Hw.
  repeat behavior_step; cbn [snd fst] in *; simplify_eq/=;
    (split; [lia|split; [try done; intros; lia|try done; intros; lia]]).
Qed.

Ltac decided_tests :=
  repeat match goal with
    | Hx : (_ && _) = true |- _ => apply andb_prop in Hx as [? ?]
    | Hx : (_ <? _) = true |- _ => apply Z.ltb_lt in Hx
    | Hx : bool_decide _ = true |- _ => apply bool_decide_eq_true_1 in Hx
    | Hx : negb _ = true |- _ => apply negb_true_iff in Hx
    end.

Lemma getWeatherBehavior_shelter (H : Host) (guest : Entity) (data : Profile)
    (r : RandomGenerator) (b : BEHAVIOR_TYPES) :
  fst (getWeatherBehavior H guest data r) = Some b →
  b = SEEKING_SHELTER
  ∧ ∃ w, weather H = Some w ∧ (w = "rain" ∨ w = "heavy_rain" ∨ w = "thunder")%string.
Proof.
  unfold getWeatherBehavior. repeat behavior_step; cbn [fst]; intros [= <-];
    (split; [done|]); eexists; (split; [done|]); decided_tests;
    repeat match goal with
      | Hx : (_ || _) = true |- _ => apply orb_prop in Hx as [?|?]
      end; decided_tests; auto.
Qed.

(** X19: what each selected behaviour presupposes.  SEEKING_TOILET needs
    toilet above 180, SEEKING_DRINK thirst below 40, SEEKING_FOOD hunger
    below 60, RESTING energy below 30; SEEKING_SHELTER needs weather
    reactions enabled and rain, heavy rain or thunder; FOLLOWING_GROUP a
    group and no leader flag, LEADING_GROUP the leader flag; PHOTO_TAKING,
    SHOPPING and SOCIALIZING their trait above its threshold; LEAVING a SAD
    guest that is in the park. *)
Theorem determineBehavior_conditions (cfg : CONFIG) (H : Host) (guest : Entity)
    (data : Profile) (r : RandomGenerator) :
  let b := fst (determineBehavior cfg H guest data r) in
  (b = SEEKING_TOILET → 180 < toilet guest)
  ∧ (b = SEEKING_DRINK → thirst guest < 40)
  ∧ (b = SEEKING_FOOD → hunger guest < 60)
  ∧ (b = RESTING → energy guest < 30)
  ∧ (b = SEEKING_SHELTER →
     weatherReactionsEnabled cfg = true
     ∧ ∃ w, weather H = Some w ∧ (w = "rain" ∨ w = "heavy_rain" ∨ w = "thunder")%string)
  ∧ (b = FOLLOWING_GROUP →
     is_Some (truthy (social_groupId (social data)))
     ∧ social_isLeader (social data) = false)
  ∧ (b = LEADING_GROUP → social_isLeader (social data) = true)
  ∧ (b = PHOTO_TAKING → trait_gt (traits data) "photographer" 180 = true)
  ∧ (b = SHOPPING → trait_gt (traits data) "collector" 180 = true)
  ∧ (b = SOCIALIZING → trait_gt (traits data) "social" 170 = true)
  ∧ (b = LEAVING → mood_current (mood data) = SAD ∧ isInPark guest = true).
Proof.
  cbn zeta. unfold determineBehavior.
  pose proof (getWeatherBehavior_shelter H guest data r) as Hw.
  destruct (getWeatherBehavior H guest data r) as [wb r1]. cbn [fst] in Hw.
  repeat behavior_step; cbn [fst] in *; simplify_eq/=; decided_tests;
    try (destruct (Hw _ eq_refl) as [-> ?]);
    repeat split; try done; try lia.
Qed.

(** ** PerformanceMonitor *)

Lemma same_but_cap_refl (c : CONFIG) : same_but_cap c c.
Proof. unfold same_but_cap. by destruct c. Qed.

Lemma same_but_cap_set (v : Z) (c : CONFIG) : same_but_cap c (set_maxGuestsPerTick v c).
Proof. done. Qed.

Lemma same_but_cap_trans (c1 c2 c3 : CONFIG) :
  same_but_cap c1 c2 → same_but_cap c2 c3 → same_but_cap c1 c3.
Proof. unfold same_but_cap. intros -> ->. done. Qed.

Lemma adjustProcessingRate_cap (pm : PerformanceMonitor) (cfg : CONFIG) :
  same_but_cap cfg (adjustProcessingRate pm cfg)
  ∧ (minGuestsPerTick cfg ≤ maxGuestsPerTick cfg ≤ maxAdaptiveGuestsPerTick cfg →
     minGuestsPerTick cfg ≤ maxGuestsPerTick (adjustProcessingRate pm cfg)
       ≤ maxAdaptiveGuestsPerTick cfg
     ∧ Z.abs (maxGuestsPerTick (adjustProcessingRate pm cfg) - maxGuestsPerTick cfg) ≤ 1).
Proof.
  unfold adjustProcessingRate.
  destruct (negb (adaptivePerformance cfg)); [split; [apply same_but_cap_refl|lia]|].
  destruct (gt _ _); [split; [apply same_but_cap_set|cbn; lia]|].
  destruct (_ <? _)%float; [split; [apply same_but_cap_set|cbn; lia]|].
  split; [apply same_but_cap_refl|lia].
Qed.

(** X20: with the cap between [minGuestsPerTick] and
    [maxAdaptiveGuestsPerTick], [adjustProcessingRate] changes nothing of
    the configuration but the cap, moves the cap by at most 1, keeps it in
    that range, and does nothing when adaptive performance is off. *)
Theorem adjustProcessingRate_bounded (pm : PerformanceMonitor) (cfg : CONFIG) :
  minGuestsPerTick cfg ≤ maxGuestsPerTick cfg ≤ maxAdaptiveGuestsPerTick cfg →
  let cfg' := adjustProcessingRate pm cfg in
  same_but_cap cfg cfg'
  ∧ minGuestsPerTick cfg ≤ maxGuestsPerTick cfg' ≤ maxAdaptiveGuestsPerTick cfg
  ∧ Z.abs (maxGuestsPerTick cfg' - maxGuestsPerTick cfg) ≤ 1
  ∧ (adaptivePerformance cfg = false → cfg' = cfg).
Proof.
  intros Hr. cbn zeta. destruct (adjustProcessingRate_cap pm cfg) as [Hs Hb].
  split; [done|]. destruct (Hb Hr) as [? ?]. split; [done|]. split; [done|].
  intros Ha. unfold adjustProcessingRate. by rewrite Ha.
Qed.

Lemma adjustProcessingRate_bounded_witness :
  1 ≤ maxGuestsPerTick (adjustProcessingRate initial_PerformanceMonitor default_CONFIG) ≤ 8
  ∧ Z.abs (maxGuestsPerTick (adjustProcessingRate initial_PerformanceMonitor default_CONFIG)
           - 5) ≤ 1.
Proof.
  destruct (adjustProcessingRate_bounded initial_PerformanceMonitor default_CONFIG
              ltac:(cbn; lia)) as (_ & Hb & Hs & _).
  split; [exact Hb | exact Hs].
Defined.

Lemma endFrame_frameTimes (H : Host) (pm : PerformanceMonitor) :
  let '(elapsed, pm') := endFrame H pm in
  elapsed = now H (reads pm) - frameStartTime pm
  ∧ last (frameTimes pm') = Some elapsed
  ∧ reads pm' = S (reads pm)
  ∧ frameStartTime pm' = frameStartTime pm
  ∧ ((length (frameTimes pm) ≤ maxFrameTimes)%nat →
     (length (frameTimes pm') ≤ maxFrameTimes)%nat
     ∧ length (frameTimes pm') = Nat.min maxFrameTimes (S (length (frameTimes pm)))).
Proof.
  unfold endFrame, getElapsedMs. cbn [frameTimes reads frameStartTime].
  set (e := now H (reads pm) - frameStartTime pm).
  destruct (maxFrameTimes <? length (frameTimes pm ++ [e]))%nat eqn:Hlen;
    cbn [frameTimes reads frameStartTime].
  - apply Nat.ltb_lt in Hlen. rewrite length_app in Hlen. cbn [length] in Hlen.
    destruct (frameTimes pm) as [|a ft] eqn:Hft; [unfold maxFrameTimes in Hlen; cbn in Hlen; lia|].
    cbn [app drop]. rewrite drop_0, last_snoc. repeat split; try done.
    + rewrite length_app. cbn [length] in *. lia.
    + rewrite length_app. cbn [length] in *. lia.
  - apply Nat.ltb_ge in Hlen. rewrite last_snoc. rewrite length_app in *. cbn [length] in *.
    repeat split; try done; lia.
Qed.

(** X21: [endFrame] returns the time elapsed since [startFrame], records
    it as the newest frame time, and keeps a window of at most
    [maxFrameTimes] samples: the window grows by one until it is full. *)
Theorem endFrame_window (H : Host) (pm : PerformanceMonitor) :
  (length (frameTimes pm) ≤ maxFrameTimes)%nat →
  let '(elapsed, pm') := endFrame H pm in
  elapsed = now H (reads pm) - frameStartTime pm
  ∧ last (frameTimes pm') = Some elapsed
  ∧ length (frameTimes pm') = Nat.min maxFrameTimes (S (length (frameTimes pm)))
  ∧ reads pm' = S (reads pm).
Proof.
  intros Hlen. pose proof (endFrame_frameTimes H pm) as Hf.
  destruct (endFrame H pm) as [elapsed pm'].
  destruct Hf as (He & Hl & Hr & _ & Hw). destruct (Hw Hlen) as [_ Hn]. done.
Qed.

Lemma endFrame_window_witness :
  let '(elapsed, pm') := endFrame server_Host initial_PerformanceMonitor in
  elapsed = now server_Host (reads initial_PerformanceMonitor)
            - frameStartTime initial_PerformanceMonitor
  ∧ last (frameTimes pm') = Some elapsed
  ∧ length (frameTimes pm')
    = Nat.min maxFrameTimes (S (length (frameTimes initial_PerformanceMonitor)))
  ∧ reads pm' = S (reads initial_PerformanceMonitor).
Proof.
  apply (endFrame_window server_Host initial_PerformanceMonitor). cbn. lia.
Defined.

(** ** The scheduler *)

Lemma onTick_phases (H : Host) (w : World) :
  onTick H w
  = if negb (enabled (config w)) then w
    else if negb (canModifyGameState H) then w
    else count_tick (cleanup_phase H (social_phase H (mood_phase
           (guest_phase H (tick_counters w))))).
Proof. reflexivity. Qed.

Lemma same_but_cap_fields (c c' : CONFIG) :
  same_but_cap c c' →
  updateInterval c' = updateInterval c
  ∧ moodDecayInterval c' = moodDecayInterval c
  ∧ socialUpdateInterval c' = socialUpdateInterval c
  ∧ minGuestsPerTick c' = minGuestsPerTick c
  ∧ maxAdaptiveGuestsPerTick c' = maxAdaptiveGuestsPerTick c.
Proof. unfold same_but_cap. intros Hs. rewrite Hs. done. Qed.

(** A round of the loop: 1 is added to the loop's counter, and 1 more
    together with 1 processed guest when the round processed a guest. *)
Lemma process_round_counts (H : Host) (processed : Z) (w : World) :
  let '(processed', w') := process_round H processed w in
  config w' = config w
  ∧ monitor w' = monitor w
  ∧ counters (processor w') = counters (processor w)
  ∧ ∃ d, (d = 0 ∨ d = 1)
         ∧ processed' = processed + 1 + d
         ∧ guestsProcessed (statistics (processor w'))
           = guestsProcessed (statistics (processor w)) + d.
Proof.
  assert (Hskip : ∀ proc1 : PersonalityProcessor,
    counters proc1 = counters (processor w) →
    statistics proc1 = statistics (processor w) →
    let w' := {| config := config w; sim := sim w; monitor := monitor w;
                 processor := proc1; live := live w |} in
    config w' = config w
    ∧ monitor w' = monitor w
    ∧ counters (processor w') = counters (processor w)
    ∧ ∃ d, (d = 0 ∨ d = 1)
           ∧ processed + 1 = processed + 1 + d
           ∧ guestsProcessed (statistics (processor w'))
             = guestsProcessed (statistics (processor w)) + d).
  { intros proc1 Hk Hst. cbn. split; [done|]. split; [done|]. split; [done|].
    exists 0. rewrite Hst. split; [by left|]. split; lia. }
  unfold process_round.
  destruct (live w !! _) as [[guest|]|]; [|by apply Hskip..].
  destruct (entity_id guest) as [i|]; [|by apply Hskip].
  destruct (is_guest guest); [|by apply Hskip].
  destruct (processGuest (config w) H i guest (sim w)) as [[s1 guest1] created].
  cbn. split; [done|]. split; [done|]. split; [done|].
  exists 1. split; [by right|]. split; lia.
Qed.

Lemma process_loop_counts (H : Host) (fuel : nat) :
  ∀ (processed : Z) (w : World),
    let w' := process_loop fuel H processed w in
    config w' = config w
    ∧ frameTimes (monitor w') = frameTimes (monitor w)
    ∧ counters (processor w') = counters (processor w)
    ∧ guestsProcessed (statistics (processor w))
      ≤ guestsProcessed (statistics (processor w'))
    ∧ 2 * (guestsProcessed (statistics (processor w'))
           - guestsProcessed (statistics (processor w)))
      ≤ Z.max 0 (maxGuestsPerTick (config w) - processed + 1).
Proof.
  induction fuel as [|fuel IH]; intros processed w; cbn zeta; cbn [process_loop].
  { repeat split; lia. }
  destruct (processed <? maxGuestsPerTick (config w)) eqn:Hlt; [|repeat split; lia].
  apply Z.ltb_lt in Hlt.
  unfold isOverBudget, getElapsedMs.
  set (pm := {| frameStartTime := _; frameTimes := _; reads := _ |}).
  destruct (ge _ _); [repeat split; cbn; lia|].
  pose proof (process_round_counts H processed (set_monitor pm w)) as Hr.
  destruct (process_round H processed (set_monitor pm w)) as [processed' w1].
  destruct Hr as (Hc & Hm & Hk & d & Hd & Hp & Hg).
  specialize (IH processed' w1). cbn zeta in IH.
  destruct IH as (IHc & IHm & IHk & IHg1 & IHg2).
  rewrite IHc, IHm, IHk, Hc, Hm, Hk. rewrite Hc in IHg2.
  cbn [set_monitor config monitor processor frameTimes] in *.
  repeat split; lia.
Qed.

(** X22: a pass of [processGuests] processes at most half of the cap,
    rounded up: twice the number of guests it processes is at most the
    cap plus 1.  It changes nothing of the configuration but the cap and
    none of the tick counters. *)
Theorem processGuests_at_most_half_cap (H : Host) (w : World) :
  let w' := processGuests H w in
  let done := guestsProcessed (statistics (processor w'))
              - guestsProcessed (statistics (processor w)) in
  0 ≤ done
  ∧ 2 * done ≤ Z.max 0 (maxGuestsPerTick (config w) + 1)
  ∧ same_but_cap (config w) (config w')
  ∧ counters (processor w') = counters (processor w).
Proof.
  cbn zeta. unfold processGuests.
  destruct (getAllEntities H) as [[|g l]|];
    [cbn; repeat split; try lia; apply same_but_cap_refl| |
     cbn; repeat split; try lia; apply same_but_cap_refl].
  unfold finish_frame.
  set (w0 := {| config := _; sim := _; monitor := _; processor := _; live := g :: l |}).
  pose proof (process_loop_counts H (Z.to_nat (maxGuestsPerTick (config w0))) 0 w0) as Hl.
  cbn zeta in Hl. destruct Hl as (Hc & Hm & Hk & Hg1 & Hg2).
  destruct (endFrame H (monitor (process_loop _ H 0 w0))) as [frameTime pm].
  cbn [config processor set_statistics statistics guestsProcessed counters tickCounter
       moodTickCounter socialTickCounter cleanupTickCounter] in *.
  rewrite Hc. change (config w0) with (config w) in *.
  change (processor w0) with (processor w) in *.
  split; [lia|]. split; [lia|].
  split; [apply adjustProcessingRate_cap|]. exact Hk.
Qed.

Lemma processGuests_schedule (H : Host) (w : World) :
  let w' := processGuests H w in
  same_but_cap (config w) (config w')
  ∧ counters (processor w') = counters (processor w)
  ∧ (monitor_ok w → monitor_ok w').
Proof.
  cbn zeta. unfold processGuests, monitor_ok.
  assert (Hshort : ∀ w0 : World,
    config w0 = config w → processor w0 = processor w →
    frameTimes (monitor w0) = frameTimes (monitor w) →
    let w' := set_monitor (snd (endFrame H (monitor w0))) w0 in
    same_but_cap (config w) (config w')
    ∧ counters (processor w') = counters (processor w)
    ∧ ((length (frameTimes (monitor w)) ≤ maxFrameTimes)%nat
       ∧ minGuestsPerTick (config w) ≤ maxGuestsPerTick (config w)
         ≤ maxAdaptiveGuestsPerTick (config w) →
       (length (frameTimes (monitor w')) ≤ maxFrameTimes)%nat
       ∧ minGuestsPerTick (config w') ≤ maxGuestsPerTick (config w')
         ≤ maxAdaptiveGuestsPerTick (config w'))).
  { intros w0 Hc Hp Hf. cbn zeta.
    pose proof (endFrame_frameTimes H (monitor w0)) as He.
    destruct (endFrame H (monitor w0)) as [e pm]. destruct He as (_ & _ & _ & _ & Hw).
    cbn [set_monitor config processor monitor snd]. rewrite Hc, Hp.
    split; [apply same_but_cap_refl|]. split; [done|].
    intros [Hlen Hcap]. split; [|done]. apply Hw. by rewrite Hf. }
  destruct (getAllEntities H) as [[|g l]|]; [by apply Hshort| |by apply Hshort].
  unfold finish_frame.
  set (w0 := {| config := _; sim := _; monitor := _; processor := _; live := g :: l |}).
  pose proof (process_loop_counts H (Z.to_nat (maxGuestsPerTick (config w0))) 0 w0) as Hl.
  cbn zeta in Hl. destruct Hl as (Hc & Hm & Hk & _ & _).
  pose proof (endFrame_frameTimes H (monitor (process_loop
                (Z.to_nat (maxGuestsPerTick (config w0))) H 0 w0))) as He.
  destruct (endFrame H (monitor (process_loop _ H 0 w0))) as [frameTime pm].
  destruct He as (_ & _ & _ & _ & Hw).
  cbn [config processor monitor set_statistics statistics counters tickCounter
       moodTickCounter socialTickCounter cleanupTickCounter] in *.
  rewrite Hc. change (config w0) with (config w) in *.
  change (processor w0) with (processor w) in *.
  destruct (adjustProcessingRate_cap pm (config w)) as [Hs Hb].
  split; [done|]. split; [done|].
  intros [Hlen Hcap]. split.
  - apply Hw. rewrite Hm. done.
  - destruct (same_but_cap_fields _ _ Hs) as (_ & _ & _ & -> & ->). by apply Hb.
Qed.

(** X23: [onTick] keeps the scheduler's invariant: every tick counter
    stays non-negative and below its interval (500 for the clean-up), the
    monitor holds at most [maxFrameTimes] frame times, and the cap stays
    between [minGuestsPerTick] and [maxAdaptiveGuestsPerTick]. *)
Theorem onTick_keeps_schedule (H : Host) (w : World) :
  schedule_ok w → schedule_ok (onTick H w).
Proof.
  intros Hok. rewrite onTick_phases.
  destruct (negb (enabled (config w))); [done|].
  destruct (negb (canModifyGameState H)); [done|].
  destruct Hok as (Ht & Hm & Hs & Hc & Hmon).
  (* the guest pass *)
  set (w0 := tick_counters w).
  assert (H1 : same_but_cap (config w) (config (guest_phase H w0))
               ∧ 0 ≤ tickCounter (processor (guest_phase H w0)) < updateInterval (config w)
               ∧ moodTickCounter (processor (guest_phase H w0))
                 = moodTickCounter (processor w) + 1
               ∧ socialTickCounter (processor (guest_phase H w0))
                 = socialTickCounter (processor w) + 1
               ∧ cleanupTickCounter (processor (guest_phase H w0))
                 = cleanupTickCounter (processor w) + 1
               ∧ monitor_ok (guest_phase H w0)).
  { unfold guest_phase.
    change (config w0) with (config w). change (tickCounter (processor w0))
      with (tickCounter (processor w) + 1).
    destruct (updateInterval (config w) <=? tickCounter (processor w) + 1) eqn:Hi.
    - cbn zeta.
      set (w1 := set_processor _ w0).
      destruct (processGuests_schedule H w1) as (Hsc & Hk & Hmo). cbn zeta in *.
      unfold counters in Hk. injection Hk as Hk1 Hk2 Hk3 Hk4.
      change (config w1) with (config w) in *.
      rewrite Hk1, Hk2, Hk3, Hk4. cbn. repeat split; try done; try lia.
      all: apply Hmo; exact Hmon.
    - apply Z.leb_gt in Hi. cbn. repeat split; try done; try lia.
      + apply same_but_cap_refl.
      + apply Hmon.
      + apply Hmon.
      + apply Hmon. }
  set (w1 := guest_phase H w0) in *. clearbody w1. clear w0.
  destruct H1 as (Hsc & Ht1 & Hm1 & Hs1 & Hc1 & Hmon1).
  destruct (same_but_cap_fields _ _ Hsc) as (Hu & Hmd & Hsu & _ & _).
  unfold schedule_ok, count_tick, cleanup_phase, social_phase, mood_phase.
  repeat match goal with
    | |- context [if ?c then _ else _] => destruct c eqn:?
    end; cbn; rewrite ?Hu, ?Hmd, ?Hsu, ?Hm1, ?Hs1, ?Hc1;
    repeat match goal with
      | Hx : (_ <=? _) = false |- _ => apply Z.leb_gt in Hx
      end;
    cbn in *; rewrite ?Hu, ?Hmd, ?Hsu, ?Hm1, ?Hs1, ?Hc1 in *;
    (split; [lia|]); (split; [lia|]); (split; [lia|]); (split; [lia|]); exact Hmon1.
Qed.

Lemma onTick_keeps_schedule_witness : schedule_ok (onTick server_Host initial_World).
Proof.
  apply onTick_keeps_schedule. unfold schedule_ok, monitor_ok. cbn. lia.
Defined.

(** ** Purchases *)

(** X24: [recordPurchase] on a log of at most 20 purchases: the price is
    added to [totalSpent], the purchase is the newest entry of the log, the
    log grows by one entry up to 20 (the oldest is dropped then), and
    nothing else changes beyond what [getGuestData] did: no other profile,
    no group, no random state. *)
Theorem recordPurchase_log (H : Host) (guestId : ident) (itemType : string) (price : Z)
    (s : Sim) :
  let data := fst (getGuestData H guestId s) in
  let s1 := snd (getGuestData H guestId s) in
  let s' := recordPurchase H guestId itemType price s in
  (length (itemsBought (memory data)) ≤ 20)%nat →
  ∃ p, guests (store s') !! slot guestId = Some p
       ∧ totalSpent (memory p) = totalSpent (memory data) + price
       ∧ last (itemsBought (memory p)) = Some (purchase_entry H itemType price)
       ∧ length (itemsBought (memory p))
         = Nat.min 20 (S (length (itemsBought (memory data))))
       ∧ (∀ k, k ≠ slot guestId → guests (store s') !! k = guests (store s1) !! k)
       ∧ groups (store s') = groups (store s)
       ∧ random s' = random s1.
Proof.
  cbn zeta. intros Hlen. unfold recordPurchase.
  assert (Hgr : groups (store (snd (getGuestData H guestId s))) = groups (store s)).
  { unfold getGuestData. destruct (guests (store s) !! slot guestId); [done|].
    by destruct (createNewPersonality H guestId (random s)). }
  destruct (getGuestData H guestId s) as [data s1]. cbn [fst snd] in *.
  eexists. split; [apply lookup_insert_eq|].
  cbn [memory set_memory totalSpent itemsBought]. split; [done|].
  fold (purchase_entry H itemType price).
  set (log := itemsBought (memory data)) in *.
  destruct (20 <? length (log ++ [purchase_entry H itemType price]))%nat eqn:Hfull.
  - apply Nat.ltb_lt in Hfull. rewrite length_app in Hfull. cbn [length] in Hfull.
    destruct log as [|a log]; [cbn in Hfull; lia|].
    cbn [app drop]. rewrite drop_0, last_snoc, length_app. cbn [length] in *.
    split; [done|]. split; [lia|]. split; [|done].
    intros k Hk. cbn. by rewrite lookup_insert_ne.
  - apply Nat.ltb_ge in Hfull. rewrite last_snoc. rewrite length_app in *.
    cbn [length] in *. split; [done|]. split; [lia|]. split; [|done].
    intros k Hk. cbn. by rewrite lookup_insert_ne.
Qed.

Lemma recordPurchase_log_witness :
  ∃ p, guests (store (recordPurchase server_Host (Num 1) "balloon" 90 empty_Sim)) !! 1%N
       = Some p
       ∧ totalSpent (memory p) = 90
       ∧ itemsBought (memory p) = [purchase_entry server_Host "balloon" 90].
Proof.
  destruct (recordPurchase_log server_Host (Num 1) "balloon" 90 empty_Sim)
    as (p & Hp & _); [vm_compute; lia|].
  exists p. split; [exact Hp|].
  vm_compute in Hp. injection Hp as <-. split; reflexivity.
Defined.

(** ** Ride satisfaction *)

Lemma float_ltb_leb (x y : float) : (x <? y)%float = true → (x <=? y)%float = true.
Proof.
  rewrite ltb_spec, leb_spec. unfold SFltb, SFleb.
  by destruct (SFcompare (Prim2SF x) (Prim2SF y)) as [[]|].
Qed.

(** [Math.max(0, Math.min(1, x))] is NaN or lies between 0 and 1. *)
Lemma clamp_unit (x : float) :
  is_nan (js_max 0 (js_min 1 x)) = true ∨ in_unit_range (js_max 0 (js_min 1 x)) = true.
Proof.
  unfold js_min. change (is_nan 1) with false. cbn [orb].
  destruct (is_nan x) eqn:Hx; [by left|].
  destruct (x <? 1)%float eqn:H1.
  - unfold js_max. change (is_nan 0) with false. rewrite Hx. cbn [orb].
    destruct (0 <? x)%float eqn:H0; [|by right].
    right. unfold in_unit_range. by rewrite !float_ltb_leb.
  - by right.
Qed.

(** X25: the score of [calculateRideSatisfaction] is NaN or lies between
    0 and 1; it is 0.5 when the host has no such ride; the state is the one
    [getGuestData] leaves. *)
Theorem calculateRideSatisfaction_range (H : Host) (ride : option Ride) (guestId : ident)
    (rideId : N) (s : Sim) :
  let v := fst (calculateRideSatisfaction H ride guestId rideId s) in
  (is_nan v = true ∨ in_unit_range v = true)
  ∧ (ride = None → v = 0.5%float)
  ∧ snd (calculateRideSatisfaction H ride guestId rideId s) = snd (getGuestData H guestId s).
Proof.
  cbn zeta. unfold calculateRideSatisfaction.
  destruct (getGuestData H guestId s) as [data s1].
  destruct ride as [ride|]; cbn [fst snd]; [|by split; [right|]].
  split; [apply clamp_unit|]. done.
Qed.

(** ** Pathfinding assistance *)

(** X26: [onPathfindingAssist] creates no profile; a known guest ends
    neither SAD nor ANGRY, a guest that was neither is left alone, and
    only the mood of the guest's profile can change; no other profile, no
    group and no random state changes; a second call changes nothing. *)
Theorem onPathfindingAssist_calms (H : Host) (guestId : ident) (s : Sim) :
  let s' := onPathfindingAssist H guestId s in
  (hasGuestData guestId (store s) = false → s' = s)
  ∧ (∀ p, guests (store s) !! slot guestId = Some p →
       ∃ p', guests (store s') !! slot guestId = Some p'
             ∧ mood_current (mood p') ≠ SAD ∧ mood_current (mood p') ≠ ANGRY
             ∧ (mood_current (mood p) ≠ SAD → mood_current (mood p) ≠ ANGRY → s' = s)
             ∧ set_mood (mood p) p' = p)
  ∧ (∀ k, k ≠ slot guestId → guests (store s') !! k = guests (store s) !! k)
  ∧ groups (store s') = groups (store s)
  ∧ random s' = random s
  ∧ onPathfindingAssist H guestId s' = s'.
Proof.
  cbn zeta. unfold onPathfindingAssist, hasGuestData.
  destruct (guests (store s) !! slot guestId) as [p|] eqn:Hp.
  - rewrite bool_decide_eq_true_2 by by eexists.
    rewrite (getGuestData_present H guestId s p Hp).
    destruct (bool_decide (mood_current (mood p) = SAD)
              || bool_decide (mood_current (mood p) = ANGRY)) eqn:Hm.
    + split; [done|]. split.
      { intros ? [= <-]. eexists. split; [apply lookup_insert_eq|]. cbn.
        split; [done|]. split; [done|]. split; [|by destruct p].
        intros Hs Ha. apply orb_prop in Hm as [Hm|Hm];
          apply bool_decide_eq_true_1 in Hm; done. }
      split; [intros k Hk; cbn; by rewrite lookup_insert_ne|].
      split; [done|]. split; [done|].
      cbn [store put_profile set_store set_guests guests].
      rewrite lookup_insert_eq. rewrite bool_decide_eq_true_2 by by eexists.
      unfold getGuestData. cbn [store put_profile set_store set_guests guests].
      rewrite lookup_insert_eq. done.
    + split; [done|]. split.
      { intros ? [= <-]. exists p. split; [done|].
        apply orb_false_elim in Hm as [Hs Ha].
        apply bool_decide_eq_false_1 in Hs, Ha. split; [done|]. split; [done|].
        split; [done|by destruct p]. }
      split; [done|]. split; [done|]. split; [done|].
      rewrite Hp. rewrite bool_decide_eq_true_2 by by eexists.
      rewrite (getGuestData_present H guestId s p Hp). by rewrite Hm.
  - rewrite bool_decide_eq_false_2 by (by intros [? ?]).
    split; [done|]. split; [done|]. split; [done|]. split; [done|]. split; [done|].
    rewrite Hp. by rewrite bool_decide_eq_false_2 by (by intros [? ?]).
Qed.

(** ** Mood effects *)

(** X27: [applyMoodEffects] either returns the guest unchanged or writes
    a happiness target between 0 and 255 that differs from the old one by
    more than 5, and it writes only where the game state may be modified. *)
Theorem applyMoodEffects_target (cfg : CONFIG) (H : Host) (guest : Entity) (data : Profile) :
  let g := applyMoodEffects cfg H guest data in
  g = guest
  ∨ ∃ v, g = set_happinessTarget v guest
         ∧ 0 ≤ v ≤ 255
         ∧ 5 < Z.abs (v - happinessTarget guest)
         ∧ canModifyGameState H = true.
Proof.
  cbn zeta. unfold applyMoodEffects.
  destruct (canModifyGameState H); [|by left]. cbn [negb].
  set (scaled := (_ * _)%float).
  assert (Hw : ∀ v, 0 ≤ v ≤ 255 →
    (if 5 <? Z.abs (v - happinessTarget guest) then set_happinessTarget v guest else guest)
    = guest
    ∨ ∃ v0, (if 5 <? Z.abs (v - happinessTarget guest)
             then set_happinessTarget v guest else guest) = set_happinessTarget v0 guest
            ∧ 0 ≤ v0 ≤ 255 ∧ 5 < Z.abs (v0 - happinessTarget guest) ∧ true = true).
  { intros v Hv. destruct (5 <? Z.abs (v - happinessTarget guest)) eqn:Hd; [|by left].
    right. exists v. apply Z.ltb_lt in Hd. done. }
  destruct (Prim2SF scaled) as [?|[]| |? ? ?]; try (by left); apply Hw; lia.
Qed.

(** ** What the group operations leave alone *)

Lemma keeps_profiles_refl (st : PersonalityStore) : keeps_profiles st st.
Proof. intros k p Hp. by exists p. Qed.

Lemma keeps_profiles_trans (st1 st2 st3 : PersonalityStore) :
  keeps_profiles st1 st2 → keeps_profiles st2 st3 → keeps_profiles st1 st3.
Proof.
  intros H1 H2 k p Hp. destruct (H1 k p Hp) as (p2 & Hp2 & <-).
  by apply H2.
Qed.

Lemma keeps_profiles_alter (f : Profile → Profile) (i : N) (st st' : PersonalityStore) :
  (∀ p, outside_social (f p) = outside_social p) →
  guests st' = alter f i (guests st) →
  keeps_profiles st st'.
Proof.
  intros Hf Hg k p Hp. rewrite Hg. destruct (decide (i = k)) as [->|Hne].
  - rewrite lookup_alter_eq, Hp. by eexists.
  - rewrite lookup_alter_ne, Hp by done. by eexists.
Qed.

Lemma keeps_profiles_foldl {A} (f : PersonalityStore → A → PersonalityStore) (l : list A)
    (st : PersonalityStore) :
  (∀ st x, keeps_profiles st (f st x)) → keeps_profiles st (foldl f st l).
Proof.
  intros Hf. revert st. induction l as [|x l IH]; intros st; [apply keeps_profiles_refl|].
  cbn [foldl]. eapply keeps_profiles_trans; [apply Hf | apply IH].
Qed.

Lemma getGuestData_keeps_profiles (H : Host) (guestId : ident) (s : Sim) :
  keeps_profiles (store s) (store (snd (getGuestData H guestId s))).
Proof.
  unfold getGuestData. destruct (guests (store s) !! slot guestId) eqn:Hg;
    [apply keeps_profiles_refl|].
  destruct (createNewPersonality H guestId (random s)) as [p r].
  intros k q Hq. exists q. split; [|done]. cbn.
  rewrite lookup_insert_ne; [done|]. intros <-. congruence.
Qed.

Lemma keeps_profiles_guests_eq (st st' : PersonalityStore) :
  guests st' = guests st → keeps_profiles st st'.
Proof. intros Hg k p Hp. exists p. by rewrite Hg. Qed.

Lemma createGroup_keeps_profiles (H : Host) (leaderGuestId : ident) (st : PersonalityStore) :
  keeps_profiles st (snd (createGroup H leaderGuestId st)).
Proof.
  by apply (keeps_profiles_alter (set_group (Some (nextGroupId st)) true)
              (slot leaderGuestId)).
Qed.

Lemma removeFromGroup_keeps_profiles (guestId : ident) (st : PersonalityStore) :
  keeps_profiles st (removeFromGroup guestId st).
Proof.
  unfold removeFromGroup.
  destruct (guests st !! slot guestId) as [p|]; [|apply keeps_profiles_refl].
  destruct (truthy _) as [groupId|]; [|apply keeps_profiles_refl].
  destruct (groups st !! groupId) as [g|]; [|apply keeps_profiles_refl].
  cbn zeta.
  set (ms := match indexOf guestId (members g) with
             | Some idx => splice1 idx (members g) | None => members g end).
  clearbody ms.
  set (st2 := if decide _ then _ else _).
  assert (H2 : keeps_profiles st st2).
  { unfold st2. destruct (decide _); [destruct ms as [|n ms']|].
    - by apply keeps_profiles_guests_eq.
    - by apply (keeps_profiles_alter (set_isLeader true) (slot n)).
    - by apply keeps_profiles_guests_eq. }
  eapply keeps_profiles_trans; [exact H2|].
  by apply (keeps_profiles_alter (set_group None false) (slot guestId)).
Qed.

Lemma addToGroup_keeps_profiles (guestId : ident) (groupId : N) (st : PersonalityStore) :
  keeps_profiles st (snd (addToGroup guestId groupId st)).
Proof.
  unfold addToGroup.
  destruct (groups st !! groupId); [|apply keeps_profiles_refl].
  destruct (guests st !! slot guestId) as [p|]; [|apply keeps_profiles_refl].
  set (st1 := match truthy _ with Some _ => removeFromGroup guestId st | None => st end).
  assert (H1 : keeps_profiles st st1).
  { unfold st1. destruct (truthy _);
      [apply removeFromGroup_keeps_profiles|apply keeps_profiles_refl]. }
  destruct (groups st1 !! groupId); cbn [snd]; [|done].
  eapply keeps_profiles_trans; [exact H1|].
  by apply (keeps_profiles_alter (set_group (Some groupId) false) (slot guestId)).
Qed.

Lemma dissolveGroup_keeps_profiles (groupId : N) (st : PersonalityStore) :
  keeps_profiles st (dissolveGroup groupId st).
Proof.
  unfold dissolveGroup. destruct (groups st !! groupId) as [g|];
    [|apply keeps_profiles_refl].
  eapply keeps_profiles_trans.
  - apply (keeps_profiles_foldl (fun st m => removeFromGroup m st) (members g)).
    intros; apply removeFromGroup_keeps_profiles.
  - by apply keeps_profiles_guests_eq.
Qed.

Lemma updateGroup_keeps_profiles (H : Host) (groupId : N) (s : Sim) :
  keeps_profiles (store s) (store (updateGroup H groupId s)).
Proof.
  unfold updateGroup. destruct (groups (store s) !! groupId) as [g|];
    [|apply keeps_profiles_refl].
  destruct (_ <? _)%nat; [apply dissolveGroup_keeps_profiles|].
  destruct (getEntity H (leaderId g)); [|apply dissolveGroup_keeps_profiles].
  destruct (membersToRemove _ _ _ _ _) as [out r]. cbn [store].
  apply (keeps_profiles_foldl (fun st m => removeFromGroup m st)).
  intros; apply removeFromGroup_keeps_profiles.
Qed.

Lemma updateGroups_keeps_profiles (H : Host) (s : Sim) :
  keeps_profiles (store s) (store (updateGroups H s)).
Proof.
  unfold updateGroups. destruct (negb (canModifyGameState H)); [apply keeps_profiles_refl|].
  generalize (own_keys (groups (store s))). intros l. revert s.
  induction l as [|k l IH]; intros s; [apply keeps_profiles_refl|].
  cbn [foldl]. eapply keeps_profiles_trans; [|apply IH].
  case_match; [apply updateGroup_keeps_profiles | apply keeps_profiles_refl].
Qed.

Lemma createGroup_same_guests (H : Host) (leaderGuestId : ident) (st : PersonalityStore) :
  same_guests st (snd (createGroup H leaderGuestId st)).
Proof. intros k. cbn. apply is_Some_alter. Qed.

(** X28: the group operations change profiles in their social part
    only.  After [createGroup], [addToGroup], [removeFromGroup],
    [dissolveGroup] and [updateGroups] the same guests have profiles, and
    each profile has its id, creation tick, traits, mood, behaviour,
    memory, modifiers and its counters of mood changes, behaviour changes
    and influenced decisions as before. *)
Theorem group_operations_social_only (H : Host) (st : PersonalityStore) :
  (∀ leaderGuestId, social_only st (snd (createGroup H leaderGuestId st)))
  ∧ (∀ guestId groupId, social_only st (snd (addToGroup guestId groupId st)))
  ∧ (∀ guestId, social_only st (removeFromGroup guestId st))
  ∧ (∀ groupId, social_only st (dissolveGroup groupId st))
  ∧ (∀ r, social_only st (store (updateGroups H {| store := st; random := r |}))).
Proof.
  split; [intros; split; [apply createGroup_keeps_profiles|apply createGroup_same_guests]|].
  split; [intros; split; [apply addToGroup_keeps_profiles|apply addToGroup_same_guests]|].
  split; [intros; split; [apply removeFromGroup_keeps_profiles
                         |apply removeFromGroup_same_guests]|].
  split; [intros; split; [apply dissolveGroup_keeps_profiles
                         |apply dissolveGroup_same_guests]|].
  intros r. split.
  - apply (updateGroups_keeps_profiles H {| store := st; random := r |}).
  - apply (updateGroups_same_guests H {| store := st; random := r |}).
Qed.

(** ** Acting on the selected behaviour *)

Lemma scan_tile_keeps_profiles (H : Host) (self : option N) (guestsOnTile : list Entity) :
  ∀ (nearby : list ident) (s : Sim),
    keeps_profiles (store s) (store (snd (scan_tile H self guestsOnTile nearby s))).
Proof.
  induction guestsOnTile as [|g l IH]; intros nearby s; cbn [scan_tile];
    [apply keeps_profiles_refl|].
  destruct (entity_id g) as [i|]; [|apply IH].
  case_bool_decide; [|apply IH].
  pose proof (getGuestData_keeps_profiles H (Num i) s) as Hg.
  destruct (getGuestData H (Num i) s) as [otherData s1]. cbn [snd] in Hg.
  case_match; (eapply keeps_profiles_trans; [exact Hg|apply IH]).
Qed.

Lemma scan_tiles_keeps_profiles (H : Host) (guest : Entity) (offsets : list (Z * Z)) :
  ∀ (nearby : list ident) (s : Sim),
    keeps_profiles (store s) (store (snd (scan_tiles H guest offsets nearby s))).
Proof.
  induction offsets as [|[dx dy] l IH]; intros nearby s; cbn [scan_tiles];
    [apply keeps_profiles_refl|].
  case_match; [apply IH|].
  destruct (getAllEntitiesOnTile H _ _) as [guestsOnTile|]; [|apply keeps_profiles_refl].
  pose proof (scan_tile_keeps_profiles H (entity_id guest) guestsOnTile nearby s) as Ht.
  destruct (scan_tile H (entity_id guest) guestsOnTile nearby s) as [nearby1 s1].
  eapply keeps_profiles_trans; [exact Ht|apply IH].
Qed.

Lemma find_existingGroup_keeps_profiles (H : Host) (nearbyGuests : list ident) :
  ∀ s : Sim, keeps_profiles (store s) (store (snd (find_existingGroup H nearbyGuests s))).
Proof.
  induction nearbyGuests as [|n l IH]; intros s; cbn [find_existingGroup];
    [apply keeps_profiles_refl|].
  pose proof (getGuestData_keeps_profiles H n s) as Hg.
  destruct (getGuestData H n s) as [nearbyData s1]. cbn [snd] in Hg.
  destruct (truthy _); [done|]. eapply keeps_profiles_trans; [exact Hg|apply IH].
Qed.

Lemma bump_socialInteractions_keeps (guestId : ident) (s : Sim) :
  keeps_profiles (store s) (store (alter_profile bump_socialInteractions guestId s)).
Proof. by apply (keeps_profiles_alter bump_socialInteractions (slot guestId)). Qed.

Lemma handleSocializing_keeps_profiles (cfg : CONFIG) (H : Host) (guestId : ident)
    (guest : Entity) (s : Sim) :
  keeps_profiles (store s) (store (handleSocializing cfg H guestId guest s)).
Proof.
  unfold handleSocializing.
  destruct (negb (socialBehaviorEnabled cfg)); [apply keeps_profiles_refl|].
  destruct (guests (store s) !! slot guestId) as [data|]; [|apply keeps_profiles_refl].
  destruct (truthy _); [apply keeps_profiles_refl|].
  unfold findNearbyGuestsForSocializing.
  pose proof (scan_tiles_keeps_profiles H guest
                (dx ← seqZ (- socialInfluenceRadius cfg) (2 * socialInfluenceRadius cfg + 1);
                 dy ← seqZ (- socialInfluenceRadius cfg) (2 * socialInfluenceRadius cfg + 1);
                 [(dx, dy)]) [] s) as H1.
  destruct (scan_tiles H guest _ [] s) as [nearbyGuests s1]. cbn [snd] in H1.
  destruct nearbyGuests as [|first rest]; [done|].
  pose proof (find_existingGroup_keeps_profiles H (first :: rest) s1) as H2.
  destruct (find_existingGroup H (first :: rest) s1) as [existingGroup s2]. cbn [snd] in H2.
  assert (H12 : keeps_profiles (store s) (store s2)) by (by eapply keeps_profiles_trans).
  destruct existingGroup as [g|].
  - destruct (groups (store s2) !! g) as [grp|]; [|done].
    destruct (_ <? _)%nat; [|done].
    pose proof (addToGroup_keeps_profiles guestId g (store s2)) as H3.
    destruct (addToGroup guestId g (store s2)) as [res st3]. cbn [snd] in H3.
    assert (H13 : keeps_profiles (store s) st3) by (by eapply keeps_profiles_trans).
    destruct res; [|done].
    eapply keeps_profiles_trans; [exact H13|].
    apply (bump_socialInteractions_keeps guestId (set_store st3 s2)).
  - pose proof (createGroup_keeps_profiles H guestId (store s2)) as H3.
    destruct (createGroup H guestId (store s2)) as [groupId st3]. cbn [snd] in H3.
    pose proof (addToGroup_keeps_profiles first groupId st3) as H4.
    destruct (addToGroup first groupId st3) as [res st4]. cbn [snd] in H4.
    assert (H14 : keeps_profiles (store s) st4).
    { eapply keeps_profiles_trans; [exact H12|]. by eapply keeps_profiles_trans. }
    destruct res; [|done].
    eapply keeps_profiles_trans; [exact H14|].
    apply (bump_socialInteractions_keeps guestId (set_store st4 s2)).
Qed.

(** [executeBehavior] keeps the behaviour the profile has entered. *)
Lemma executeBehavior_keeps_current (cfg : CONFIG) (H : Host) (guestId : ident)
    (guest : Entity) (s : Sim) (data : Profile) :
  guests (store s) !! slot guestId = Some data →
  ∃ p', guests (store (fst (executeBehavior cfg H guestId guest s))) !! slot guestId = Some p'
        ∧ behavior_current (behavior p') = behavior_current (behavior data)
        ∧ behavior_startTick (behavior p') = behavior_startTick (behavior data)
        ∧ behaviorsChanged (stats p') = behaviorsChanged (stats data)
        ∧ mood p' = mood data ∧ traits p' = traits data ∧ memory p' = memory data
        ∧ createdTick p' = createdTick data.
Proof.
  intros Hd. unfold executeBehavior.
  destruct (negb (canModifyGameState H)); [by exists data|].
  rewrite Hd.
  destruct (behavior_current (behavior data)) eqn:Hb; cbn [fst];
    try (by exists data); try (case_match; by exists data).
  - eexists. split; [apply lookup_insert_eq|].
    unfold handleSeekingRide. by destruct (negb (ridePreferencesEnabled cfg)).
  - destruct (handleSocializing_keeps_profiles cfg H guestId guest s _ _ Hd)
      as (p' & Hp' & Ho).
    exists p'. split; [done|]. unfold outside_social in Ho. simplify_eq.
    repeat split; congruence.
Qed.

(** The profile [updateBehavior] leaves for the guest. *)
Lemma updateBehavior_profile (cfg : CONFIG) (H : Host) (guestId : ident)
    (guest : Entity) (s : Sim) :
  canModifyGameState H = true →
  let data := fst (getGuestData H guestId s) in
  let s1 := snd (getGuestData H guestId s) in
  let b := fst (determineBehavior cfg H guest data (random s1)) in
  let changed := bool_decide (b ≠ behavior_current (behavior data)) in
  ∃ p', guests (store (fst (updateBehavior cfg H guestId guest s))) !! slot guestId = Some p'
        ∧ behavior_current (behavior p') = b
        ∧ behavior_startTick (behavior p')
          = (if changed then ticksElapsed H else behavior_startTick (behavior data))
        ∧ behaviorsChanged (stats p')
          = behaviorsChanged (stats data) + (if changed then 1 else 0)
        ∧ mood p' = mood data ∧ traits p' = traits data ∧ memory p' = memory data
        ∧ createdTick p' = createdTick data.
Proof.
  intros Hsrv. cbn zeta. unfold updateBehavior. rewrite Hsrv. cbn [negb].
  pose proof (getGuestData_stored H guestId s) as Hst.
  destruct (getGuestData H guestId s) as [data s1]. cbn [fst snd].
  destruct (determineBehavior cfg H guest data (random s1)) as [b r]. cbn [fst].
  case_bool_decide as Hch.
  - destruct (executeBehavior_keeps_current cfg H guestId guest
                (put_profile guestId (enter_behavior H b data)
                   {| store := store s1; random := r |}) (enter_behavior H b data))
      as (p' & Hp' & Hb & Ht & Hc & Hm & Htr & Hme & Hct); [apply lookup_insert_eq|].
    exists p'. split; [done|]. rewrite Hb, Ht, Hc, Hm, Htr, Hme, Hct. done.
  - exists data. split; [done|]. rewrite Hch.
    repeat split; lia.
Qed.

(** X29: where the game state may be modified, [updateBehavior] leaves
    the guest with a profile that holds the behaviour [determineBehavior]
    selected for it; the start tick and the count of behaviour changes
    move exactly when the selection differs from the stored behaviour;
    mood and memory are kept, whatever the behaviour's handler did. *)
Theorem updateBehavior_stores_selection (cfg : CONFIG) (H : Host) (guestId : ident)
    (guest : Entity) (s : Sim) :
  canModifyGameState H = true →
  let data := fst (getGuestData H guestId s) in
  let s1 := snd (getGuestData H guestId s) in
  let b := fst (determineBehavior cfg H guest data (random s1)) in
  let changed := bool_decide (b ≠ behavior_current (behavior data)) in
  ∃ p', guests (store (fst (updateBehavior cfg H guestId guest s))) !! slot guestId = Some p'
        ∧ behavior_current (behavior p') = b
        ∧ behavior_startTick (behavior p')
          = (if changed then ticksElapsed H else behavior_startTick (behavior data))
        ∧ behaviorsChanged (stats p')
          = behaviorsChanged (stats data) + (if changed then 1 else 0)
        ∧ mood p' = mood data ∧ memory p' = memory data.
Proof.
  intros Hsrv. cbn zeta.
  destruct (updateBehavior_profile cfg H guestId guest s Hsrv)
    as (p' & Hp' & Hb & Ht & Hc & Hm & _ & Hme & _).
  exists p'. done.
Qed.

Lemma updateBehavior_stores_selection_witness :
  ∃ p', guests (store (fst (updateBehavior default_CONFIG server_Host (Num 1)
                              hungry_guest empty_Sim))) !! 1%N = Some p'
        ∧ behavior_current (behavior p') = SEEKING_DRINK.
Proof.
  destruct (updateBehavior_stores_selection default_CONFIG server_Host (Num 1) hungry_guest
              empty_Sim eq_refl) as (p' & Hp' & Hb & _).
  exists p'. split; [exact Hp' | exact Hb].
Defined.

(** ** One guest of the pass *)

Lemma updateMood_profile (cfg : CONFIG) (H : Host) (guestId : ident) (guest : Entity)
    (s : Sim) (p0 : Profile) :
  guests (store s) !! slot guestId = Some p0 →
  ∃ p, guests (store (fst (updateMood cfg H guestId guest s))) !! slot guestId = Some p
       ∧ traits p = traits p0 ∧ createdTick p = createdTick p0 ∧ memory p = memory p0.
Proof.
  intros Hp. unfold updateMood.
  destruct (negb (canModifyGameState H)); [by exists p0|].
  rewrite (getGuestData_present H guestId s p0 Hp).
  destruct (mood_differs _ _); [|by exists p0].
  eexists. split; [apply lookup_insert_eq|]. done.
Qed.

Lemma updateBehavior_keeps (cfg : CONFIG) (H : Host) (guestId : ident) (guest : Entity)
    (s : Sim) (p0 : Profile) :
  guests (store s) !! slot guestId = Some p0 →
  ∃ p, guests (store (fst (updateBehavior cfg H guestId guest s))) !! slot guestId = Some p
       ∧ traits p = traits p0 ∧ createdTick p = createdTick p0 ∧ memory p = memory p0.
Proof.
  intros Hp. destruct (canModifyGameState H) eqn:Hsrv.
  - destruct (updateBehavior_profile cfg H guestId guest s Hsrv)
      as (p & Hp' & _ & _ & _ & _ & Htr & Hme & Hct).
    rewrite (getGuestData_present H guestId s p0 Hp) in Htr, Hme, Hct.
    by exists p.
  - unfold updateBehavior. rewrite Hsrv. by exists p0.
Qed.

(** X30: [processGuest] leaves the guest with a profile whose
    [timeInPark] is [ticksElapsed - createdTick].  It reports a creation
    exactly when the guest had no profile, and then the time in park is 0;
    for a guest that had one, the creation tick, the traits, the amount
    spent, the purchase log and the ride memories are kept. *)
Theorem processGuest_ages_profile (cfg : CONFIG) (H : Host) (i : N) (guest : Entity)
    (s : Sim) :
  let '(s', _, created) := processGuest cfg H i guest s in
  created = negb (hasGuestData (Num i) (store s))
  ∧ ∃ p, guests (store s') !! i = Some p
         ∧ timeInPark (memory p) = ticksElapsed H - createdTick p
         ∧ (created = true → createdTick p = ticksElapsed H ∧ timeInPark (memory p) = 0)
         ∧ (∀ p0, guests (store s) !! i = Some p0 →
              createdTick p = createdTick p0 ∧ traits p = traits p0
              ∧ totalSpent (memory p) = totalSpent (memory p0)
              ∧ itemsBought (memory p) = itemsBought (memory p0)
              ∧ ridesRidden (memory p) = ridesRidden (memory p0)).
Proof.
  unfold processGuest.
  set (created := negb (hasGuestData (Num i) (store s))).
  set (s0 := if created then snd (getGuestData H (Num i) s) else s).
  assert (H0 : ∃ p0, guests (store s0) !! slot (Num i) = Some p0
                     ∧ (created = true → createdTick p0 = ticksElapsed H)
                     ∧ (∀ q, guests (store s) !! i = Some q → p0 = q)).
  { unfold s0, created, hasGuestData. cbn [slot].
    destruct (guests (store s) !! i) as [q|] eqn:Hq.
    - rewrite bool_decide_eq_true_2 by by eexists. cbn [negb]. exists q.
      split; [done|]. split; [done|]. by intros ? [= <-].
    - rewrite bool_decide_eq_false_2 by (by intros [? ?]). cbn [negb].
      pose proof (getGuestData_stored H (Num i) s) as Hst.
      unfold getGuestData in *. cbn [slot] in *. rewrite Hq in *.
      unfold createNewPersonality in *.
      destruct (foldl (draw_trait H) (∅, random s) PERSONALITY_TRAITS) as [t r'].
      cbn [snd] in *. eexists. split; [exact Hst|]. done. }
  clearbody s0. destruct H0 as (p0 & Hp0 & Hnew & Hold).
  destruct (updateMood_profile cfg H (Num i) guest s0 p0 Hp0) as (p1 & Hp1 & Ht1 & Hc1 & Hm1).
  destruct (updateMood cfg H (Num i) guest s0) as [s1 guest1]. cbn [fst] in Hp1.
  destruct (updateBehavior_keeps cfg H (Num i) guest1 s1 p1 Hp1)
    as (p2 & Hp2 & Ht2 & Hc2 & Hm2).
  destruct (updateBehavior cfg H (Num i) guest1 s1) as [s2 guest2]. cbn [fst] in Hp2.
  rewrite (getGuestData_present H (Num i) s2 p2 Hp2).
  split; [done|]. eexists. split; [apply lookup_insert_eq|].
  cbn [set_timeInPark set_memory memory timeInPark createdTick traits totalSpent
       itemsBought ridesRidden].
  split; [done|]. split.
  - intros Hcr. rewrite Hc2, Hc1, (Hnew Hcr). split; [done|lia].
  - intros q Hq. rewrite <-(Hold q Hq). rewrite Hc2, Hc1, Ht2, Ht1, Hm2, Hm1. done.
Qed.
